(** * DocFlow: follow-up communication orchestration

    A shallow embedding of [CommunicationCoordinator]
    (src/lib/communicationCoordinator.ts), of [SmartMessagingEngine]
    (src/lib/smartMessaging.ts), of [DocumentClassifier]
    (src/lib/documentClassification.ts) and of [WorkflowAutomation]
    (src/lib/workflowAutomation.ts).

    Conventions of the embedding:
    - a JavaScript [number] is an exact rational ([Q]); the one place where
      the source can produce [-Infinity] ([Math.max()] of no arguments) has a
      type of its own; [undefined] is [None];
    - [Date.now()] is read from the world of the call, in milliseconds ([Z]);
    - a [Map] keyed by strings is a [gmap string _]; a [Set] of strings is the
      list of its members in insertion order;
    - the message-composition collaborator and the delivery gateway are the
      world of a call; every call on them is logged in a trace;
    - a rejected promise ([throw]) is the [Throw] result of the monad [M]. *)

From Stdlib Require Import QArith Qminmax Qround ZArith Lia Lqa.
From stdpp Require Import gmap strings list sorting pretty.

Local Open Scope Q_scope.

(** ** Numbers *)

Module Js.

Definition lt (x y : Q) : bool := negb (Qle_bool y x).
Definition le (x y : Q) : bool := Qle_bool x y.
Definition gt (x y : Q) : bool := lt y x.
Definition ge (x y : Q) : bool := le y x.

(** [Math.max(a, b)] and [Math.min(a, b)]. *)
Definition Math_max (a b : Q) : Q := if Qle_bool a b then b else a.
Definition Math_min (a b : Q) : Q := if Qle_bool a b then a else b.

(** [Math.max(...xs)]: [-Infinity] when [xs] is empty. *)
Inductive extended := NegInfinity | Finite (q : Q).

Definition Math_max_of (xs : list Q) : extended :=
  fold_left
    (fun acc x =>
       match acc with
       | NegInfinity => Finite x
       | Finite a => Finite (Math_max a x)
       end)
    xs NegInfinity.

Definition extended_lt (e : extended) (y : Q) : bool :=
  match e with
  | NegInfinity => true
  | Finite x => lt x y
  end.

(** [v || d] on an optional number: [undefined] and [0] are falsy. *)
Definition or_else (v : option Q) (d : Q) : Q :=
  match v with
  | Some x => if Qeq_bool x 0 then d else x
  | None => d
  end.

(** [s || d] on an optional string: [undefined] and the empty string are
    falsy. *)
Definition or_else_string (v : option string) (d : string) : string :=
  match v with
  | Some "" => d
  | Some s => s
  | None => d
  end.

(** [undefined < y] is [false]. *)
Definition undefined_lt (v : option Q) (y : Q) : bool :=
  match v with
  | Some x => lt x y
  | None => false
  end.

Definition sum (xs : list Q) : Q := fold_left Qplus xs 0.

Definition of_nat (n : nat) : Q := inject_Z (Z.of_nat n).

(** [xs.slice(-n)]: the last [n] elements. *)
Definition slice_last {A} (n : nat) (xs : list A) : list A :=
  drop (length xs - n) xs.

(** [xs.sort(cmp)]: the sort is stable (ECMAScript 2019), so the result is
    the one of a stable insertion; [cmp a b <= 0] keeps [a] before [b]. *)
Fixpoint sort_insert {A} (cmp : A -> A -> Q) (x : A) (l : list A) : list A :=
  match l with
  | [] => [x]
  | y :: l' => if le (cmp x y) 0 then x :: y :: l' else y :: sort_insert cmp x l'
  end.

Definition sort {A} (cmp : A -> A -> Q) (l : list A) : list A :=
  foldr (sort_insert cmp) [] l.

(** [xs.find(p)] and [xs.findIndex(p)] ([-1] when nothing matches). *)
Fixpoint find {A} (p : A -> bool) (l : list A) : option A :=
  match l with
  | [] => None
  | x :: l' => if p x then Some x else find p l'
  end.

Fixpoint findIndex {A} (p : A -> bool) (l : list A) : Z :=
  match l with
  | [] => (-1)%Z
  | x :: l' =>
      if p x then 0%Z
      else let i := findIndex p l' in if (i <? 0)%Z then (-1)%Z else (i + 1)%Z
  end.

(** [xs[i]] for an integer [i]: [undefined] out of range. *)
Definition index {A} (l : list A) (i : Z) : option A :=
  if (i <? 0)%Z then None else l !! Z.to_nat i.

End Js.

(** ** Data model (src/types/index.ts and the coordinator's interfaces) *)

(** [language] is not declared by the [Customer] interface; [generateMessage]
    reads it all the same ([customer.language || 'en']). *)
Record Customer := {
  customer_id : string;
  full_name : string;
  language : option string
}.

(** A date string, by what [new Date(s).getTime()] makes of it: the empty
    string (falsy), a string that does not parse ([NaN]), or an instant. *)
Inductive DateString :=
| EmptyDate
| InvalidDate
| DateAt (ms : Z).

Record CustomerDocument := {
  document_id : string;
  document_name : string;
  document_type : string;
  due_date : DateString;
  reminder_count : option Q
}.

Record Thresholds := {
  th_urgency : Q;
  th_sentiment : Q;
  th_engagement : Q
}.

Record ChannelConfig := {
  channel_type : string;
  channel_priority : Q;
  waitTime : Q;
  templates : list string;
  fallbackChannel : option string;
  thresholds : Thresholds
}.

Record ResponseMetrics := {
  channel : string;
  responseTime : Q;
  sentiment : Q;
  wasSuccessful : bool;
  engagementScore : Q;
  followUpRequired : bool
}.

(** [lastResponse] is [history[history.length - 1]], a [ResponseMetrics]. *)
Record EscalationContext := {
  ctx_customer : Customer;
  ctx_document : CustomerDocument;
  attempts : nat;
  lastResponse : option ResponseMetrics;
  urgencyScore : Q;
  ctx_engagementScore : Q;
  ctx_channelEffectiveness : gmap string Q
}.

(** A rule's [condition] is a closure over the context; the built-in ones
    also read the clock, which is its first argument here. *)
Record EscalationRule := {
  condition : Z -> EscalationContext -> bool;
  action : string;
  priority : Q;
  cooldown : option Q;
  requiredApproval : option bool
}.

Record AutoAdjustment := {
  enabled : bool;
  factors : list string;
  learningRate : Q
}.

Record CommunicationFlow := {
  channels : list ChannelConfig;
  maxAttempts : Q;
  escalationRules : list EscalationRule;
  autoAdjustment : AutoAdjustment
}.

(** ** The built-in flow catalog *)

Definition email : ChannelConfig :=
  {| channel_type := "email"; channel_priority := 1; waitTime := 48;
     templates := ["friendly_reminder"; "follow_up"];
     fallbackChannel := None;
     thresholds := {| th_urgency := 0.5; th_sentiment := 0.3; th_engagement := 0.4 |} |}.

Definition whatsapp : ChannelConfig :=
  {| channel_type := "whatsapp"; channel_priority := 2; waitTime := 24;
     templates := ["urgent_reminder"; "quick_check"];
     fallbackChannel := Some "sms";
     thresholds := {| th_urgency := 0.7; th_sentiment := 0.2; th_engagement := 0.6 |} |}.

Definition phone : ChannelConfig :=
  {| channel_type := "phone"; channel_priority := 3; waitTime := 12;
     templates := ["final_notice"];
     fallbackChannel := None;
     thresholds := {| th_urgency := 0.9; th_sentiment := 0.1; th_engagement := 0.8 |} |}.

Definition sms : ChannelConfig :=
  {| channel_type := "sms"; channel_priority := 2; waitTime := 24;
     templates := ["brief_reminder"];
     fallbackChannel := None;
     thresholds := {| th_urgency := 0.6; th_sentiment := 0.3; th_engagement := 0.5 |} |}.

Definition portal : ChannelConfig :=
  {| channel_type := "portal"; channel_priority := 1; waitTime := 72;
     templates := ["portal_notification"];
     fallbackChannel := None;
     thresholds := {| th_urgency := 0.4; th_sentiment := 0.4; th_engagement := 0.3 |} |}.

(** [ctx.sentiment]: the context has no such property, the read is
    [undefined]. *)
Definition ctx_sentiment (ctx : EscalationContext) : option Q := None.

Definition rule_manager : EscalationRule :=
  {| condition := fun _ ctx => (2 <=? attempts ctx)%nat && Js.gt (urgencyScore ctx) 0.8;
     action := "escalate_to_manager"; priority := 1;
     cooldown := None; requiredApproval := Some true |}.

Definition rule_human : EscalationRule :=
  {| condition := fun _ ctx => Js.undefined_lt (ctx_sentiment ctx) (-0.5) && (1 <? attempts ctx)%nat;
     action := "human_intervention"; priority := 2;
     cooldown := Some 24; requiredApproval := None |}.

Definition rule_urgent : EscalationRule :=
  {| condition := fun now ctx =>
       match due_date (ctx_document ctx) with
       | EmptyDate => false
       | InvalidDate => false
       | DateAt due => (due - now <? 48 * 60 * 60 * 1000)%Z
       end;
     action := "urgent_escalation"; priority := 3;
     cooldown := None; requiredApproval := None |}.

Definition rule_switch : EscalationRule :=
  {| condition := fun _ ctx => Js.lt (ctx_engagementScore ctx) 0.3 && (3 <? attempts ctx)%nat;
     action := "switch_channel"; priority := 4;
     cooldown := None; requiredApproval := None |}.

Definition rule_alternative : EscalationRule :=
  {| condition := fun _ ctx =>
       let channelEffectiveness := (map_to_list (ctx_channelEffectiveness ctx)).*2 in
       Js.extended_lt (Js.Math_max_of channelEffectiveness) 0.4;
     action := "try_alternative_channel"; priority := 5;
     cooldown := None; requiredApproval := None |}.

Definition default_flow : CommunicationFlow :=
  {| channels := [email; whatsapp; phone; sms; portal];
     maxAttempts := 5;
     escalationRules := [rule_manager; rule_human; rule_urgent; rule_switch; rule_alternative];
     autoAdjustment :=
       {| enabled := true;
          factors := ["response_time"; "sentiment"; "engagement"];
          learningRate := 0.1 |} |}.

Definition flows : gmap string CommunicationFlow := {[ "default" := default_flow ]}.

(** ** Coordinator state, collaborators and the orchestration monad *)

Record Coordinator := {
  responseHistory : gmap string (list ResponseMetrics);
  channelEffectiveness : gmap string (gmap string Q);
  escalationHistory : gmap string (list string)
}.

Definition fresh : Coordinator :=
  {| responseHistory := ∅; channelEffectiveness := ∅; escalationHistory := ∅ |}.

(** What [sendMessage] resolves to. *)
Record Response := {
  success : bool;
  time : Q;
  response_sentiment : Q
}.

(** The composed message ([SmartFollowUp]); opaque to the coordinator. *)
Record SmartFollowUp := {
  followup_customer : string;
  followup_document : string;
  followup_channel : string;
  template_id : string
}.

Record MessageContext := {
  previousInteractions : list ResponseMetrics;
  preferredChannel : string;
  preferredLanguage : string;
  responseRate : Q;
  typicalResponseTime : Q;
  escalationContext : EscalationContext
}.

(** The world of one orchestration call: the clock, what the composition
    collaborator ([documentProcessor.analyze] followed by
    [smartMessaging.generateSmartMessage]) answers ([None] when it throws),
    and the draw of the simulated gateway. *)
Record World := {
  now : Z;
  compose : Customer -> CustomerDocument -> MessageContext -> option SmartFollowUp;
  draw : Response
}.

Inductive Event :=
| Compose (customer : string) (channelType : string)
| SendMessage (channelType : string) (message : SmartFollowUp).

Inductive Error :=
| FlowNotFound (flowType : string)
| TypeError
| CollaboratorError.

Inductive Result (A : Type) :=
| Return (a : A)
| Throw (e : Error).
Arguments Return {A} a.
Arguments Throw {A} e.

Definition M (A : Type) : Type :=
  Coordinator * list Event -> Coordinator * list Event * Result A.

Definition ret {A} (a : A) : M A := fun st => (st, Return a).
Definition throw {A} (e : Error) : M A := fun st => (st, Throw e).
Definition bind {A B} (m : M A) (k : A -> M B) : M B :=
  fun st =>
    match m st with
    | (st', Return a) => k a st'
    | (st', Throw e) => (st', Throw e)
    end.
Definition get : M Coordinator := fun st => (st, Return st.1).
Definition modify (f : Coordinator -> Coordinator) : M unit :=
  fun st => ((f st.1, st.2), Return tt).
Definition emit (e : Event) : M unit :=
  fun st => ((st.1, st.2 ++ [e]), Return tt).

Notation "'let*' x := m 'in' k" := (bind m (fun x => k))
  (at level 10, x name, m at level 100, k at level 200).
Notation "m ;; k" := (bind m (fun _ => k))
  (at level 100, k at level 200, right associativity).

(** Running a call from a store, with an empty trace. *)
Definition run {A} (m : M A) (s : Coordinator) : Coordinator * list Event * Result A :=
  m (s, []).

(** The results an orchestration call resolves to. *)
Inductive FlowResult :=
| ActiveEscalations (activeEscalations : list string)
| Escalation (status : string) (context : EscalationContext)
| Delivery (response : Response).

Definition status_of (r : FlowResult) : option string :=
  match r with
  | ActiveEscalations _ => Some "escalated"
  | Escalation status _ => Some status
  | Delivery _ => None
  end.

(** ** History store and scoring primitives *)

Definition getInteractionHistory (s : Coordinator) (customerId : string) : list ResponseMetrics :=
  default [] (responseHistory s !! customerId).

Definition getCustomerHistory (s : Coordinator) (customerId : string) : list ResponseMetrics :=
  default [] (responseHistory s !! customerId).

Definition trackResponse (customerId : string) (metrics : ResponseMetrics) (s : Coordinator) : Coordinator :=
  let history := default [] (responseHistory s !! customerId) in
  {| responseHistory := <[customerId := history ++ [metrics]]> (responseHistory s);
     channelEffectiveness := channelEffectiveness s;
     escalationHistory := escalationHistory s |}.

Definition getChannelHistory (s : Coordinator) (customerId channelType : string) : list ResponseMetrics :=
  filter (fun m => channel m = channelType) (getInteractionHistory s customerId).

Definition getChannelEffectiveness (s : Coordinator) (customerId : string) : gmap string Q :=
  default ∅ (channelEffectiveness s !! customerId).

Definition updateChannelEffectiveness (customerId channelType : string) (adjustment : Q)
    (s : Coordinator) : Coordinator :=
  let customerEffectiveness := default ∅ (channelEffectiveness s !! customerId) in
  let currentEffectiveness := Js.or_else (customerEffectiveness !! channelType) 0.5 in
  {| responseHistory := responseHistory s;
     channelEffectiveness :=
       <[customerId :=
           <[channelType := Js.Math_max 0 (Js.Math_min 1 (currentEffectiveness + adjustment))]>
             customerEffectiveness]> (channelEffectiveness s);
     escalationHistory := escalationHistory s |}.

Definition successes (history : list ResponseMetrics) : list ResponseMetrics :=
  filter (fun h => wasSuccessful h = true) history.

Definition calculateResponseRate (s : Coordinator) (customerId : string) : Q :=
  let history := getInteractionHistory s customerId in
  match history with
  | [] => 0.5
  | _ => Js.of_nat (length (successes history)) / Js.of_nat (length history)
  end.

Definition calculateAverageResponseTime (s : Coordinator) (customerId : string) : Q :=
  let history := getInteractionHistory s customerId in
  match history with
  | [] => 24
  | _ => Js.sum (responseTime <$> history) / Js.of_nat (length history)
  end.

(** The body is the placeholder of the source: "Implement urgency
    calculation based on document properties", then [return 0.5]. *)
Definition calculateUrgencyScore (document : CustomerDocument) : Q := 0.5.

Definition calculateEngagementScore (customer : Customer) (history : list ResponseMetrics) : Q :=
  match history with
  | [] => 0.5
  | _ =>
      let recentHistory := Js.slice_last 5 history in
      Js.sum (engagementScore <$> recentHistory) / Js.of_nat (length recentHistory)
  end.

Definition buildEscalationContext (s : Coordinator) (customer : Customer)
    (document : CustomerDocument) (history : list ResponseMetrics) : EscalationContext :=
  {| ctx_customer := customer;
     ctx_document := document;
     attempts := length history;
     lastResponse := last history;
     urgencyScore := calculateUrgencyScore document;
     ctx_engagementScore := calculateEngagementScore customer history;
     ctx_channelEffectiveness := getChannelEffectiveness s (customer_id customer) |}.

(** ** Channel selection *)

Definition calculateChannelScore (s : Coordinator) (channel : ChannelConfig)
    (context : EscalationContext) : Q :=
  let urgencyPart :=
    if Js.ge (urgencyScore context) (th_urgency (thresholds channel)) then 0.3 else 0 in
  let sentimentPart :=
    match lastResponse context with
    | Some r => if Js.ge (sentiment r) (th_sentiment (thresholds channel)) then 0.2 else 0
    | None => 0
    end in
  let engagementPart :=
    if Js.ge (ctx_engagementScore context) (th_engagement (thresholds channel)) then 0.2 else 0 in
  let channelHistory :=
    getChannelHistory s (customer_id (ctx_customer context)) (channel_type channel) in
  let historyPart :=
    match channelHistory with
    | [] => 0
    | _ =>
        let successRate :=
          Js.of_nat (length (successes channelHistory)) / Js.of_nat (length channelHistory) in
        successRate * 0.3
    end in
  0 + urgencyPart + sentimentPart + engagementPart + historyPart.

Definition scoreChannel (s : Coordinator) (context : EscalationContext)
    (channel : ChannelConfig) : ChannelConfig * Q :=
  let baseScore := calculateChannelScore s channel context in
  let effectivenessBonus :=
    Js.or_else (ctx_channelEffectiveness context !! channel_type channel) 0 in
  (channel, baseScore + effectivenessBonus).

(** [scores.sort((a, b) => b.score - a.score)[0].channel]; reading
    [.channel] of [undefined] throws when the catalog is empty. *)
Definition selectOptimalChannel (s : Coordinator) (context : EscalationContext)
    (flow : CommunicationFlow) : Result ChannelConfig :=
  let scores := scoreChannel s context <$> channels flow in
  match Js.sort (fun a b => b.2 - a.2) scores with
  | best :: _ => Return best.1
  | [] => Throw TypeError
  end.

(** ** Escalation, composition, delivery *)

(** [set.add(x)] on a [Set] kept in insertion order. *)
Definition set_add (x : string) (l : list string) : list string :=
  if decide (x ∈ l) then l else l ++ [x].

Definition handleActiveEscalations (customer : Customer) (document : CustomerDocument)
    (activeEscalations : list string) : M FlowResult :=
  ret (ActiveEscalations activeEscalations).

Definition handleManagerEscalation (customer : Customer) (document : CustomerDocument)
    (context : EscalationContext) : M FlowResult :=
  ret (Escalation "escalated_to_manager" context).

Definition handleHumanIntervention (customer : Customer) (document : CustomerDocument)
    (context : EscalationContext) : M FlowResult :=
  ret (Escalation "human_intervention_required" context).

Definition handleUrgentEscalation (customer : Customer) (document : CustomerDocument)
    (context : EscalationContext) : M FlowResult :=
  ret (Escalation "urgent_escalation" context).

Definition handleChannelSwitch (customer : Customer) (document : CustomerDocument)
    (context : EscalationContext) : M FlowResult :=
  ret (Escalation "channel_switch_required" context).

Definition handleDefaultEscalation (customer : Customer) (document : CustomerDocument)
    (context : EscalationContext) : M FlowResult :=
  ret (Escalation "default_escalation" context).

Definition escalationId (w : World) (rule : EscalationRule) : string :=
  action rule +:+ "_" +:+ pretty (now w).

Definition recordEscalation (customerId escalationId : string) (s : Coordinator) : Coordinator :=
  let customerEscalations := default [] (escalationHistory s !! customerId) in
  {| responseHistory := responseHistory s;
     channelEffectiveness := channelEffectiveness s;
     escalationHistory :=
       <[customerId := set_add escalationId customerEscalations]> (escalationHistory s) |}.

Definition handleEscalation (w : World) (rule : EscalationRule) (customer : Customer)
    (document : CustomerDocument) (context : EscalationContext) : M FlowResult :=
  modify (recordEscalation (customer_id customer) (escalationId w rule));;
  if decide (action rule = "escalate_to_manager") then
    handleManagerEscalation customer document context
  else if decide (action rule = "human_intervention") then
    handleHumanIntervention customer document context
  else if decide (action rule = "urgent_escalation") then
    handleUrgentEscalation customer document context
  else if decide (action rule = "switch_channel") then
    handleChannelSwitch customer document context
  else
    handleDefaultEscalation customer document context.

(** The [messageContext] object that [generateMessage] hands to the
    composition collaborator. *)
Definition messageContext (s : Coordinator) (customer : Customer) (channel : ChannelConfig)
    (context : EscalationContext) : MessageContext :=
  {| previousInteractions := getInteractionHistory s (customer_id customer);
     preferredChannel := channel_type channel;
     preferredLanguage := Js.or_else_string (language customer) "en";
     responseRate := calculateResponseRate s (customer_id customer);
     typicalResponseTime := calculateAverageResponseTime s (customer_id customer);
     escalationContext := context |}.

(** The composition is the world's: [compose] answers for
    [documentProcessor.analyze] followed by
    [smartMessaging.generateSmartMessage], and [None] is either of them
    throwing. In the sources it is the first that throws, on every input
    ([no_analyze] below). *)
Definition generateMessage (w : World) (customer : Customer) (document : CustomerDocument)
    (channel : ChannelConfig) (context : EscalationContext) : M SmartFollowUp :=
  let* s := get in
  emit (Compose (customer_id customer) (channel_type channel));;
  match compose w customer document (messageContext s customer channel context) with
  | Some message => ret message
  | None => throw CollaboratorError
  end.

Definition sendMessage (w : World) (channel : string) (message : SmartFollowUp) : M Response :=
  emit (SendMessage channel message);;
  ret (draw w).

Definition determineNextChannel (flow : CommunicationFlow) (currentChannel : ChannelConfig)
    (context : EscalationContext) : option ChannelConfig :=
  let fallbackConfig :=
    match fallbackChannel currentChannel with
    | Some "" => None
    | Some fallback =>
        Js.find (fun c => bool_decide (channel_type c = fallback)) (channels flow)
    | None => None
    end in
  match fallbackConfig with
  | Some c => Some c
  | None =>
      let nextChannelIndex :=
        (Js.findIndex
           (fun c => bool_decide (channel_type c = channel_type currentChannel))
           (channels flow) + 1)%Z in
      match Js.index (channels flow) nextChannelIndex with
      | Some c => Some c
      | None => Js.index (channels flow) 0
      end
  end.

Definition calculateWaitTime (channel : ChannelConfig) (customer : Customer)
    (context : EscalationContext) : Q :=
  let baseWaitTime := waitTime channel in
  let urgencyFactor := Js.Math_max 0 (1 - urgencyScore context) in
  let engagementFactor := Js.Math_max 0.5 (ctx_engagementScore context) in
  Js.Math_max (baseWaitTime * urgencyFactor * engagementFactor) (baseWaitTime * 0.25).

Record FollowUp := {
  scheduledTime : Q;
  followUpChannel : ChannelConfig;
  followUpMessage : SmartFollowUp
}.

(** [generateMessage] reads [nextChannel.type]: it throws when the catalog
    is empty and there is no next channel. *)
Definition scheduleFollowUp (w : World) (customer : Customer) (document : CustomerDocument)
    (flow : CommunicationFlow) (currentChannel : ChannelConfig)
    (context : EscalationContext) : M FollowUp :=
  let nextChannel := determineNextChannel flow currentChannel context in
  let waitTime := calculateWaitTime currentChannel customer context in
  match nextChannel with
  | None => throw TypeError
  | Some nextChannel =>
      let* message := generateMessage w customer document nextChannel context in
      ret {| scheduledTime := inject_Z (now w) + waitTime * 60 * 60 * 1000;
             followUpChannel := nextChannel;
             followUpMessage := message |}
  end.

Definition adjustFlow (flow : CommunicationFlow) (context : EscalationContext)
    (response : Response) : M CommunicationFlow :=
  ret flow.

(** ** The orchestrator *)

(** The metrics that [executeChannelStrategy] hands to [trackResponse]. *)
Definition recorded (channel : ChannelConfig) (context : EscalationContext) (response : Response)
    : ResponseMetrics :=
  {| channel := channel_type channel;
     responseTime := time response;
     sentiment := response_sentiment response;
     wasSuccessful := success response;
     engagementScore := ctx_engagementScore context;
     followUpRequired := negb (success response) |}.

(** The [applicableRules] of [executeChannelStrategy]: the rules whose
    condition holds, sorted by priority number. *)
Definition applicableRules (w : World) (flow : CommunicationFlow) (context : EscalationContext)
    : list EscalationRule :=
  Js.sort (fun a b => priority a - priority b)
    (List.filter (fun rule => condition rule (now w) context) (escalationRules flow)).

Definition executeChannelStrategy (w : World) (customer : Customer) (document : CustomerDocument)
    (channel : ChannelConfig) (flow : CommunicationFlow) (context : EscalationContext)
    : M FlowResult :=
  let* s := get in
  let activeEscalations := default [] (escalationHistory s !! customer_id customer) in
  if (0 <? length activeEscalations)%nat then
    handleActiveEscalations customer document activeEscalations
  else
    match applicableRules w flow context with
    | rule :: _ => handleEscalation w rule customer document context
    | [] =>
        let* message := generateMessage w customer document channel context in
        let* response := sendMessage w (channel_type channel) message in
        modify (trackResponse (customer_id customer) (recorded channel context response));;
        modify (updateChannelEffectiveness (customer_id customer) (channel_type channel)
                  (if success response then 0.1 else -0.1));;
        (if negb (success response)
         then (let* _ := scheduleFollowUp w customer document flow channel context in ret tt)
         else ret tt);;
        (if enabled (autoAdjustment flow)
         then (let* _ := adjustFlow flow context response in ret tt)
         else ret tt);;
        ret (Delivery response)
    end.

Definition initiateFlow (w : World) (customer : Customer) (document : CustomerDocument)
    (flowType : string) : M FlowResult :=
  match flows !! flowType with
  | None => throw (FlowNotFound flowType)
  | Some flow =>
      let* s := get in
      let customerHistory := getCustomerHistory s (customer_id customer) in
      let context := buildEscalationContext s customer document customerHistory in
      match selectOptimalChannel s context flow with
      | Throw e => throw e
      | Return initialChannel =>
          executeChannelStrategy w customer document initialChannel flow context
      end
  end.

(** ** The urgency score of the messaging engine (src/lib/smartMessaging.ts) *)

Module SmartMessaging.

(** [Math.floor((dueDate.getTime() - now.getTime()) / (1000*60*60*24))];
    [None] is [NaN], for a due date that does not parse. *)
Definition daysUntilDue (now : Z) (document : CustomerDocument) : option Z :=
  match due_date document with
  | DateAt due => Some ((due - now) / (1000 * 60 * 60 * 24))%Z
  | EmptyDate | InvalidDate => None
  end.

Definition calculateUrgencyScore (now : Z) (document : CustomerDocument) : Q :=
  let proximity :=
    match daysUntilDue now document with
    | Some d =>
        if (d <? 0)%Z then 100
        else if (d <? 2)%Z then 80
        else if (d <? 5)%Z then 60
        else if (d <? 10)%Z then 40
        else 20
    | None => 20
    end in
  let legal := if decide (document_type document = "Legal") then 20 else 0 in
  let financial := if decide (document_type document = "Financial") then 15 else 0 in
  let reminders :=
    match reminder_count document with
    | Some n => if Qeq_bool n 0 then 0 else Js.Math_min 20 (n * 5)
    | None => 0
    end in
  Js.Math_min 100 (0 + proximity + legal + financial + reminders).

End SmartMessaging.

(** ** Reference definitions, after the words of the specification *)

Module Reference.

(** Wait time: max(base × max(0, 1 − urgency) × max(0.5, engagement),
    base × 0.25). *)
Definition wait (base urgency engagement : Q) : Q :=
  Qmax (base * Qmax 0 (1 - urgency) * Qmax 0.5 engagement) (base * 0.25).

(** Urgency: due-date proximity bucket, plus type bonus, plus +5 per prior
    reminder capped at 20, within [0,100]. Days are exact, not rounded. *)
Definition proximity (now due : Z) : Q :=
  let days := inject_Z (due - now) / inject_Z 86400000 in
  if Js.lt days 0 then 100
  else if Js.lt days 2 then 80
  else if Js.lt days 5 then 60
  else if Js.lt days 10 then 40
  else 20.

Definition typeBonus (type : string) : Q :=
  if decide (type = "Legal") then 20
  else if decide (type = "Financial") then 15
  else 0.

Definition reminderBonus (reminders : option Q) : Q :=
  Qmin 20 (5 * default 0 reminders).

Definition urgency (now due : Z) (type : string) (reminders : option Q) : Q :=
  Qmin 100 (proximity now due + typeBonus type + reminderBonus reminders).

(** Engagement: response rate over the last 5 attempts × 0.6 plus average
    sentiment over the last 5 attempts × 0.4; 0.5 on an empty history. *)
Definition engagement (history : list ResponseMetrics) : Q :=
  match history with
  | [] => 0.5
  | _ =>
      let recent := Js.slice_last 5 history in
      let responseRate := Js.of_nat (length (successes recent)) / Js.of_nat (length recent) in
      let averageSentiment := Js.sum (sentiment <$> recent) / Js.of_nat (length recent) in
      responseRate * 0.6 + averageSentiment * 0.4
  end.

(** Effectiveness update: the stored value, 0.5 on first use, plus the
    adjustment, clamped to [0,1]. *)
Definition effectivenessUpdate (stored : option Q) (adjustment : Q) : Q :=
  Qmax 0 (Qmin 1 (default 0.5 stored + adjustment)).

(** Channel score: the four weighted parts plus the stored effectiveness,
    [unset] standing for a channel with no stored value. *)
Definition successRate (history : list ResponseMetrics) : Q :=
  match history with
  | [] => 0
  | _ => Js.of_nat (length (successes history)) / Js.of_nat (length history)
  end.

Definition channelScore (unset : Q) (s : Coordinator) (context : EscalationContext)
    (c : ChannelConfig) : Q :=
  (if Js.ge (urgencyScore context) (th_urgency (thresholds c)) then 0.3 else 0)
  + (match lastResponse context with
     | Some r => if Js.ge (sentiment r) (th_sentiment (thresholds c)) then 0.2 else 0
     | None => 0
     end)
  + (if Js.ge (ctx_engagementScore context) (th_engagement (thresholds c)) then 0.2 else 0)
  + 0.3 * successRate (getChannelHistory s (customer_id (ctx_customer context)) (channel_type c))
  + default unset (ctx_channelEffectiveness context !! channel_type c).

(** [best] is the highest-scoring entry of [l], the first listed among
    equals. *)
Definition first_highest {A} (score : A -> Q) (l : list A) (best : A) : Prop :=
  exists before after,
    l = before ++ best :: after
    /\ (forall x, x ∈ before -> score x < score best)
    /\ (forall x, x ∈ after -> score x <= score best).

(** The executable form of the same choice. *)
Fixpoint pick {A} (score : A -> Q) (l : list A) : option A :=
  match l with
  | [] => None
  | x :: l' =>
      match pick score l' with
      | Some y => if Js.le (score y) (score x) then Some x else Some y
      | None => Some x
      end
  end.

(** [r] comes first when the matching rules are put in ascending priority
    order: no matching rule has a smaller priority number, and none listed
    before it has the same one. *)
Definition first_match (now : Z) (context : EscalationContext)
    (rules : list EscalationRule) (r : EscalationRule) : Prop :=
  exists before after,
    rules = before ++ r :: after
    /\ condition r now context = true
    /\ (forall x, x ∈ before -> condition x now context = true -> priority r < priority x)
    /\ (forall x, x ∈ after -> condition x now context = true -> priority r <= priority x).

(** The status each action tag is dispatched to. *)
Definition dispatched (tag : string) : string :=
  if decide (tag = "escalate_to_manager") then "escalated_to_manager"
  else if decide (tag = "human_intervention") then "human_intervention_required"
  else if decide (tag = "urgent_escalation") then "urgent_escalation"
  else if decide (tag = "switch_channel") then "channel_switch_required"
  else "default_escalation".

Definition known_tags : list string :=
  ["escalate_to_manager"; "human_intervention"; "urgent_escalation"; "switch_channel"].

(** The mean of a list of numbers: their total over their number. *)
Fixpoint total (xs : list Q) : Q :=
  match xs with
  | [] => 0
  | x :: rest => x + total rest
  end.

Definition mean (xs : list Q) : Q := total xs / inject_Z (Z.of_nat (length xs)).

(** [recent] is what [history.slice(-5)] keeps of [history]: its last five
    entries, or all of them when there are fewer. *)
Definition last_five {A} (history recent : list A) : Prop :=
  exists older,
    history = older ++ recent
    /\ (length recent = 5%nat \/ (older = [] /\ (length recent <= 5)%nat)).

End Reference.

(** ** Runs of calls and what is observed of them *)

Definition with_maxAttempts (n : Q) (flow : CommunicationFlow) : CommunicationFlow :=
  {| channels := channels flow;
     maxAttempts := n;
     escalationRules := escalationRules flow;
     autoAdjustment := autoAdjustment flow |}.

(** A call of the orchestrator, and a run of several calls in sequence. *)
Record Call := {
  call_world : World;
  call_customer : Customer;
  call_document : CustomerDocument;
  call_flowType : string
}.

Definition step (s : Coordinator) (c : Call) : Coordinator * list Event * Result FlowResult :=
  run (initiateFlow (call_world c) (call_customer c) (call_document c) (call_flowType c)) s.

Fixpoint steps (s : Coordinator) (calls : list Call) : Coordinator * list Event :=
  match calls with
  | [] => (s, [])
  | c :: calls' =>
      let '(s', trace, _) := step s c in
      let '(s'', trace') := steps s' calls' in
      (s'', trace ++ trace')
  end.

Definition is_send (e : Event) : bool :=
  match e with
  | SendMessage _ _ => true
  | Compose _ _ => false
  end.

Definition open_escalations (s : Coordinator) (customerId : string) : list string :=
  default [] (escalationHistory s !! customerId).

(** The answer to every call for [customer] on store [s] is the list [ids]
    of open escalations: the store is left as found and no collaborator is
    called. A flow type that is not in the catalog is rejected before that,
    equally without a call or a change. *)
Definition short_circuits (s : Coordinator) (customer : Customer) (ids : list string) : Prop :=
  (forall w document channel flow context,
     run (executeChannelStrategy w customer document channel flow context) s
     = (s, [], Return (ActiveEscalations ids)))
  /\ (forall w document flowType,
        is_Some (flows !! flowType) ->
        run (initiateFlow w customer document flowType) s
        = (s, [], Return (ActiveEscalations ids)))
  /\ (forall w document flowType,
        flows !! flowType = None ->
        run (initiateFlow w customer document flowType) s
        = (s, [], Throw (FlowNotFound flowType))).

(** The outcome of a call on store [s] in which one rule fires: the rule is
    the first match in ascending priority order, its escalation id is the
    only one recorded, its action is dispatched and no collaborator is
    called. *)
Definition fires_first_match (w : World) (customer : Customer) (flow : CommunicationFlow)
    (context : EscalationContext) (s : Coordinator)
    (outcome : Coordinator * list Event * Result FlowResult) : Prop :=
  exists rule,
    Reference.first_match (now w) context (escalationRules flow) rule
    /\ outcome
       = (recordEscalation (customer_id customer) (escalationId w rule) s, [],
          Return (Escalation (Reference.dispatched (action rule)) context))
    /\ open_escalations outcome.1.1 (customer_id customer) = [escalationId w rule].

(** A store in which no attempt was ever recorded. *)
Definition untouched (s : Coordinator) : Prop :=
  responseHistory s = ∅ /\ channelEffectiveness s = ∅.

(** Every stored effectiveness value lies in [0,1]. *)
Definition effectiveness_in_range (s : Coordinator) : Prop :=
  forall customerId channelType (m : gmap string Q) (v : Q),
    channelEffectiveness s !! customerId = Some m ->
    m !! channelType = Some v ->
    0 <= v <= 1.

(** The store after an attempt: the response tracked, then the channel's
    effectiveness nudged. *)
Definition after_delivery (w : World) (customer : Customer) (channel : ChannelConfig)
    (context : EscalationContext) (s : Coordinator) : Coordinator :=
  updateChannelEffectiveness (customer_id customer) (channel_type channel)
    (if success (draw w) then 0.1 else -0.1)
    (trackResponse (customer_id customer) (recorded channel context (draw w)) s).

(** ** Sample data *)

Definition now0 : Z := 1700000000000.
Definition day : Z := 86400000.

Definition alice : Customer :=
  {| customer_id := "c1"; full_name := "Alice"; language := None |}.

Definition contract (due : DateString) : CustomerDocument :=
  {| document_id := "d1"; document_name := "Contract"; document_type := "Legal";
     due_date := due; reminder_count := Some 1 |}.

Definition overdue : CustomerDocument := contract (DateAt (now0 - 3 * day)).
Definition due_later : CustomerDocument := contract (DateAt (now0 + 30 * day)).

(** A composition that returns a message, as it would with a
    [documentProcessor] that has an [analyze] method. *)
Definition composer (customer : Customer) (document : CustomerDocument)
    (context : MessageContext) : option SmartFollowUp :=
  Some {| followup_customer := customer_id customer;
          followup_document := document_id document;
          followup_channel := preferredChannel context;
          template_id := "friendly_reminder" |}.

Definition delivered : Response := {| success := true; time := 2; response_sentiment := 0.5 |}.
Definition undelivered : Response := {| success := false; time := 20; response_sentiment := -0.2 |}.

Definition world (r : Response) : World :=
  {| now := now0; compose := composer; draw := r |}.

Definition attempt (channelType : string) (ok : bool) (s : Q) : ResponseMetrics :=
  {| channel := channelType; responseTime := 4; sentiment := s; wasSuccessful := ok;
     engagementScore := 0.5; followUpRequired := negb ok |}.

(** Five attempts on email, four of them successful, average sentiment 0.6. *)
Definition five_attempts : list ResponseMetrics :=
  [attempt "email" true 0.6; attempt "email" true 0.8; attempt "email" false 0.2;
   attempt "email" true 0.6; attempt "email" true 0.8].

(** Six attempts recorded at six different engagement scores. *)
Definition recorded_at (e : Q) : ResponseMetrics :=
  {| channel := "email"; responseTime := 4; sentiment := 0.6; wasSuccessful := true;
     engagementScore := e; followUpRequired := false |}.

Definition varied_attempts : list ResponseMetrics :=
  recorded_at <$> [1; 0.2; 0.4; 0.6; 0.8; 0].

(** The composition as the sources have it: the [documentProcessor] that the
    coordinator imports (documentProcessing.ts) has no [analyze] method, so
    that [generateMessage] throws on every input, before
    [smartMessaging.generateSmartMessage] is reached. *)
Definition no_analyze (customer : Customer) (document : CustomerDocument)
    (context : MessageContext) : option SmartFollowUp := None.

Definition world_of_src (r : Response) : World :=
  {| now := now0; compose := no_analyze; draw := r |}.

(** The store after one failed delivery on email. *)
Definition after_one_failure : Coordinator :=
  {| responseHistory := {[ "c1" := [attempt "email" false (-1)] ]};
     channelEffectiveness := {[ "c1" := {[ "email" := 0.4 ]} ]};
     escalationHistory := ∅ |}.

(** A store with seven recorded attempts and no open escalation. *)
Definition seven_attempts : Coordinator :=
  {| responseHistory := {[ "c1" := five_attempts ++ [attempt "sms" false 0.1; attempt "email" true 0.7] ]};
     channelEffectiveness := {[ "c1" := {[ "email" := 0.9; "sms" := 0.4 ]} ]};
     escalationHistory := ∅ |}.

(** A store where the effectiveness of email has been clamped to 0. *)
Definition exhausted : Coordinator :=
  {| responseHistory := {[ "c1" := replicate 6 (attempt "email" false 0.1) ]};
     channelEffectiveness := {[ "c1" := {[ "email" := 0; "sms" := 0.5 ]} ]};
     escalationHistory := ∅ |}.

(** A store with one open escalation. *)
Definition escalated : Coordinator :=
  {| responseHistory := ∅;
     channelEffectiveness := ∅;
     escalationHistory := {[ "c1" := ["urgent_escalation_1699999999000"] ]} |}.

(** Two rules that hold on every context, listed with priority 3 first. *)
Definition rule_low : EscalationRule :=
  {| condition := fun _ _ => true; action := "switch_channel"; priority := 3;
     cooldown := None; requiredApproval := None |}.
Definition rule_high : EscalationRule :=
  {| condition := fun _ _ => true; action := "human_intervention"; priority := 1;
     cooldown := None; requiredApproval := None |}.

Definition two_rules : CommunicationFlow :=
  {| channels := channels default_flow;
     maxAttempts := 5;
     escalationRules := [rule_low; rule_high];
     autoAdjustment := autoAdjustment default_flow |}.

(** ** Observations for the further properties *)

(** The store after [trackResponse] was called on each of [records] in turn. *)
Definition tracked (customerId : string) (records : list ResponseMetrics) (s : Coordinator)
    : Coordinator :=
  foldl (fun s m => trackResponse customerId m s) s records.

(** The store after a list of direct effectiveness updates. *)
Definition updated (updates : list (string * string * Q)) (s : Coordinator) : Coordinator :=
  foldl (fun s u => updateChannelEffectiveness u.1.1 u.1.2 u.2 s) s updates.

(** The context [initiateFlow] builds for a customer and a document. *)
Definition builtContext (s : Coordinator) (customer : Customer) (document : CustomerDocument)
    : EscalationContext :=
  buildEscalationContext s customer document (getCustomerHistory s (customer_id customer)).

Definition at_most_one_escalation (s : Coordinator) : Prop :=
  forall customerId, (length (open_escalations s customerId) <= 1)%nat.

(** Every recorded attempt carries the cold-start engagement, 0.5. *)
Definition engagement_neutral (s : Coordinator) : Prop :=
  forall customerId (history : list ResponseMetrics) (m : ResponseMetrics),
    responseHistory s !! customerId = Some history -> m ∈ history ->
    engagementScore m == 0.5.

(** The number of gateway calls in a trace. *)
Definition sends (trace : list Event) : nat := length (List.filter is_send trace).

(** The outcomes of a call on the built-in catalog: rejected for its flow
    type, short-circuited by an open escalation, escalated by a rule, stopped
    by the composition collaborator, delivered, or not delivered (with the
    follow-up composed for the next channel, or the collaborator throwing on
    it). *)
Inductive outcome (s : Coordinator) (c : Call)
    : Coordinator * list Event * Result FlowResult -> Prop :=
| Rejected :
    flows !! call_flowType c = None ->
    outcome s c (s, [], Throw (FlowNotFound (call_flowType c)))
| ShortCircuited :
    flows !! call_flowType c = Some default_flow ->
    open_escalations s (customer_id (call_customer c)) <> [] ->
    outcome s c
      (s, [], Return (ActiveEscalations (open_escalations s (customer_id (call_customer c)))))
| Escalated (rule : EscalationRule) :
    flows !! call_flowType c = Some default_flow ->
    open_escalations s (customer_id (call_customer c)) = [] ->
    Reference.first_match (now (call_world c))
      (builtContext s (call_customer c) (call_document c))
      (escalationRules default_flow) rule ->
    outcome s c
      (recordEscalation (customer_id (call_customer c)) (escalationId (call_world c) rule) s,
       [],
       Return (Escalation (Reference.dispatched (action rule))
                 (builtContext s (call_customer c) (call_document c))))
| NotComposed (best : ChannelConfig) :
    flows !! call_flowType c = Some default_flow ->
    open_escalations s (customer_id (call_customer c)) = [] ->
    applicableRules (call_world c) default_flow
      (builtContext s (call_customer c) (call_document c)) = [] ->
    best ∈ channels default_flow ->
    outcome s c
      (s, [Compose (customer_id (call_customer c)) (channel_type best)],
       Throw CollaboratorError)
| Delivered (best : ChannelConfig) (message : SmartFollowUp) :
    flows !! call_flowType c = Some default_flow ->
    open_escalations s (customer_id (call_customer c)) = [] ->
    applicableRules (call_world c) default_flow
      (builtContext s (call_customer c) (call_document c)) = [] ->
    best ∈ channels default_flow ->
    success (draw (call_world c)) = true ->
    outcome s c
      (after_delivery (call_world c) (call_customer c) best
         (builtContext s (call_customer c) (call_document c)) s,
       [Compose (customer_id (call_customer c)) (channel_type best);
        SendMessage (channel_type best) message],
       Return (Delivery (draw (call_world c))))
| Undelivered (best next : ChannelConfig) (message : SmartFollowUp)
    (result : Result FlowResult) :
    flows !! call_flowType c = Some default_flow ->
    open_escalations s (customer_id (call_customer c)) = [] ->
    applicableRules (call_world c) default_flow
      (builtContext s (call_customer c) (call_document c)) = [] ->
    best ∈ channels default_flow ->
    next ∈ channels default_flow ->
    success (draw (call_world c)) = false ->
    result = Return (Delivery (draw (call_world c))) \/ result = Throw CollaboratorError ->
    outcome s c
      (after_delivery (call_world c) (call_customer c) best
         (builtContext s (call_customer c) (call_document c)) s,
       [Compose (customer_id (call_customer c)) (channel_type best);
        SendMessage (channel_type best) message;
        Compose (customer_id (call_customer c)) (channel_type next)],
       result).

(** ** The messaging engine, beyond its urgency score (src/lib/smartMessaging.ts) *)

Module Engine.

Inductive Tone := formal | casual | urgent.

Definition same_tone (a b : Tone) : bool :=
  match a, b with
  | formal, formal | casual, casual | urgent, urgent => true
  | _, _ => false
  end.

Record PerformanceMetrics := {
  response_rate : Q;
  average_response_time : Q;
  positive_sentiment_rate : Q
}.

(** The fields of a [MessageTemplate] that the engine reads to choose one. *)
Record MessageTemplate := {
  id : string;
  tone : Tone;
  template_channel : string;
  performance_metrics : option PerformanceMetrics
}.

Definition templates : list MessageTemplate :=
  [ {| id := "friendly-reminder"; tone := casual; template_channel := "email";
       performance_metrics :=
         Some {| response_rate := 75; average_response_time := 8;
                 positive_sentiment_rate := 85 |} |};
    {| id := "urgent-followup"; tone := urgent; template_channel := "whatsapp";
       performance_metrics :=
         Some {| response_rate := 90; average_response_time := 4;
                 positive_sentiment_rate := 65 |} |};
    {| id := "final-notice"; tone := formal; template_channel := "email";
       performance_metrics :=
         Some {| response_rate := 95; average_response_time := 2;
                 positive_sentiment_rate := 45 |} |} ].

(** One of [previousInteractions]; [hour] is [new Date(date).getHours()]. *)
Record Interaction := {
  hour : Z;
  channel : string;
  sentiment : Q;
  wasReplied : bool;
  responseTime : option Q;
  messageTemplate : option string
}.

(** [doNotDisturbTimes], by what [parseInt(start.split(':')[0])] and
    [parseInt(end.split(':')[0])] make of it; [None] is [NaN]. *)
Record DoNotDisturb := {
  dndStart : option Z;
  dndEnd : option Z
}.

Record Preferences := {
  preferredChannel : string;
  preferredLanguage : string;
  responseRate : Q;
  typicalResponseTime : Q;
  doNotDisturbTimes : option DoNotDisturb
}.

Record AiInsights := {
  bestTimeToSend : string;
  engagementPrediction : Q
}.

Record Context := {
  previousInteractions : list Interaction;
  customerPreferences : Preferences;
  aiInsights : option AiInsights
}.

Definition replies (interactions : list Interaction) : list Interaction :=
  List.filter wasReplied interactions.

(** A division whose result is [NaN] ([None]) on [0/0]; the divisors here
    are lengths, and the dividend is 0 when the length is. *)
Definition over (total : Q) (n : nat) : option Q :=
  match n with
  | O => None
  | _ => Some (total / Js.of_nat n)
  end.

Definition calculateCustomerSentiment (context : Context) : option Q :=
  let recentInteractions := Js.slice_last 5 (previousInteractions context) in
  over (Js.sum (sentiment <$> recentInteractions)) (length recentInteractions).

Definition calculateEngagementLevel (context : Context) : option Q :=
  let recentInteractions := Js.slice_last 5 (previousInteractions context) in
  match over (Js.of_nat (length (replies recentInteractions))) (length recentInteractions),
        calculateCustomerSentiment context with
  | Some responseRate, Some averageSentiment =>
      Some (responseRate * 0.6 + averageSentiment * 0.4)
  | _, _ => None
  end.

Definition calculateAIConfidence (context : Context) : Q :=
  let confidenceScore := 70 in
  let confidenceScore :=
    if (5 <? length (previousInteractions context))%nat
    then confidenceScore + 10 else confidenceScore in
  let confidenceScore :=
    if Js.gt (responseRate (customerPreferences context)) 0.7
    then confidenceScore + 10 else confidenceScore in
  let confidenceScore :=
    match aiInsights context with
    | Some insights =>
        if Js.gt (engagementPrediction insights) 0.8
        then confidenceScore + 10 else confidenceScore
    | None => confidenceScore
    end in
  Js.Math_min 100 confidenceScore.

Definition calculateTimeConfidence (context : Context) : Q :=
  let confidence := 70 in
  let confidence :=
    if (10 <? length (previousInteractions context))%nat
    then confidence + 10 else confidence in
  let confidence :=
    if Js.gt (responseRate (customerPreferences context)) 0.8
    then confidence + 10 else confidence in
  let confidence :=
    match bestTimeToSend <$> aiInsights context with
    | Some ""%string | None => confidence
    | Some _ => confidence + 10
    end in
  Js.Math_min 100 confidence.

(** [calculateEffectiveness] of [analyzeChannelEffectiveness]; [24 / 0] is
    [Infinity], and [Math.min(1, Infinity)] is 1. *)
Definition calculateEffectiveness (interactions : list Interaction) : Q :=
  match interactions with
  | [] => 50
  | _ =>
      let n := Js.of_nat (length interactions) in
      let responseRate := Js.of_nat (length (replies interactions)) / n in
      let averageResponseTime :=
        Js.sum ((fun i => Js.or_else (responseTime i) 24) <$> interactions) / n in
      let speed :=
        if Qeq_bool averageResponseTime 0 then 1
        else Js.Math_min 1 (24 / averageResponseTime) in
      responseRate * 70 + speed * 30
  end.

Definition on_channel (c : string) (interactions : list Interaction) : list Interaction :=
  List.filter (fun i => bool_decide (channel i = c)) interactions.

Definition analyzeChannelEffectiveness (context : Context) : Q * Q :=
  (calculateEffectiveness (on_channel "email" (previousInteractions context)),
   calculateEffectiveness (on_channel "whatsapp" (previousInteractions context))).

(** The score [selectBestTemplate] gives a template. *)
Definition templateScore (now : Z) (document : CustomerDocument) (context : Context)
    (template : MessageTemplate) : Q :=
  let urgencyScore := SmartMessaging.calculateUrgencyScore now document in
  let previousResponses := Js.slice_last 3 (previousInteractions context) in
  let toneScore :=
    if Js.gt urgencyScore 80 && same_tone (tone template) urgent then 30
    else if Js.gt urgencyScore 50 && same_tone (tone template) formal then 20
    else if Js.le urgencyScore 50 && same_tone (tone template) casual then 20
    else 0 in
  let templateUsage :=
    List.filter (fun r => bool_decide (messageTemplate r = Some (id template)))
      previousResponses in
  let usageScore :=
    match templateUsage with
    | [] => 0
    | _ =>
        let successRate :=
          Js.of_nat (length (replies templateUsage)) / Js.of_nat (length templateUsage) in
        successRate * 25
    end in
  let channelScore :=
    if bool_decide (template_channel template = preferredChannel (customerPreferences context))
    then 20 else 0 in
  let metricsScore :=
    match performance_metrics template with
    | Some m => response_rate m / 100 * 15 + positive_sentiment_rate m / 100 * 10
    | None => 0
    end in
  0 + toneScore + usageScore + channelScore + metricsScore.

(** [scores.reduce((prev, current) => current.score > prev.score ? current :
    prev)], which throws on an empty array. *)
Definition reduce_best {A} (scores : list (A * Q)) : Result (A * Q) :=
  match scores with
  | [] => Throw TypeError
  | first :: rest =>
      Return (fold_left (fun prev current => if Js.gt current.2 prev.2 then current else prev)
                rest first)
  end.

Definition selectBestTemplateFrom (catalog : list MessageTemplate) (now : Z)
    (document : CustomerDocument) (context : Context) : Result MessageTemplate :=
  let templateScores := (fun t => (t, templateScore now document context t)) <$> catalog in
  match reduce_best templateScores with
  | Return bestTemplate => Return bestTemplate.1
  | Throw e => Throw e
  end.

Definition selectBestTemplate (now : Z) (document : CustomerDocument) (context : Context)
    : Result MessageTemplate :=
  selectBestTemplateFrom templates now document context.

(** [hourlyResponseRates.set(hour, (hourlyResponseRates.get(hour) || 0) + 1)]
    on a [Map] kept in insertion order. *)
Fixpoint bump (h : Z) (rates : list (Z * nat)) : list (Z * nat) :=
  match rates with
  | [] => [(h, 1%nat)]
  | (k, r) :: rest => if (k =? h)%Z then (k, S r) :: rest else (k, r) :: bump h rest
  end.

Definition hourlyResponseRates (context : Context) : list (Z * nat) :=
  let recentInteractions := Js.slice_last 5 (replies (previousInteractions context)) in
  fold_left (fun rates i => bump (hour i) rates) recentInteractions [].

(** The hour with the most replies, 9 when there is none. *)
Definition busiestHour (rates : list (Z * nat)) : Z * nat :=
  fold_left (fun best entry => if (best.2 <? entry.2)%nat then entry else best)
    rates (9%Z, O).

(** The value of [bestHour] when [predictOptimalSendTime] hands it to
    [setHours]. *)
Definition bestHour (context : Context) : Z :=
  let bestHour := (busiestHour (hourlyResponseRates context)).1 in
  match doNotDisturbTimes (customerPreferences context) with
  | Some {| dndStart := Some dndStart; dndEnd := Some dndEnd |} =>
      if (dndStart <=? bestHour)%Z && (bestHour <=? dndEnd)%Z then (dndEnd + 1)%Z
      else bestHour
  | _ => bestHour
  end.

(** Dates are milliseconds since the epoch, read in a time zone whose clock
    is [zone] milliseconds ahead of UTC the whole year (a zone without clock
    changes). [setHours zone t h] is [t] after [t.setHours(h, 0, 0, 0)]: an
    hour outside 0..23 moves to another day, so that 24 is 00:00 of the next
    day. *)
Definition hourMs : Z := 3600000.
Definition dayMs : Z := 24 * hourMs.

Definition getHours (zone t : Z) : Z := ((t + zone) mod dayMs / hourMs)%Z.

Definition setHours (zone t h : Z) : Z := (t - (t + zone) mod dayMs + h * hourMs)%Z.

(** The date [predictOptimalSendTime] returns, its two readings of the clock
    both giving [now]; [setDate(getDate() + 1)] adds a day. *)
Definition predictOptimalSendTime (zone now : Z) (context : Context) : Z :=
  let predictedTime := setHours zone now (bestHour context) in
  if (predictedTime <? now)%Z then (predictedTime + dayMs)%Z else predictedTime.

(** The number of signals that are on. *)
Definition signals (flags : list bool) : nat := length (List.filter (fun flag => flag) flags).

End Engine.

(** ** The wording the engine adds to a message *)

Module Wording.

Definition empathyPhrases : list string :=
  [ "I understand this might be a busy time for you. ";
    "We're here to help make this process easier. ";
    "I appreciate your attention to this matter. " ]%string.

Definition urgencyPhrases : list string :=
  [ "This requires your immediate attention. ";
    "This is a time-sensitive matter. ";
    "Your quick response would be greatly appreciated. " ]%string.

(** [phrases[Math.floor(Math.random() * phrases.length)] + message], for
    the value [random] of [Math.random()]; [undefined + message] starts with
    the text "undefined". *)
Definition prepend (phrases : list string) (random : Q) (message : string) : string :=
  (default "undefined" (Js.index phrases (Qfloor (random * Js.of_nat (length phrases))))
   +:+ message)%string.

Definition addEmpathy (random : Q) (message : string) : string :=
  prepend empathyPhrases random message.

Definition increaseUrgency (random : Q) (message : string) : string :=
  prepend urgencyPhrases random message.

Definition translateMessage (message targetLanguage : string) : string := message.

(** [empathyDraw] and [urgencyDraw] are the values [Math.random()] gives
    [addEmpathy] and [increaseUrgency] when they are called. *)
Definition optimizeMessageWithAI (empathyDraw urgencyDraw : Q) (message : string)
    (context : Engine.Context) : string :=
  let customerSentiment := Engine.calculateCustomerSentiment context in
  let engagementLevel := Engine.calculateEngagementLevel context in
  let message :=
    if Js.undefined_lt customerSentiment 0.3 then addEmpathy empathyDraw message
    else message in
  let message :=
    if Js.undefined_lt engagementLevel 0.5 then increaseUrgency urgencyDraw message
    else message in
  let preferredLanguage := Engine.preferredLanguage (Engine.customerPreferences context) in
  if bool_decide (preferredLanguage <> "en"%string)
  then translateMessage message preferredLanguage
  else message.

End Wording.

(** ** Documents as the classifier and the workflow automation read them *)

Inductive DocumentStatus := StatusPending | StatusReceived | StatusOverdue.

Definition status_text (status : DocumentStatus) : string :=
  match status with
  | StatusPending => "pending"
  | StatusReceived => "received"
  | StatusOverdue => "overdue"
  end.

(** A [CustomerDocument] with the fields that the coordinator does not read:
    [due_date_text] is the string of which [due_date] is the reading as a
    date, [category_confidence] is [ai_analysis?.category_confidence]. *)
Record DocumentDetails := {
  details_document : CustomerDocument;
  details_status : DocumentStatus;
  due_date_text : string;
  ai_urgency_score : Q;
  category_confidence : option Q
}.

(** ** The document classifier *)

Module Classifier.

Record RegExp := {
  source : string;
  ignoreCase : bool
}.

Record DocumentCategory := {
  category_id : string;
  category_name : string;
  confidence : Q;
  keywords : list string;
  patterns : list RegExp
}.

Definition categories : list DocumentCategory :=
  [ {| category_id := "financial"; category_name := "Financial Documents";
       confidence := 0.9;
       keywords := ["invoice"; "statement"; "balance"; "payment"; "transaction"; "tax"]%string;
       patterns :=
         [ {| source := "\$\s?\d+(?:\.\d{2})?"; ignoreCase := false |};
           {| source := "(?:19|20)\d{2}[\/-]\d{1,2}[\/-]\d{1,2}"; ignoreCase := false |} ] |};
    {| category_id := "legal"; category_name := "Legal Documents";
       confidence := 0.85;
       keywords :=
         ["agreement"; "contract"; "terms"; "conditions"; "legal"; "compliance"]%string;
       patterns :=
         [ {| source := "party of the (?:first|second) part"; ignoreCase := true |};
           {| source := "hereby agrees to"; ignoreCase := true |};
           {| source := "terms and conditions"; ignoreCase := true |} ] |};
    {| category_id := "identification"; category_name := "Identification Documents";
       confidence := 0.95;
       keywords := ["passport"; "license"; "id"; "identification"; "certificate"]%string;
       patterns :=
         [ {| source := "\b[A-Z]{2}[0-9]{6}\b"; ignoreCase := false |};
           {| source := "\b\d{3}-\d{2}-\d{4}\b"; ignoreCase := false |} ] |} ].

Definition commonTags : list string :=
  [ "urgent"; "confidential"; "requires_signature"; "expires_soon"; "high_priority";
    "needs_review"; "incomplete"; "verified" ]%string.

(** What the string functions of the runtime answer:
    [includes text keyword] is
    [text.toLowerCase().includes(keyword.toLowerCase())] and
    [test pattern text] is [pattern.test(text)]. *)
Record Matcher := {
  includes : string -> string -> bool;
  test : RegExp -> string -> bool
}.

Definition extractTextContent (doc : DocumentDetails) : string :=
  ("Sample content for " +:+ document_name (details_document doc) +:+ "
      This is a " +:+ document_type (details_document doc) +:+ " document
      Due date: " +:+ due_date_text doc +:+ "
      Status: " +:+ status_text (details_status doc) +:+ "
      Contains financial information and legal requirements.
      Agreement between parties.
      Total amount: $5000.00
      Document ID: AB123456
      Expires: 2024-12-31")%string.

Record Metadata := {
  extractedDates : list Z;
  entities : list string;
  keyPhrases : list string
}.

(** The dates are ['2024-12-31', '2024-03-15'], here by what
    [new Date(dateStr).getTime()] makes of them. *)
Definition extractMetadata (text : string) : Metadata :=
  {| extractedDates := [1735603200000; 1710460800000]%Z;
     entities := ["Company Name"; "John Doe"; "Agreement"]%string;
     keyPhrases :=
       [ "financial report"; "legal agreement"; "confidential information";
         "requires signature" ]%string |}.

Definition matchCount (m : Matcher) (text : string) (category : DocumentCategory) : nat :=
  (length (List.filter (includes m text) (keywords category))
   + length (List.filter (fun pattern => test m pattern text) (patterns category)))%nat.

(** The score is not a number ([None]) for a category with no keyword and
    no pattern; a confidence of 0 counts as absent. *)
Definition calculateCategoryScore (m : Matcher) (doc : DocumentDetails)
    (category : DocumentCategory) : option Q :=
  let extractedText := extractTextContent doc in
  let matches := matchCount m extractedText category in
  let score :=
    Engine.over (Js.of_nat matches)
      (length (keywords category) + length (patterns category)) in
  match category_confidence doc with
  | Some c => if Qeq_bool c 0 then score else (fun s => (s + c / 100) / 2) <$> score
  | None => score
  end.

(** [match.score > 0.7], false when the score is not a number. *)
Definition above_threshold (scored : DocumentCategory * option Q)
    : option (DocumentCategory * Q) :=
  match scored.2 with
  | Some score => if Js.gt score 0.7 then Some (scored.1, score) else None
  | None => None
  end.

Definition with_confidence (scored : DocumentCategory * Q) : DocumentCategory :=
  {| category_id := category_id scored.1; category_name := category_name scored.1;
     confidence := scored.2;
     keywords := keywords scored.1; patterns := patterns scored.1 |}.

Definition classifyFrom (catalog : list DocumentCategory) (m : Matcher)
    (doc : DocumentDetails) : list DocumentCategory :=
  let matches := (fun category => (category, calculateCategoryScore m doc category)) <$> catalog in
  with_confidence <$> Js.sort (fun a b => b.2 - a.2) (omap above_threshold matches).

Definition classifyDocument (m : Matcher) (doc : DocumentDetails) : list DocumentCategory :=
  classifyFrom categories m doc.

Record AutoTagResult := {
  tags : list string;
  tag_confidence : Q;
  suggestedTags : list string;
  metadata : Metadata
}.

Definition lower (c : Ascii.ascii) : Ascii.ascii :=
  let n := Ascii.nat_of_ascii c in
  if (65 <=? n)%nat && (n <=? 90)%nat then Ascii.ascii_of_nat (n + 32) else c.

(** [s.toLowerCase()] on a string of ASCII characters. *)
Fixpoint toLowerCase (s : string) : string :=
  match s with
  | EmptyString => EmptyString
  | String c rest => String (lower c) (toLowerCase rest)
  end.

Definition dateTags (now : Z) (tags : list string) (date : Z) : list string :=
  if (date <? now)%Z then set_add "expired" tags
  else if (date - now <? 7 * 24 * 60 * 60 * 1000)%Z then set_add "expires_soon" tags
  else tags.

Definition generateTagsFrom (catalog : list DocumentCategory) (m : Matcher) (now : Z)
    (doc : DocumentDetails) : AutoTagResult :=
  let extractedText := extractTextContent doc in
  let metadata := extractMetadata extractedText in
  let categories := classifyFrom catalog m doc in
  let tags := fold_left (fun tags category => set_add (category_id category) tags) categories [] in
  let confidenceSum := fold_left (fun sum category => sum + confidence category) categories 0 in
  let confidenceCount := length categories in
  let tags :=
    if Js.gt (ai_urgency_score doc) 80 then set_add "high_priority" (set_add "urgent" tags)
    else tags in
  let tags :=
    match details_status doc with
    | StatusOverdue => set_add "needs_attention" (set_add "overdue" tags)
    | _ => tags
    end in
  let suggestedTags :=
    fold_left
      (fun suggested phrase =>
         if bool_decide (toLowerCase phrase ∈ commonTags)
         then set_add (toLowerCase phrase) suggested else suggested)
      (keyPhrases metadata) [] in
  let tags := fold_left (dateTags now) (extractedDates metadata) tags in
  {| tags := tags;
     tag_confidence :=
       if (0 <? confidenceCount)%nat then confidenceSum / Js.of_nat confidenceCount else 0;
     suggestedTags := suggestedTags;
     metadata := metadata |}.

Definition generateTags (m : Matcher) (now : Z) (doc : DocumentDetails) : AutoTagResult :=
  generateTagsFrom categories m now doc.

End Classifier.

(** ** The workflow automation *)

Module Workflow.

(** The four action types, and any other string a rule may carry. *)
Inductive ActionType :=
| followup
| notification
| escalation
| tag
| other (type : string).

(** An action with the one parameter whose value is read: [params.tags]. *)
Record WorkflowAction := {
  action_type : ActionType;
  param_tags : option (list string)
}.

Record WorkflowRule := {
  rule_id : string;
  condition : DocumentDetails -> Customer -> bool;
  actions : list WorkflowAction;
  priority : Q;
  isActive : bool
}.

Inductive ActionValue :=
| FollowUpCreated (followUp : SmartFollowUp)
| TagList (tags : option (list string))
| Void.

(** What was thrown to the [catch] of an action: the error of the default
    branch, or whatever the messaging engine threw. *)
Inductive Failure :=
| UnknownActionType (type : ActionType)
| Thrown (e : Error).

Inductive ActionStatus :=
| ActionCompleted (result : ActionValue)
| ActionFailed (error : Failure).

Record ActionExecution := {
  executed_type : ActionType;
  action_status : ActionStatus
}.

Inductive ExecutionStatus := ExecutionPending | ExecutionCompleted | ExecutionFailed.

Record WorkflowExecution := {
  execution_id : string;
  ruleId : string;
  documentId : string;
  customerId : string;
  execution_status : ExecutionStatus;
  execution_actions : list ActionExecution;
  startedAt : Z;
  completedAt : option Z
}.

(** What one call of [processDocument] gets from outside: the value of
    [crypto.randomUUID()], the two readings of the clock, and the answer of
    [smartMessaging.generateSmartMessage]. *)
Record Environment := {
  randomUUID : string;
  startedNow : Z;
  completedNow : Z;
  generateSmartMessage : Customer -> DocumentDetails -> Result SmartFollowUp
}.

(** [executions] is a [Map], kept in insertion order. *)
Record Automation := {
  rules : list WorkflowRule;
  executions : list (string * WorkflowExecution)
}.

Definition builtin_rules : list WorkflowRule :=
  [ {| rule_id := "urgent-document-reminder";
       condition := fun doc customer => Js.gt (ai_urgency_score doc) 80;
       actions :=
         [ {| action_type := followup; param_tags := None |};
           {| action_type := notification; param_tags := None |} ];
       priority := 1;
       isActive := true |};
    {| rule_id := "overdue-document-escalation";
       condition :=
         fun doc customer =>
           match details_status doc with StatusOverdue => true | _ => false end;
       actions :=
         [ {| action_type := escalation; param_tags := None |};
           {| action_type := tag;
              param_tags := Some ["escalated"; "needs_attention"]%string |} ];
       priority := 2;
       isActive := true |} ].

Definition fresh : Automation := {| rules := builtin_rules; executions := [] |}.

(** [map.set(key, value)]: a key already there keeps its place. *)
Fixpoint map_set {A} (key : string) (value : A) (m : list (string * A))
    : list (string * A) :=
  match m with
  | [] => [(key, value)]
  | (k, v) :: rest =>
      if bool_decide (k = key) then (k, value) :: rest else (k, v) :: map_set key value rest
  end.

Definition executeAction (env : Environment) (action : WorkflowAction)
    (doc : DocumentDetails) (customer : Customer) : ActionStatus :=
  match action_type action with
  | followup =>
      match generateSmartMessage env customer doc with
      | Return followUp => ActionCompleted (FollowUpCreated followUp)
      | Throw e => ActionFailed (Thrown e)
      end
  | notification => ActionCompleted Void
  | escalation => ActionCompleted Void
  | tag => ActionCompleted (TagList (param_tags action))
  | other type => ActionFailed (UnknownActionType (other type))
  end.

Definition has_failed (a : ActionExecution) : bool :=
  match action_status a with
  | ActionFailed _ => true
  | ActionCompleted _ => false
  end.

Definition matchingRules (s : Automation) (doc : DocumentDetails) (customer : Customer)
    : list WorkflowRule :=
  Js.sort (fun a b => priority a - priority b)
    (List.filter (fun rule => isActive rule && condition rule doc customer) (rules s)).

(** The conditions are total here, so that nothing reaches the outer
    [catch]. *)
Definition processDocument (env : Environment) (doc : DocumentDetails)
    (customer : Customer) (s : Automation) : WorkflowExecution * Automation :=
  match matchingRules s doc customer with
  | [] =>
      ({| execution_id := randomUUID env;
          ruleId := "";
          documentId := document_id (details_document doc);
          customerId := customer_id customer;
          execution_status := ExecutionCompleted;
          execution_actions := [];
          startedAt := startedNow env;
          completedAt := Some (completedNow env) |}, s)
  | rule :: _ =>
      let executed :=
        (fun action =>
           {| executed_type := action_type action;
              action_status := executeAction env action doc customer |})
          <$> actions rule in
      let execution :=
        {| execution_id := randomUUID env;
           ruleId := rule_id rule;
           documentId := document_id (details_document doc);
           customerId := customer_id customer;
           execution_status :=
             if existsb has_failed executed then ExecutionFailed else ExecutionCompleted;
           execution_actions := executed;
           startedAt := startedNow env;
           completedAt := Some (completedNow env) |} in
      (execution,
       {| rules := rules s;
          executions := map_set (execution_id execution) execution (executions s) |})
  end.


Definition removeRule (ruleId : string) (s : Automation) : Automation :=
  {| rules := List.filter (fun r => negb (bool_decide (rule_id r = ruleId))) (rules s);
     executions := executions s |}.

(** A [Partial<WorkflowRule>]: the fields that are given. *)
Record RuleUpdates := {
  new_id : option string;
  new_condition : option (DocumentDetails -> Customer -> bool);
  new_actions : option (list WorkflowAction);
  new_priority : option Q;
  new_isActive : option bool
}.

Definition spread (rule : WorkflowRule) (updates : RuleUpdates) : WorkflowRule :=
  {| rule_id := default (rule_id rule) (new_id updates);
     condition := default (condition rule) (new_condition updates);
     actions := default (actions rule) (new_actions updates);
     priority := default (priority rule) (new_priority updates);
     isActive := default (isActive rule) (new_isActive updates) |}.

Definition updateRule (ruleId : string) (updates : RuleUpdates) (s : Automation)
    : Automation :=
  {| rules :=
       (fun rule => if bool_decide (rule_id rule = ruleId) then spread rule updates else rule)
         <$> rules s;
     executions := executions s |}.

Definition getExecutions (documentId' : string) (s : Automation) : list WorkflowExecution :=
  Js.sort (fun a b => inject_Z (startedAt b) - inject_Z (startedAt a))
    (List.filter (fun e => bool_decide (documentId e = documentId'))
       (snd <$> executions s)).

(** [r] is the rule [processDocument] runs: active, matching, with no active
    matching rule of a smaller priority number, and none listed before it
    with the same one. *)
Definition first_matching (doc : DocumentDetails) (customer : Customer)
    (rules : list WorkflowRule) (r : WorkflowRule) : Prop :=
  exists before after,
    rules = before ++ r :: after
    /\ isActive r = true /\ condition r doc customer = true
    /\ (forall x, x ∈ before -> isActive x = true -> condition x doc customer = true ->
                  priority r < priority x)
    /\ (forall x, x ∈ after -> isActive x = true -> condition x doc customer = true ->
                  priority r <= priority x).

End Workflow.

(** ** Sample documents with their details *)

Definition details (document : CustomerDocument) (due : string) (status : DocumentStatus)
    (urgency : Q) : DocumentDetails :=
  {| details_document := document; details_status := status; due_date_text := due;
     ai_urgency_score := urgency; category_confidence := None |}.

Definition urgent_details : DocumentDetails :=
  details due_later "2023-12-14T22:13:20.000Z" StatusPending 90.

Definition overdue_details : DocumentDetails :=
  details overdue "2023-11-11T22:13:20.000Z" StatusOverdue 40.


(** The same document with an AI category confidence of 80. *)
Definition analysed_details : DocumentDetails :=
  {| details_document := due_later; details_status := StatusPending;
     due_date_text := "2023-12-14T22:13:20.000Z";
     ai_urgency_score := 40; category_confidence := Some 80 |}.

(** A category with two keywords and two patterns, and a runtime that finds
    the keywords and not the patterns. *)
Definition small_category : Classifier.DocumentCategory :=
  {| Classifier.category_id := "legal"; Classifier.category_name := "Legal Documents";
     Classifier.confidence := 0.85;
     Classifier.keywords := ["agreement"; "contract"]%string;
     Classifier.patterns :=
       [ {| Classifier.source := "hereby agrees to"; Classifier.ignoreCase := true |};
         {| Classifier.source := "terms and conditions"; Classifier.ignoreCase := true |} ] |}.

Definition keywords_found : Classifier.Matcher :=
  {| Classifier.includes := fun text keyword => true;
     Classifier.test := fun pattern text => false |}.

(** Two interactions, one replied to, and the context they make with no
    quiet window and with the quiet window 9..17. *)
Definition interaction (at_hour : Z) (mood : Q) (replied : bool) : Engine.Interaction :=
  {| Engine.hour := at_hour; Engine.channel := "email"; Engine.sentiment := mood;
     Engine.wasReplied := replied; Engine.responseTime := Some 2;
     Engine.messageTemplate := None |}.

Definition engine_context (interactions : list Engine.Interaction) (rate : Q)
    (quiet : option Engine.DoNotDisturb) (insights : option Engine.AiInsights)
    : Engine.Context :=
  {| Engine.previousInteractions := interactions;
     Engine.customerPreferences :=
       {| Engine.preferredChannel := "email"; Engine.preferredLanguage := "en";
          Engine.responseRate := rate; Engine.typicalResponseTime := 24;
          Engine.doNotDisturbTimes := quiet |};
     Engine.aiInsights := insights |}.

Definition environment (answer : Result SmartFollowUp) : Workflow.Environment :=
  {| Workflow.randomUUID := "0b1e6a52-6c1f-4a55-9d0e-2f6f3f1f7a10";
     Workflow.startedNow := now0;
     Workflow.completedNow := (now0 + 5)%Z;
     Workflow.generateSmartMessage := fun customer doc => answer |}.

(** A runtime that finds every keyword and every pattern, and one that
    finds none. *)
Definition all_found : Classifier.Matcher :=
  {| Classifier.includes := fun text keyword => true;
     Classifier.test := fun pattern text => true |}.

Definition none_found : Classifier.Matcher :=
  {| Classifier.includes := fun text keyword => false;
     Classifier.test := fun pattern text => false |}.

(** ** Tactics *)

(** [x ∉ l] for a closed list [l] whose members differ from [x]. *)
Ltac not_listed :=
  let H := fresh in
  intros H;
  repeat (apply elem_of_cons in H as [H|H]; [discriminate|]);
  by apply elem_of_nil in H.

Ltac unfold_monad :=
  unfold run, bind, get, modify, emit, ret, throw in *; simpl in *.

(* ================================================================= *)
(** * Properties *)

(** ** Numbers *)

Lemma lt_spec (x y : Q) : Js.lt x y = true <-> x < y.
Proof.
  unfold Js.lt. rewrite negb_true_iff.
  split.
  - intros H. apply Qnot_le_lt. intros Hle. apply Qle_bool_iff in Hle. congruence.
  - intros H. destruct (Qle_bool y x) eqn:E; [|done].
    apply Qle_bool_iff in E. exfalso. by apply (Qlt_not_le x y).
Qed.

Lemma le_spec (x y : Q) : Js.le x y = true <-> x <= y.
Proof. apply Qle_bool_iff. Qed.

Lemma le_false (x y : Q) : Js.le x y = false <-> y < x.
Proof.
  unfold Js.le. split.
  - intros H. apply Qnot_le_lt. intros Hle. apply Qle_bool_iff in Hle. congruence.
  - intros H. destruct (Qle_bool x y) eqn:E; [|done].
    apply Qle_bool_iff in E. exfalso. by apply (Qlt_not_le y x).
Qed.

Lemma Math_max_Qmax (a b : Q) : Js.Math_max a b == Qmax a b.
Proof.
  unfold Js.Math_max. destruct (Qle_bool a b) eqn:E.
  - apply Qle_bool_iff in E. symmetry. by apply Q.max_r.
  - apply le_false in E. symmetry. apply Q.max_l. by apply Qlt_le_weak.
Qed.

Lemma Math_min_Qmin (a b : Q) : Js.Math_min a b == Qmin a b.
Proof.
  unfold Js.Math_min. destruct (Qle_bool a b) eqn:E.
  - apply Qle_bool_iff in E. symmetry. by apply Q.min_l.
  - apply le_false in E. symmetry. apply Q.min_r. by apply Qlt_le_weak.
Qed.

Lemma clamp_in_range (x : Q) : 0 <= Js.Math_max 0 (Js.Math_min 1 x) <= 1.
Proof.
  rewrite Math_max_Qmax, Math_min_Qmin. split.
  - apply Q.le_max_l.
  - apply Q.max_lub; [done|]. apply Q.le_min_l.
Qed.

(** ** Wait time *)

(** C9. For every channel and context, [calculateWaitTime] is
    max(baseWaitTime × max(0, 1 − urgencyScore) × max(0.5, engagementScore),
    baseWaitTime × 0.25), with baseWaitTime the channel's configured wait
    time. *)
Theorem calculateWaitTime_formula (channel : ChannelConfig) (customer : Customer)
    (context : EscalationContext) :
  calculateWaitTime channel customer context ==
  Reference.wait (waitTime channel) (urgencyScore context) (ctx_engagementScore context).
Proof.
  unfold calculateWaitTime, Reference.wait.
  rewrite !Math_max_Qmax. reflexivity.
Qed.

(** On email (48 hours) at urgency 0.5 and engagement 0.5 both arguments of
    the outer maximum are 12 hours; at urgency 0.9 the floor of a quarter of
    the base wait applies. *)
Example wait_email_half :
  forall context, urgencyScore context = 0.5 -> ctx_engagementScore context = 0.5 ->
  calculateWaitTime email alice context == 12.
Proof. intros context Hu He. unfold calculateWaitTime. rewrite Hu, He. by vm_compute. Qed.

Example wait_email_urgent :
  forall context, urgencyScore context = 0.9 -> ctx_engagementScore context = 1 ->
  calculateWaitTime email alice context == 12.
Proof. intros context Hu He. unfold calculateWaitTime. rewrite Hu, He. by vm_compute. Qed.

(** ** Urgency *)

Lemma div_lt_iff (a b c : Q) : 0 < b -> a / b < c <-> a < c * b.
Proof.
  intros Hb.
  assert (Hab : a / b * b == a).
  { rewrite Qmult_comm. apply Qmult_div_r. intros H. rewrite H in Hb. by apply Qlt_irrefl in Hb. }
  rewrite <- (Qmult_lt_r (a / b) c b Hb). by rewrite Hab.
Qed.

Lemma floor_days_lt (a k : Z) :
  (a / 86400000 <? k)%Z = Js.lt (inject_Z a / inject_Z 86400000) (inject_Z k).
Proof.
  destruct (Js.lt _ _) eqn:E.
  - apply lt_spec in E. apply Z.ltb_lt.
    apply Z.div_lt_upper_bound; [lia|].
    apply div_lt_iff in E; [|reflexivity].
    rewrite <- inject_Z_mult, <- Zlt_Qlt in E. lia.
  - apply Z.ltb_ge. apply Z.div_le_lower_bound; [lia|].
    assert (H : ~ inject_Z a / inject_Z 86400000 < inject_Z k).
    { intros H. apply lt_spec in H. congruence. }
    rewrite div_lt_iff in H; [|reflexivity].
    apply Qnot_lt_le in H.
    rewrite <- inject_Z_mult, <- Zle_Qle in H. lia.
Qed.

(** The messaging engine computes the reference urgency score. *)
Lemma messaging_urgency_is_reference (now due : Z) (document : CustomerDocument) :
  due_date document = DateAt due ->
  SmartMessaging.calculateUrgencyScore now document ==
  Reference.urgency now due (document_type document) (reminder_count document).
Proof.
  intros Hdue.
  unfold SmartMessaging.calculateUrgencyScore, SmartMessaging.daysUntilDue, Reference.urgency.
  rewrite Hdue, Math_min_Qmin.
  apply Q.min_compat; [reflexivity|].
  assert (Hp : (let d := ((due - now) / (1000 * 60 * 60 * 24))%Z in
                if (d <? 0)%Z then 100
                else if (d <? 2)%Z then 80
                else if (d <? 5)%Z then 60
                else if (d <? 10)%Z then 40 else 20) = Reference.proximity now due).
  { unfold Reference.proximity. cbv zeta.
    change (1000 * 60 * 60 * 24)%Z with 86400000%Z.
    rewrite (floor_days_lt _ 0), (floor_days_lt _ 2), (floor_days_lt _ 5), (floor_days_lt _ 10).
    reflexivity. }
  cbv zeta in Hp. rewrite Hp. clear Hp.
  assert (Ht : (if decide (document_type document = "Legal") then 20 else 0)
               + (if decide (document_type document = "Financial") then 15 else 0)
               == Reference.typeBonus (document_type document)).
  { unfold Reference.typeBonus.
    destruct (decide (document_type document = "Legal")) as [->|];
      [destruct (decide (_ = "Financial")); [discriminate|reflexivity]|].
    destruct (decide (_ = "Financial")); reflexivity. }
  assert (Hr : match reminder_count document with
               | Some n => if Qeq_bool n 0 then 0 else Js.Math_min 20 (n * 5)
               | None => 0
               end == Reference.reminderBonus (reminder_count document)).
  { unfold Reference.reminderBonus. destruct (reminder_count document) as [n|]; simpl.
    - destruct (Qeq_bool n 0) eqn:E.
      + apply Qeq_bool_iff in E. rewrite E. reflexivity.
      + rewrite Math_min_Qmin. apply Q.min_compat; [reflexivity|ring].
    - reflexivity. }
  rewrite <- Ht, <- Hr. ring.
Qed.

Lemma reference_overdue (now due : Z) (type : string) (reminders : option Q) :
  (due < now)%Z -> 0 <= default 0 reminders ->
  Reference.urgency now due type reminders == 100.
Proof.
  intros Hlt Hn. unfold Reference.urgency.
  apply Q.min_l.
  assert (Hp : Reference.proximity now due = 100).
  { unfold Reference.proximity. cbv zeta.
    pose proof (floor_days_lt (due - now) 0) as F.
    change (inject_Z 0) with 0 in F. rewrite <- F. clear F.
    assert (((due - now) / 86400000 <? 0)%Z = true) as ->; [|done].
    apply Z.ltb_lt. apply Z.div_lt_upper_bound; lia. }
  rewrite Hp.
  assert (0 <= Reference.typeBonus type).
  { unfold Reference.typeBonus. repeat case_decide; done. }
  assert (0 <= Reference.reminderBonus reminders).
  { unfold Reference.reminderBonus. apply Q.min_glb; [done|].
    apply Qmult_le_0_compat; done. }
  rewrite <- (Qplus_0_r 100) at 1. rewrite <- Qplus_assoc.
  apply Qplus_le_r.
  rewrite <- (Qplus_0_r 0). apply Qplus_le_compat; done.
Qed.

(** For every document whose due date is in the past, the messaging engine's
    urgency score is 100. *)
Lemma messaging_urgency_overdue (now due : Z) (document : CustomerDocument) :
  due_date document = DateAt due -> (due < now)%Z ->
  0 <= default 0 (reminder_count document) ->
  SmartMessaging.calculateUrgencyScore now document == 100.
Proof.
  intros Hdue Hlt Hn.
  rewrite (messaging_urgency_is_reference now due document Hdue).
  by apply reference_overdue.
Qed.

(** C5. The urgency score the orchestrator puts in the context is the
    constant 0.5 of the placeholder, for every document: on the overdue
    contract it is 0.5, where the reference definition (and the messaging
    engine, which implements it) gives 100. *)
Theorem orchestrator_urgency_is_constant :
  (forall s customer document history,
     urgencyScore (buildEscalationContext s customer document history) == 0.5)
  /\ calculateUrgencyScore overdue == 0.5
  /\ Reference.urgency now0 (now0 - 3 * day) "Legal" (Some 1) == 100
  /\ SmartMessaging.calculateUrgencyScore now0 overdue == 100
  /\ ~ calculateUrgencyScore overdue
       == Reference.urgency now0 (now0 - 3 * day) "Legal" (Some 1).
Proof.
  split; [reflexivity|].
  split; [reflexivity|].
  split; [by vm_compute|].
  split; [by vm_compute|].
  by vm_compute.
Qed.

(** ** Engagement *)

Lemma of_nat_S (n : nat) : Js.of_nat (S n) == Js.of_nat n + 1.
Proof.
  unfold Js.of_nat. rewrite Nat2Z.inj_succ, <- Z.add_1_r, inject_Z_plus. reflexivity.
Qed.

Lemma of_nat_pos (n : nat) : (0 < n)%nat -> 0 < Js.of_nat n.
Proof.
  intros H. unfold Js.of_nat. change 0 with (inject_Z 0). rewrite <- Zlt_Qlt. lia.
Qed.

Lemma sum_constant (xs : list Q) (e a : Q) :
  (forall x, x ∈ xs -> x == e) ->
  fold_left Qplus xs a == a + Js.of_nat (length xs) * e.
Proof.
  revert a. induction xs as [|x xs IH]; intros a Hall; simpl.
  - unfold Js.of_nat. simpl. ring.
  - rewrite IH by (intros y Hy; apply Hall; by right).
    rewrite (Hall x) by left.
    rewrite (of_nat_S (length xs)). ring.
Qed.

Lemma slice_last_nonempty {A} (n : nat) (xs : list A) :
  (0 < n)%nat -> xs <> [] -> (0 < length (Js.slice_last n xs))%nat.
Proof.
  intros Hn Hxs. unfold Js.slice_last. rewrite length_drop.
  destruct xs; [done|]. simpl. lia.
Qed.

Lemma slice_last_fmap {A B} (f : A -> B) (n : nat) (xs : list A) :
  f <$> Js.slice_last n xs = Js.slice_last n (f <$> xs).
Proof. unfold Js.slice_last. by rewrite fmap_drop, length_fmap. Qed.

Lemma calculateEngagementScore_recorded (customer : Customer) (history : list ResponseMetrics) :
  calculateEngagementScore customer history =
  match engagementScore <$> history with
  | [] => 0.5
  | scores =>
      Js.sum (Js.slice_last 5 scores) / Js.of_nat (length (Js.slice_last 5 scores))
  end.
Proof.
  unfold calculateEngagementScore.
  destruct history as [|m history]; [done|].
  rewrite slice_last_fmap.
  rewrite <- (length_fmap engagementScore (Js.slice_last 5 (m :: history))).
  by rewrite slice_last_fmap.
Qed.

(** The claim of C6 fails on the attempts of its own scenario: five attempts,
    four of them successful, average sentiment 0.6. The reference gives
    0.72, the coordinator 0.5. *)
Lemma engagement_reference_refuted :
  Reference.engagement five_attempts == 0.72
  /\ calculateEngagementScore alice five_attempts == 0.5
  /\ ~ calculateEngagementScore alice five_attempts == Reference.engagement five_attempts.
Proof. split; [by vm_compute|]. split; by vm_compute. Qed.

Lemma sum_total (xs : list Q) (a : Q) : fold_left Qplus xs a == a + Reference.total xs.
Proof.
  revert a. induction xs as [|x xs IH]; intros a; simpl; [ring|].
  rewrite IH. ring.
Qed.

Lemma slice_last_five {A} (history recent : list A) :
  Reference.last_five history recent -> Js.slice_last 5 history = recent.
Proof.
  intros (older & -> & [Hfive|[-> Hfew]]); unfold Js.slice_last.
  - rewrite length_app, Hfive.
    replace (length older + 5 - 5)%nat with (length older) by lia.
    apply drop_app_length.
  - simpl. by replace (length recent - 5)%nat with O by lia.
Qed.

(** C6, amended. The engagement score is 0.5 on an empty history; otherwise
    it is the mean of the engagement scores recorded on the last five
    attempts (on all of them when there are fewer): their total over their
    number. So it depends on the history through these recorded scores only,
    not through successes or sentiments, and when the last five attempts were
    all recorded at the same engagement it is that value. *)
Theorem engagement_is_mean_of_recorded (customer : Customer) (history : list ResponseMetrics) :
  (history = [] -> calculateEngagementScore customer history == 0.5)
  /\ (forall recent : list ResponseMetrics,
        history <> [] -> Reference.last_five history recent ->
        calculateEngagementScore customer history
        == Reference.mean (engagementScore <$> recent))
  /\ (forall other : list ResponseMetrics,
        engagementScore <$> other = engagementScore <$> history ->
        calculateEngagementScore customer other = calculateEngagementScore customer history)
  /\ (forall e : Q,
        history <> [] ->
        (forall m, m ∈ Js.slice_last 5 history -> engagementScore m == e) ->
        calculateEngagementScore customer history == e).
Proof.
  split; [by intros ->|]. split; [|split].
  - intros recent Hne Hrecent.
    unfold calculateEngagementScore. destruct history as [|m0 history]; [done|].
    rewrite (slice_last_five _ _ Hrecent).
    unfold Js.sum, Reference.mean, Js.of_nat. rewrite sum_total, length_fmap.
    by rewrite Qplus_0_l.
  - intros other Heq. by rewrite !calculateEngagementScore_recorded, Heq.
  - intros e Hne Hall.
    unfold calculateEngagementScore. destruct history as [|m0 history]; [done|].
    set (recent := Js.slice_last 5 (m0 :: history)) in *.
    assert (Hlen : 0 < Js.of_nat (length recent)).
    { apply of_nat_pos. apply slice_last_nonempty; [lia|done]. }
    unfold Js.sum. rewrite (sum_constant _ e).
    + rewrite length_fmap. field. intros H. rewrite H in Hlen. by apply Qlt_irrefl in Hlen.
    + intros x Hx. apply list_elem_of_fmap in Hx as (m & -> & Hm). by apply Hall.
Qed.

(** Six attempts recorded at 1, 0.2, 0.4, 0.6, 0.8 and 0: the score is the
    mean 0.4 of the last five, which is neither the last recorded value nor
    the mean of all six. *)
Lemma engagement_is_mean_of_recorded_witness :
  varied_attempts <> []
  /\ Reference.last_five varied_attempts (recorded_at <$> [0.2; 0.4; 0.6; 0.8; 0])
  /\ calculateEngagementScore alice varied_attempts == 0.4.
Proof.
  assert (Hne : varied_attempts <> []) by done.
  assert (Hrecent : Reference.last_five varied_attempts
                      (recorded_at <$> [0.2; 0.4; 0.6; 0.8; 0])).
  { exists [recorded_at 1]. split; [reflexivity|]. by left. }
  split; [exact Hne|]. split; [exact Hrecent|].
  eapply Qeq_trans;
    [exact (proj1 (proj2 (engagement_is_mean_of_recorded alice varied_attempts))
              _ Hne Hrecent)|].
  by vm_compute.
Defined.

(** ** Channel effectiveness *)

Lemma updateChannelEffectiveness_lookup (customerId channelType : string) (adjustment : Q)
    (s : Coordinator) :
  getChannelEffectiveness (updateChannelEffectiveness customerId channelType adjustment s)
    customerId !! channelType
  = Some (Js.Math_max 0 (Js.Math_min 1
            (Js.or_else (getChannelEffectiveness s customerId !! channelType) 0.5 + adjustment))).
Proof.
  unfold getChannelEffectiveness, updateChannelEffectiveness. simpl.
  rewrite lookup_insert_eq. simpl. by rewrite lookup_insert_eq.
Qed.

(** The value written by an update lies in [0,1], whatever was stored. *)
Lemma updateChannelEffectiveness_written (customerId channelType : string) (adjustment : Q)
    (s : Coordinator) :
  exists v,
    getChannelEffectiveness (updateChannelEffectiveness customerId channelType adjustment s)
      customerId !! channelType = Some v
    /\ 0 <= v <= 1.
Proof.
  eexists. split; [apply updateChannelEffectiveness_lookup|apply clamp_in_range].
Qed.

Lemma updateChannelEffectiveness_in_range (customerId channelType : string) (adjustment : Q)
    (s : Coordinator) :
  effectiveness_in_range s ->
  effectiveness_in_range (updateChannelEffectiveness customerId channelType adjustment s).
Proof.
  intros Hs cid ch m v Hm Hv.
  unfold updateChannelEffectiveness in Hm. simpl in Hm.
  destruct (decide (customerId = cid)) as [->|Hne].
  - rewrite lookup_insert_eq in Hm. injection Hm as <-.
    destruct (decide (channelType = ch)) as [->|Hne].
    + rewrite lookup_insert_eq in Hv. injection Hv as <-. apply clamp_in_range.
    + rewrite lookup_insert_ne in Hv by done.
      destruct (channelEffectiveness s !! cid) as [m|] eqn:E; simpl in Hv.
      * by apply (Hs cid ch m v).
      * by rewrite lookup_empty in Hv.
  - rewrite lookup_insert_ne in Hm by done. by apply (Hs cid ch m v).
Qed.

Lemma fresh_in_range : effectiveness_in_range fresh.
Proof. intros cid ch m v Hm. simpl in Hm. by rewrite lookup_empty in Hm. Qed.

(** The invariant holds after any number of updates, of either sign and of
    any size. *)
Lemma updates_in_range (updates : list (string * string * Q)) (s : Coordinator) :
  effectiveness_in_range s ->
  effectiveness_in_range
    (foldl (fun s u => updateChannelEffectiveness u.1.1 u.1.2 u.2 s) s updates).
Proof.
  revert s. induction updates as [|u updates IH]; intros s Hs; simpl; [done|].
  apply IH. by apply updateChannelEffectiveness_in_range.
Qed.

(** On first use the update starts from 0.5. *)
Lemma updateChannelEffectiveness_first_use (customerId channelType : string) (adjustment : Q)
    (s : Coordinator) :
  getChannelEffectiveness s customerId !! channelType = None ->
  exists v,
    getChannelEffectiveness (updateChannelEffectiveness customerId channelType adjustment s)
      customerId !! channelType = Some v
    /\ v == Reference.effectivenessUpdate None adjustment.
Proof.
  intros Hnone. eexists. split; [apply updateChannelEffectiveness_lookup|].
  rewrite Hnone. unfold Reference.effectivenessUpdate. simpl.
  by rewrite Math_max_Qmax, Math_min_Qmin.
Qed.

(** A stored value other than 0 is nudged by the adjustment and clamped. *)
Lemma updateChannelEffectiveness_nonzero (customerId channelType : string) (adjustment stored : Q)
    (s : Coordinator) :
  getChannelEffectiveness s customerId !! channelType = Some stored ->
  ~ stored == 0 ->
  exists v,
    getChannelEffectiveness (updateChannelEffectiveness customerId channelType adjustment s)
      customerId !! channelType = Some v
    /\ v == Reference.effectivenessUpdate (Some stored) adjustment.
Proof.
  intros Hsome Hnz. eexists. split; [apply updateChannelEffectiveness_lookup|].
  rewrite Hsome. unfold Reference.effectivenessUpdate, Js.or_else. simpl.
  destruct (Qeq_bool stored 0) eqn:E.
  - apply Qeq_bool_iff in E. contradiction.
  - by rewrite Math_max_Qmax, Math_min_Qmin.
Qed.

(** C7. A stored effectiveness of 0, the value the clamp leaves at the
    bottom, is read as unset: the update starts again from 0.5, so that it
    writes the adjustment added to 0.5 and clamped, where the stored value
    plus the adjustment, clamped, was to be written. A failure on a channel
    at 0 stores 0.4 instead of 0, a success 0.6 instead of 0.1, and the two
    differ for every adjustment between -0.5 and 1. *)
Theorem effectiveness_zero_is_read_as_unset (s : Coordinator)
    (customerId channelType : string) (stored : Q) :
  getChannelEffectiveness s customerId !! channelType = Some stored ->
  stored == 0 ->
  forall adjustment : Q,
    exists written,
      getChannelEffectiveness
        (updateChannelEffectiveness customerId channelType adjustment s) customerId
        !! channelType = Some written
      /\ written == Qmax 0 (Qmin 1 (0.5 + adjustment))
      /\ Reference.effectivenessUpdate (Some stored) adjustment
         == Qmax 0 (Qmin 1 adjustment)
      /\ (-0.5 < adjustment < 1 ->
          ~ written == Reference.effectivenessUpdate (Some stored) adjustment)
      /\ (adjustment == -0.1 ->
          written == 0.4 /\ Reference.effectivenessUpdate (Some stored) adjustment == 0)
      /\ (adjustment == 0.1 ->
          written == 0.6 /\ Reference.effectivenessUpdate (Some stored) adjustment == 0.1).
Proof.
  intros Hstored Hzero adjustment.
  eexists. split; [apply updateChannelEffectiveness_lookup|].
  rewrite Hstored. unfold Js.or_else.
  apply Qeq_bool_iff in Hzero as Hbool. rewrite Hbool.
  rewrite Math_max_Qmax, Math_min_Qmin.
  assert (Href : Reference.effectivenessUpdate (Some stored) adjustment
                 == Qmax 0 (Qmin 1 adjustment)).
  { unfold Reference.effectivenessUpdate. simpl.
    apply Q.max_compat; [reflexivity|]. apply Q.min_compat; [reflexivity|].
    rewrite Hzero. ring. }
  split; [reflexivity|]. split; [exact Href|].
  assert (Hclamp : forall x, (x <= 0 -> Qmax 0 (Qmin 1 x) == 0)
                             /\ (0 <= x <= 1 -> Qmax 0 (Qmin 1 x) == x)
                             /\ (1 <= x -> Qmax 0 (Qmin 1 x) == 1)).
  { intros x. split; [|split].
    - intros Hx. rewrite (Q.min_r 1 x) by lra. by apply Q.max_l.
    - intros [Hx0 Hx1]. rewrite (Q.min_r 1 x) by done. by apply Q.max_r.
    - intros Hx. rewrite (Q.min_l 1 x) by done. apply Q.max_r. lra. }
  split; [|split].
  - intros [Hlow Hhigh]. rewrite Href.
    destruct (Qlt_le_dec adjustment 0) as [Hneg|Hpos];
      [|destruct (Qlt_le_dec adjustment 0.5) as [Hmid|Htop]].
    + rewrite (proj1 (proj2 (Hclamp (0.5 + adjustment)))) by (split; lra).
      rewrite (proj1 (Hclamp adjustment)) by lra. lra.
    + rewrite (proj1 (proj2 (Hclamp (0.5 + adjustment)))) by (split; lra).
      rewrite (proj1 (proj2 (Hclamp adjustment))) by (split; lra). lra.
    + rewrite (proj2 (proj2 (Hclamp (0.5 + adjustment)))) by lra.
      rewrite (proj1 (proj2 (Hclamp adjustment))) by (split; lra). lra.
  - intros Hadj. rewrite Href.
    rewrite (proj1 (proj2 (Hclamp (0.5 + adjustment)))) by (split; lra).
    rewrite (proj1 (Hclamp adjustment)) by lra. split; lra.
  - intros Hadj. rewrite Href.
    rewrite (proj1 (proj2 (Hclamp (0.5 + adjustment)))) by (split; lra).
    rewrite (proj1 (proj2 (Hclamp adjustment))) by (split; lra). split; lra.
Qed.

(** On a store where six failures have left email at 0, a seventh failure
    stores 0.4. *)
Lemma effectiveness_zero_is_read_as_unset_witness :
  getChannelEffectiveness exhausted "c1" !! "email"%string = Some 0
  /\ exists written,
       getChannelEffectiveness (updateChannelEffectiveness "c1" "email" (-0.1) exhausted)
         "c1" !! "email"%string = Some written
       /\ written == 0.4
       /\ Reference.effectivenessUpdate (Some 0) (-0.1) == 0.
Proof.
  split; [reflexivity|].
  destruct (effectiveness_zero_is_read_as_unset exhausted "c1" "email" 0 eq_refl
              (Qeq_refl 0) (-0.1))
    as (written & Hwritten & _ & _ & _ & Hfailure & _).
  exists written. split; [exact Hwritten|]. exact (Hfailure (Qeq_refl (-0.1))).
Defined.

(** ** Sorting: the head of a sorted array *)

Lemma sort_insert_head {A} (cmp : A -> A -> Q) (x : A) (l : list A) :
  head (Js.sort_insert cmp x l) =
  match head l with
  | Some y => if Js.le (cmp x y) 0 then Some x else Some y
  | None => Some x
  end.
Proof. destruct l as [|y l]; simpl; [done|]. by destruct (Js.le (cmp x y) 0). Qed.

Lemma sort_head_nil {A} (cmp : A -> A -> Q) (l : list A) :
  head (Js.sort cmp l) = None -> l = [].
Proof.
  destruct l as [|x l]; [done|]. simpl. rewrite sort_insert_head.
  destruct (head (Js.sort cmp l)); [destruct (Js.le _ _)|]; done.
Qed.

Section SortedHead.
Context {A : Type} (cmp : A -> A -> Q) (key : A -> Q).
Hypothesis cmp_key : forall x y, Js.le (cmp x y) 0 = true <-> key x <= key y.

(** The head of the sorted array is the first of the entries with the
    least key. *)
Lemma sort_head_first_least (l : list A) (r : A) :
  head (Js.sort cmp l) = Some r ->
  exists before after,
    l = before ++ r :: after
    /\ (forall x, x ∈ before -> key r < key x)
    /\ (forall x, x ∈ after -> key r <= key x).
Proof using cmp_key.
  revert r. induction l as [|x l IH]; intros r; [done|].
  simpl. rewrite sort_insert_head.
  destruct (head (Js.sort cmp l)) as [y|] eqn:Hy.
  - destruct (IH y eq_refl) as (b & a & -> & Hb & Ha).
    destruct (Js.le (cmp x y) 0) eqn:Hxy; intros [= <-].
    + apply cmp_key in Hxy.
      exists [], (b ++ y :: a). split; [done|]. split.
      * intros z Hz. by apply elem_of_nil in Hz.
      * intros z Hz. apply elem_of_app in Hz as [Hz|Hz].
        -- apply Qlt_le_weak. eapply Qle_lt_trans; [exact Hxy|]. by apply Hb.
        -- apply elem_of_cons in Hz as [->|Hz]; [done|].
           eapply Qle_trans; [exact Hxy|]. by apply Ha.
    + assert (Hlt : key y < key x).
      { apply Qnot_le_lt. intros Hle. apply cmp_key in Hle. congruence. }
      exists (x :: b), a. split; [done|]. split; [|done].
      intros z Hz. apply elem_of_cons in Hz as [->|Hz]; [done|]. by apply Hb.
  - intros [= <-]. apply sort_head_nil in Hy as ->.
    exists [], []. split; [done|].
    split; intros z Hz; by apply elem_of_nil in Hz.
Qed.

Lemma sort_head_some (l : list A) :
  l <> [] -> exists r, head (Js.sort cmp l) = Some r.
Proof.
  intros Hl. destruct (head (Js.sort cmp l)) as [r|] eqn:E; [by exists r|].
  by apply sort_head_nil in E.
Qed.
End SortedHead.

Lemma filter_split {A} (p : A -> bool) (l before' after' : list A) (r : A) :
  List.filter p l = before' ++ r :: after' ->
  exists before after,
    l = before ++ r :: after
    /\ p r = true
    /\ List.filter p before = before'
    /\ List.filter p after = after'.
Proof.
  revert before'. induction l as [|x l IH]; intros before' H; simpl in H.
  - by destruct before'.
  - destruct (p x) eqn:Hx.
    + destruct before' as [|b before']; simpl in H.
      * injection H as -> <-. exists [], l. simpl. done.
      * injection H as -> H. destruct (IH _ H) as (bf & af & -> & Hr & Hbf & Haf).
        exists (b :: bf), af. simpl. rewrite Hx, Hbf. done.
    + destruct (IH _ H) as (bf & af & -> & Hr & Hbf & Haf).
      exists (x :: bf), af. simpl. rewrite Hx. done.
Qed.

Lemma elem_of_filter_bool {A} (p : A -> bool) (l : list A) (x : A) :
  x ∈ List.filter p l <-> x ∈ l /\ p x = true.
Proof. rewrite !list_elem_of_In. apply filter_In. Qed.

(** ** Next channel after a failure *)

Lemma find_first {A} (p : A -> bool) (before after : list A) (x : A) :
  p x = true -> (forall y, y ∈ before -> p y = false) ->
  Js.find p (before ++ x :: after) = Some x.
Proof.
  intros Hx. induction before as [|b before IH]; intros Hb; simpl.
  - by rewrite Hx.
  - rewrite (Hb b) by left. apply IH. intros y Hy. apply Hb. by right.
Qed.

Lemma find_absent {A} (p : A -> bool) (l : list A) :
  (forall y, y ∈ l -> p y = false) -> Js.find p l = None.
Proof.
  induction l as [|b l IH]; intros Hb; simpl; [done|].
  rewrite (Hb b) by left. apply IH. intros y Hy. apply Hb. by right.
Qed.

Lemma findIndex_first {A} (p : A -> bool) (before after : list A) (x : A) :
  p x = true -> (forall y, y ∈ before -> p y = false) ->
  Js.findIndex p (before ++ x :: after) = Z.of_nat (length before).
Proof.
  intros Hx. induction before as [|b before IH]; intros Hb; simpl.
  - by rewrite Hx.
  - rewrite (Hb b) by left. rewrite IH by (intros y Hy; apply Hb; by right).
    destruct (Z.ltb_spec (Z.of_nat (length before)) 0); lia.
Qed.

Lemma index_successor {A} (before after : list A) (x : A) :
  Js.index (before ++ x :: after) (Z.of_nat (length before) + 1) = head after.
Proof.
  unfold Js.index. destruct (Z.ltb_spec (Z.of_nat (length before) + 1) 0); [lia|].
  replace (Z.to_nat (Z.of_nat (length before) + 1)) with (length before + 1)%nat by lia.
  rewrite lookup_app_r by lia.
  replace (length before + 1 - length before)%nat with 1%nat by lia.
  by destruct after.
Qed.

Lemma index_first {A} (l : list A) : Js.index l 0 = head l.
Proof. by destruct l. Qed.

(** C8. After a failed attempt the next channel is the configured fallback
    of the failed channel when the catalog has a channel of that type (its
    first one), and otherwise the entry that follows the failed channel in
    the catalog, the first entry when the failed channel is last. In the
    built-in catalog a failure on whatsapp, whose fallback is "sms", gives
    sms and not the next entry (phone); a failure on portal, the last entry
    and without fallback, gives email, the first. *)
Theorem determineNextChannel_fallback_then_successor
    (flow : CommunicationFlow) (current : ChannelConfig) (context : EscalationContext) :
  (forall fallback before target after,
     fallbackChannel current = Some fallback -> fallback <> ""%string ->
     channels flow = before ++ target :: after ->
     channel_type target = fallback ->
     (forall c, c ∈ before -> channel_type c <> fallback) ->
     determineNextChannel flow current context = Some target)
  /\ (forall before after,
        (fallbackChannel current = None
         \/ fallbackChannel current = Some ""%string
         \/ exists fallback, fallbackChannel current = Some fallback
                             /\ forall c, c ∈ channels flow -> channel_type c <> fallback) ->
        channels flow = before ++ current :: after ->
        (forall c, c ∈ before -> channel_type c <> channel_type current) ->
        determineNextChannel flow current context = head (after ++ before ++ [current]))
  /\ determineNextChannel default_flow whatsapp context = Some sms
  /\ determineNextChannel default_flow email context = Some whatsapp
  /\ determineNextChannel default_flow portal context = Some email.
Proof.
  split; [|split; [|done]].
  - intros fallback before target after Hfb Hne Hch Ht Hbefore.
    unfold determineNextChannel. rewrite Hfb, Hch.
    rewrite (find_first _ before after target).
    + by destruct fallback.
    + by apply bool_decide_eq_true.
    + intros c Hc. apply bool_decide_eq_false. by apply Hbefore.
  - intros before after Hfb Hch Hbefore.
    unfold determineNextChannel.
    assert (Hnone : match fallbackChannel current with
                    | Some ""%string => None
                    | Some fallback =>
                        Js.find (fun c => bool_decide (channel_type c = fallback)) (channels flow)
                    | None => None
                    end = None).
    { destruct Hfb as [->|[->|(fallback & -> & Habsent)]]; [done|done|].
      rewrite find_absent; [by destruct fallback|].
      intros c Hc. apply bool_decide_eq_false. by apply Habsent. }
    rewrite Hnone, Hch.
    rewrite (findIndex_first _ before after current).
    + rewrite index_successor, index_first.
      destruct after as [|a after]; simpl; [|done].
      by destruct before.
    + by apply bool_decide_eq_true.
    + intros c Hc. apply bool_decide_eq_false. by apply Hbefore.
Qed.

Lemma determineNextChannel_fallback_then_successor_witness :
  determineNextChannel default_flow whatsapp
    (buildEscalationContext fresh alice overdue []) = Some sms
  /\ determineNextChannel default_flow portal
       (buildEscalationContext fresh alice overdue []) = Some email.
Proof.
  pose (ctx := buildEscalationContext fresh alice overdue []).
  destruct (determineNextChannel_fallback_then_successor default_flow whatsapp ctx)
    as [Hfallback _].
  destruct (determineNextChannel_fallback_then_successor default_flow portal ctx)
    as [_ [Hnext _]].
  split.
  - apply (Hfallback "sms"%string [email; whatsapp; phone] sms [portal]);
      [reflexivity|discriminate|reflexivity|reflexivity|].
    intros c Hc.
    repeat (apply elem_of_cons in Hc as [->|Hc]; [discriminate|]).
    by apply elem_of_nil in Hc.
  - apply (Hnext [email; whatsapp; phone; sms] []);
      [left; reflexivity|reflexivity|].
    intros c Hc.
    repeat (apply elem_of_cons in Hc as [->|Hc]; [discriminate|]).
    by apply elem_of_nil in Hc.
Defined.

(** ** Channel selection *)

Lemma or_else_default_zero (v : option Q) : Js.or_else v 0 == default 0 v.
Proof.
  destruct v as [x|]; simpl; [|reflexivity].
  destruct (Qeq_bool x 0) eqn:E; [|reflexivity].
  apply Qeq_bool_iff in E. by rewrite E.
Qed.

Lemma scoreChannel_reference (s : Coordinator) (context : EscalationContext) (c : ChannelConfig) :
  (scoreChannel s context c).1 = c
  /\ (scoreChannel s context c).2 == Reference.channelScore 0 s context c.
Proof.
  split; [done|].
  unfold scoreChannel, calculateChannelScore, Reference.channelScore, Reference.successRate. simpl.
  rewrite or_else_default_zero.
  destruct (getChannelHistory s _ _); ring.
Qed.

Lemma score_order (a b : ChannelConfig * Q) :
  Js.le (b.2 - a.2) 0 = true <-> - a.2 <= - b.2.
Proof. rewrite le_spec. split; intros; lra. Qed.

Lemma selectOptimalChannel_head (s : Coordinator) (context : EscalationContext)
    (flow : CommunicationFlow) :
  selectOptimalChannel s context flow =
  match head (Js.sort (fun a b => b.2 - a.2) (scoreChannel s context <$> channels flow)) with
  | Some best => Return best.1
  | None => Throw TypeError
  end.
Proof. unfold selectOptimalChannel. by destruct (Js.sort _ _). Qed.

Lemma selectOptimalChannel_empty (s : Coordinator) (context : EscalationContext)
    (flow : CommunicationFlow) :
  channels flow = [] -> selectOptimalChannel s context flow = Throw TypeError.
Proof. intros H. unfold selectOptimalChannel. by rewrite H. Qed.

(** On a catalog that is not empty the selection returns the first of the
    highest-scoring channels. *)
Lemma selectOptimalChannel_ranked (s : Coordinator) (context : EscalationContext)
    (flow : CommunicationFlow) :
  channels flow <> [] ->
  exists best,
    selectOptimalChannel s context flow = Return best
    /\ Reference.first_highest (Reference.channelScore 0 s context) (channels flow) best.
Proof.
  intros Hne. rewrite selectOptimalChannel_head.
  destruct (sort_head_some (fun a b : ChannelConfig * Q => b.2 - a.2)
              (scoreChannel s context <$> channels flow)) as [r Hr].
  { intros H. apply fmap_nil_inv in H. done. }
  rewrite Hr. exists r.1. split; [done|].
  apply (sort_head_first_least _ (fun p : ChannelConfig * Q => - p.2) score_order) in Hr
    as (before' & after' & Hsplit & Hbefore & Hafter).
  apply fmap_app_inv in Hsplit as (before & rest & -> & Hrest & Hch).
  symmetry in Hrest. apply fmap_cons_inv in Hrest as (c & after & -> & -> & ->).
  exists before, after.
  destruct (scoreChannel_reference s context c) as [Hc1 Hc2].
  rewrite Hc1. split; [done|]. split.
  - intros x Hx. rewrite <- Hc2.
    destruct (scoreChannel_reference s context x) as [_ <-].
    assert (H : - (scoreChannel s context c).2 < - (scoreChannel s context x).2).
    { apply Hbefore. by apply list_elem_of_fmap_2. }
    lra.
  - intros x Hx. rewrite <- Hc2.
    destruct (scoreChannel_reference s context x) as [_ <-].
    assert (H : - (scoreChannel s context c).2 <= - (scoreChannel s context x).2).
    { apply Hafter. by apply list_elem_of_fmap_2. }
    lra.
Qed.

(** The claim of C4 fails on the store left by one failed delivery on email:
    email, with 0.4 stored, is selected at score 0.9; with 0.5 for the
    channels that have no stored value, portal scores 1.0 and email is not
    the highest. *)
Lemma unset_effectiveness_counts_as_zero :
  let context := buildEscalationContext after_one_failure alice due_later
                   (getCustomerHistory after_one_failure "c1") in
  let claimed := Reference.channelScore 0.5 after_one_failure context in
  selectOptimalChannel after_one_failure context default_flow = Return email
  /\ claimed email == 0.9 /\ claimed portal == 1
  /\ Reference.pick claimed (channels default_flow) = Some portal
  /\ ~ Reference.first_highest claimed (channels default_flow) email.
Proof.
  cbv zeta. split; [by vm_compute|]. split; [by vm_compute|].
  split; [by vm_compute|]. split; [by vm_compute|].
  intros (before & after & Hsplit & _ & Hafter).
  assert (Hportal : portal ∈ after).
  { destruct before as [|b before]; simpl in Hsplit.
    - injection Hsplit as <-. do 3 right. left.
    - injection Hsplit as _ Hsplit.
      repeat (destruct before as [|? before]; simpl in Hsplit;
              [discriminate|injection Hsplit as _ Hsplit]).
      by destruct before. }
  apply Hafter in Hportal. by vm_compute in Hportal.
Qed.

(** C4, amended. On a catalog that is not empty, [selectOptimalChannel]
    returns the single highest-scoring channel of the catalog, the first
    listed among equals, where the score of a channel is +0.3 if the context
    urgency is at least the channel's urgency threshold, +0.2 if the last
    observed sentiment is at least its sentiment threshold, +0.2 if the
    engagement is at least its engagement threshold, +0.3 times the
    customer's success rate on the channel, plus the effectiveness value
    stored for that customer and channel, which counts as 0 when no value is
    stored. *)
Theorem selectOptimalChannel_first_highest (s : Coordinator) (context : EscalationContext)
    (flow : CommunicationFlow) :
  channels flow <> [] ->
  exists best,
    selectOptimalChannel s context flow = Return best
    /\ Reference.first_highest (Reference.channelScore 0 s context) (channels flow) best.
Proof. apply selectOptimalChannel_ranked. Qed.

Lemma selectOptimalChannel_first_highest_witness :
  exists best,
    selectOptimalChannel after_one_failure
      (buildEscalationContext after_one_failure alice due_later
         (getCustomerHistory after_one_failure "c1")) default_flow = Return best
    /\ Reference.first_highest
         (Reference.channelScore 0 after_one_failure
            (buildEscalationContext after_one_failure alice due_later
               (getCustomerHistory after_one_failure "c1")))
         (channels default_flow) best.
Proof.
  apply (selectOptimalChannel_first_highest after_one_failure
           (buildEscalationContext after_one_failure alice due_later
              (getCustomerHistory after_one_failure "c1")) default_flow).
  discriminate.
Defined.

(** ** The orchestrator, path by path *)

Lemma handleEscalation_dispatch (w : World) (rule : EscalationRule) (customer : Customer)
    (document : CustomerDocument) (context : EscalationContext)
    (s : Coordinator) (trace : list Event) :
  handleEscalation w rule customer document context (s, trace)
  = (recordEscalation (customer_id customer) (escalationId w rule) s, trace,
     Return (Escalation (Reference.dispatched (action rule)) context)).
Proof.
  unfold handleEscalation, Reference.dispatched,
    handleManagerEscalation, handleHumanIntervention, handleUrgentEscalation,
    handleChannelSwitch, handleDefaultEscalation.
  unfold_monad. by repeat case_decide.
Qed.

Lemma dispatched_unknown (tag : string) :
  tag ∉ Reference.known_tags -> Reference.dispatched tag = "default_escalation"%string.
Proof.
  intros Hnot. unfold Reference.dispatched, Reference.known_tags in *.
  repeat case_decide; subst; try done; exfalso; apply Hnot;
    repeat (first [by left | right]).
Qed.

(** An open escalation: the call returns it and does nothing else. *)
Lemma executeChannelStrategy_active (w : World) (customer : Customer)
    (document : CustomerDocument) (channel : ChannelConfig) (flow : CommunicationFlow)
    (context : EscalationContext) (s : Coordinator) (trace : list Event) :
  open_escalations s (customer_id customer) <> [] ->
  executeChannelStrategy w customer document channel flow context (s, trace)
  = (s, trace, Return (ActiveEscalations (open_escalations s (customer_id customer)))).
Proof.
  intros Hopen. unfold executeChannelStrategy, open_escalations, handleActiveEscalations in *.
  unfold_monad.
  by destruct (default [] (escalationHistory s !! customer_id customer)).
Qed.

(** No open escalation and a matching rule: the head of the sorted matches
    is dispatched. *)
Lemma executeChannelStrategy_rule (w : World) (customer : Customer)
    (document : CustomerDocument) (channel : ChannelConfig) (flow : CommunicationFlow)
    (context : EscalationContext) (s : Coordinator) (trace : list Event)
    (rule : EscalationRule) (rest : list EscalationRule) :
  open_escalations s (customer_id customer) = [] ->
  applicableRules w flow context = rule :: rest ->
  executeChannelStrategy w customer document channel flow context (s, trace)
  = (recordEscalation (customer_id customer) (escalationId w rule) s, trace,
     Return (Escalation (Reference.dispatched (action rule)) context)).
Proof.
  intros Hopen Hrule.
  rewrite <- (handleEscalation_dispatch w rule customer document context s trace).
  unfold executeChannelStrategy, open_escalations in *.
  unfold_monad. by rewrite Hopen, Hrule.
Qed.

(** No open escalation and no matching rule: the message is composed and,
    once composed, sent; the outcome is recorded whatever follows. *)
Lemma executeChannelStrategy_normal (w : World) (customer : Customer)
    (document : CustomerDocument) (channel : ChannelConfig) (flow : CommunicationFlow)
    (context : EscalationContext) (s : Coordinator) (trace : list Event) :
  open_escalations s (customer_id customer) = [] ->
  applicableRules w flow context = [] ->
  let composed := Compose (customer_id customer) (channel_type channel) in
  match compose w customer document (messageContext s customer channel context) with
  | None =>
      executeChannelStrategy w customer document channel flow context (s, trace)
      = (s, trace ++ [composed], Throw CollaboratorError)
  | Some message =>
      exists rest result,
        executeChannelStrategy w customer document channel flow context (s, trace)
        = (after_delivery w customer channel context s,
           (trace ++ [composed]) ++ SendMessage (channel_type channel) message :: rest,
           result)
        /\ (success (draw w) = true -> rest = [] /\ result = Return (Delivery (draw w)))
        /\ List.filter is_send rest = []
  end.
Proof.
  intros Hopen Hrule composed.
  unfold executeChannelStrategy, open_escalations in *.
  unfold_monad. rewrite Hopen, Hrule. simpl.
  unfold generateMessage, sendMessage. unfold_monad.
  destruct (compose w customer document _) as [message|] eqn:Hc; [|done].
  unfold after_delivery, recorded.
  destruct (success (draw w)) eqn:Hs; simpl.
  - exists [], (Return (Delivery (draw w))).
    destruct (enabled (autoAdjustment flow)); simpl; rewrite <- ?app_assoc; by repeat split.
  - unfold scheduleFollowUp.
    destruct (determineNextChannel flow channel context) as [next|]; unfold_monad.
    + unfold generateMessage. unfold_monad.
      destruct (compose w customer document (messageContext _ customer next context)).
      * exists [Compose (customer_id customer) (channel_type next)], (Return (Delivery (draw w))).
        destruct (enabled (autoAdjustment flow)); simpl; rewrite <- ?app_assoc; simpl; by repeat split.
      * exists [Compose (customer_id customer) (channel_type next)], (Throw CollaboratorError).
        simpl; rewrite <- ?app_assoc; simpl; by repeat split.
    + exists [], (Throw TypeError). simpl; rewrite <- ?app_assoc; simpl; by repeat split.
Qed.

Lemma flows_known (flowType : string) (flow : CommunicationFlow) :
  flows !! flowType = Some flow -> flowType = "default"%string /\ flow = default_flow.
Proof. unfold flows. intros H. by apply lookup_singleton_Some in H as [<- <-]. Qed.

Lemma selectOptimalChannel_default (s : Coordinator) (context : EscalationContext) :
  exists best, selectOptimalChannel s context default_flow = Return best.
Proof.
  destruct (selectOptimalChannel_ranked s context default_flow) as (best & H & _);
    [discriminate|by exists best].
Qed.

Lemma initiateFlow_known (w : World) (customer : Customer) (document : CustomerDocument)
    (flowType : string) (flow : CommunicationFlow) (s : Coordinator) (best : ChannelConfig) :
  flows !! flowType = Some flow ->
  let context :=
    buildEscalationContext s customer document (getCustomerHistory s (customer_id customer)) in
  selectOptimalChannel s context flow = Return best ->
  run (initiateFlow w customer document flowType) s
  = run (executeChannelStrategy w customer document best flow context) s.
Proof.
  intros Hflow context Hbest. unfold initiateFlow. rewrite Hflow.
  unfold_monad. fold context. by rewrite Hbest.
Qed.

(** ** Configuration errors *)

Lemma initiateFlow_unknown (w : World) (customer : Customer) (document : CustomerDocument)
    (flowType : string) (s : Coordinator) :
  flows !! flowType = None ->
  run (initiateFlow w customer document flowType) s = (s, [], Throw (FlowNotFound flowType)).
Proof. intros H. unfold initiateFlow. by rewrite H. Qed.

(** The claim of C3 fails on the built-in catalog: the action tag of its
    fifth rule, "try_alternative_channel", is none of the known tags, and the
    first call for a customer, on which that rule holds, is answered with the
    status of the default handler, not rejected. *)
Lemma unknown_action_tag_not_rejected :
  let context := buildEscalationContext fresh alice due_later [] in
  (action rule_alternative ∉ Reference.known_tags)
  /\ applicableRules (world delivered) default_flow context = [rule_alternative]
  /\ (run (initiateFlow (world delivered) alice due_later "default") fresh).2
     = Return (Escalation "default_escalation" context)
  /\ ~ exists e, (run (initiateFlow (world delivered) alice due_later "default") fresh).2
                 = Throw e.
Proof.
  cbv zeta. split; [|split; [|split]].
  - unfold Reference.known_tags. simpl. not_listed.
  - reflexivity.
  - by vm_compute.
  - intros [e He]. vm_compute in He. discriminate.
Qed.

(** C3, amended. A call of [initiateFlow] with a flow-type name that is not
    in the flow catalog is rejected with an error, and leaves the store
    untouched. The dispatch of a rule whose action tag is not one of the known
    tags is not rejected: the escalation is recorded and the default handler
    answers with status "default_escalation". *)
Theorem unknown_flow_rejected_unknown_tag_defaulted :
  (forall w customer document flowType s,
     flows !! flowType = None ->
     run (initiateFlow w customer document flowType) s
     = (s, [], Throw (FlowNotFound flowType)))
  /\ (forall flowType, flowType <> "default"%string -> flows !! flowType = None)
  /\ (forall w rule customer document context s,
        action rule ∉ Reference.known_tags ->
        run (handleEscalation w rule customer document context) s
        = (recordEscalation (customer_id customer) (escalationId w rule) s, [],
           Return (Escalation "default_escalation" context))).
Proof.
  split; [|split].
  - intros. by apply initiateFlow_unknown.
  - intros flowType Hne. unfold flows. by apply lookup_singleton_ne.
  - intros w rule customer document context s Htag.
    unfold run. rewrite handleEscalation_dispatch. by rewrite dispatched_unknown.
Qed.

Lemma unknown_flow_rejected_unknown_tag_defaulted_witness :
  flows !! "express"%string = None
  /\ run (initiateFlow (world delivered) alice overdue "express") escalated
     = (escalated, [], Throw (FlowNotFound "express"))
  /\ (action rule_alternative ∉ Reference.known_tags)
  /\ status_of
       (match (run (handleEscalation (world delivered) rule_alternative alice overdue
                      (buildEscalationContext fresh alice overdue [])) fresh).2 with
        | Return r => r
        | Throw _ => ActiveEscalations []
        end) = Some "default_escalation"%string.
Proof.
  assert (Hflow : flows !! "express"%string = None) by reflexivity.
  assert (Htag : action rule_alternative ∉ Reference.known_tags).
  { unfold Reference.known_tags. simpl. not_listed. }
  destruct unknown_flow_rejected_unknown_tag_defaulted as (Hunknown & _ & Hdefault).
  split; [exact Hflow|]. split; [by apply Hunknown|]. split; [exact Htag|].
  by rewrite (Hdefault _ _ _ _ _ _ Htag).
Defined.

(** ** Rule evaluation *)

Lemma priority_order (x y : EscalationRule) :
  Js.le (priority x - priority y) 0 = true <-> priority x <= priority y.
Proof. rewrite le_spec. split; intros; lra. Qed.

Lemma applicableRules_first_match (w : World) (flow : CommunicationFlow)
    (context : EscalationContext) (rule : EscalationRule) (rest : list EscalationRule) :
  applicableRules w flow context = rule :: rest ->
  Reference.first_match (now w) context (escalationRules flow) rule.
Proof.
  intros Happ. unfold applicableRules in Happ.
  assert (Hhead : head (Js.sort (fun a b => priority a - priority b)
                          (List.filter (fun r => condition r (now w) context)
                             (escalationRules flow))) = Some rule)
    by by rewrite Happ.
  apply (sort_head_first_least _ priority priority_order) in Hhead
    as (before' & after' & Hsplit & Hbefore & Hafter).
  apply filter_split in Hsplit as (before & after & Hrules & Hrule & <- & <-).
  exists before, after. repeat split; [done|done| |].
  - intros x Hx Hcond. apply Hbefore. by apply elem_of_filter_bool.
  - intros x Hx Hcond. apply Hafter. by apply elem_of_filter_bool.
Qed.

Lemma applicableRules_some (w : World) (flow : CommunicationFlow)
    (context : EscalationContext) (r0 : EscalationRule) :
  r0 ∈ escalationRules flow -> condition r0 (now w) context = true ->
  exists rule rest, applicableRules w flow context = rule :: rest.
Proof.
  intros Hin Hcond.
  destruct (applicableRules w flow context) as [|rule rest] eqn:E; [|by eauto].
  exfalso. unfold applicableRules in E.
  assert (Hnil : List.filter (fun r => condition r (now w) context) (escalationRules flow) = []).
  { apply (sort_head_nil (fun a b => priority a - priority b)). by rewrite E. }
  assert (Hr0 : r0 ∈ List.filter (fun r => condition r (now w) context) (escalationRules flow))
    by by apply elem_of_filter_bool.
  rewrite Hnil in Hr0. by apply elem_of_nil in Hr0.
Qed.

Lemma applicableRules_none (w : World) (flow : CommunicationFlow) (context : EscalationContext) :
  (forall r, r ∈ escalationRules flow -> condition r (now w) context = false) ->
  applicableRules w flow context = [].
Proof.
  intros Hnone. unfold applicableRules.
  assert (Hnil : List.filter (fun r => condition r (now w) context) (escalationRules flow) = []).
  { destruct (List.filter _ _) as [|x l] eqn:E; [done|].
    assert (Hx : x ∈ List.filter (fun r => condition r (now w) context) (escalationRules flow))
      by (rewrite E; left).
    apply elem_of_filter_bool in Hx as [Hin Hc]. rewrite (Hnone x Hin) in Hc. done. }
  by rewrite Hnil.
Qed.

Lemma recordEscalation_first (customerId escalationId : string) (s : Coordinator) :
  open_escalations s customerId = [] ->
  open_escalations (recordEscalation customerId escalationId s) customerId = [escalationId].
Proof.
  unfold open_escalations, recordEscalation. simpl. intros ->.
  rewrite lookup_insert_eq. simpl. unfold set_add. case_decide as H; [|done].
  by apply elem_of_nil in H.
Qed.

(** C2. When the customer has no open escalation and some rule of the flow
    holds on the context, an orchestration call ([executeChannelStrategy], or
    [initiateFlow] on the context it builds) dispatches the action of exactly
    one rule, the one that comes first when the matching rules are put in
    ascending priority order: no matching rule has a smaller priority
    number, and its escalation id is the only one recorded. Nothing is
    composed or sent. With two rules that both hold, at priorities 3 and 1
    and listed in that order, the action of the priority-1 rule is
    dispatched. *)
Theorem first_matching_rule_fires :
  (forall w customer document channel flow context s r0,
     open_escalations s (customer_id customer) = [] ->
     r0 ∈ escalationRules flow ->
     condition r0 (now w) context = true ->
     fires_first_match w customer flow context s
       (run (executeChannelStrategy w customer document channel flow context) s))
  /\ (forall w customer document flowType flow s r0,
        let context :=
          buildEscalationContext s customer document
            (getCustomerHistory s (customer_id customer)) in
        flows !! flowType = Some flow ->
        open_escalations s (customer_id customer) = [] ->
        r0 ∈ escalationRules flow ->
        condition r0 (now w) context = true ->
        fires_first_match w customer flow context s
          (run (initiateFlow w customer document flowType) s))
  /\ (forall w customer document channel context s,
        open_escalations s (customer_id customer) = [] ->
        run (executeChannelStrategy w customer document channel two_rules context) s
        = (recordEscalation (customer_id customer) (escalationId w rule_high) s, [],
           Return (Escalation "human_intervention_required" context))).
Proof.
  assert (Hexec : forall w customer document channel flow context s r0,
            open_escalations s (customer_id customer) = [] ->
            r0 ∈ escalationRules flow ->
            condition r0 (now w) context = true ->
            fires_first_match w customer flow context s
              (run (executeChannelStrategy w customer document channel flow context) s)).
  { intros w customer document channel flow context s r0 Hopen Hin Hcond.
    destruct (applicableRules_some w flow context r0 Hin Hcond) as (rule & rest & Happ).
    exists rule. split; [by eapply applicableRules_first_match|].
    unfold run. rewrite (executeChannelStrategy_rule _ _ _ _ _ _ _ _ rule rest Hopen Happ).
    split; [done|]. by apply recordEscalation_first. }
  split; [exact Hexec|]. split.
  - intros w customer document flowType flow s r0 context Hflow Hopen Hin Hcond.
    destruct (flows_known _ _ Hflow) as [_ ->].
    destruct (selectOptimalChannel_default s context) as [best Hbest].
    rewrite (initiateFlow_known _ _ _ _ default_flow s best Hflow Hbest).
    by apply (Hexec w customer document best default_flow context s r0).
  - intros w customer document channel context s Hopen.
    unfold run. by rewrite (executeChannelStrategy_rule _ _ _ _ _ _ _ _ rule_high [rule_low]).
Qed.

(** The first call for a customer, on the built-in flow: the fifth rule
    holds on the empty effectiveness map and fires. *)
Lemma first_matching_rule_fires_witness :
  open_escalations fresh "c1" = []
  /\ condition rule_alternative now0 (buildEscalationContext fresh alice due_later []) = true
  /\ fires_first_match (world delivered) alice default_flow
       (buildEscalationContext fresh alice due_later []) fresh
       (run (initiateFlow (world delivered) alice due_later "default") fresh).
Proof.
  split; [reflexivity|]. split; [reflexivity|].
  apply (proj1 (proj2 first_matching_rule_fires) (world delivered) alice due_later
           "default"%string default_flow fresh rule_alternative).
  - reflexivity.
  - reflexivity.
  - unfold default_flow. simpl. do 4 right. left.
  - reflexivity.
Defined.

(** ** Open escalations are permanent *)

(** The store a call leaves behind: the one it found, that store with the
    first escalation of the customer recorded, or that store with the attempt
    recorded. *)
Lemma executeChannelStrategy_store (w : World) (customer : Customer)
    (document : CustomerDocument) (channel : ChannelConfig) (flow : CommunicationFlow)
    (context : EscalationContext) (s : Coordinator) :
  let s' := (run (executeChannelStrategy w customer document channel flow context) s).1.1 in
  s' = s
  \/ (open_escalations s (customer_id customer) = []
      /\ exists escalation, s' = recordEscalation (customer_id customer) escalation s)
  \/ s' = after_delivery w customer channel context s.
Proof.
  cbv zeta. unfold run.
  destruct (open_escalations s (customer_id customer)) as [|i ids] eqn:Hopen.
  - destruct (applicableRules w flow context) as [|rule rest] eqn:Happ.
    + pose proof (executeChannelStrategy_normal w customer document channel flow context
                    s [] Hopen Happ) as H. cbv zeta in H.
      destruct (compose w customer document _).
      * destruct H as (rest & result & -> & _). by do 2 right.
      * rewrite H. by left.
    + rewrite (executeChannelStrategy_rule _ _ _ _ _ _ _ _ rule rest Hopen Happ).
      right. left. split; [done|]. by eexists.
  - rewrite executeChannelStrategy_active by (by rewrite Hopen). by left.
Qed.

Lemma step_store (s : Coordinator) (c : Call) :
  (step s c).1.1 = s
  \/ (open_escalations s (customer_id (call_customer c)) = []
      /\ exists escalation,
           (step s c).1.1 = recordEscalation (customer_id (call_customer c)) escalation s)
  \/ exists channel context,
       (step s c).1.1 = after_delivery (call_world c) (call_customer c) channel context s.
Proof.
  unfold step.
  destruct (flows !! call_flowType c) as [flow|] eqn:Hflow.
  - destruct (selectOptimalChannel s
                (buildEscalationContext s (call_customer c) (call_document c)
                   (getCustomerHistory s (customer_id (call_customer c)))) flow)
      as [best|e] eqn:Hbest.
    + rewrite (initiateFlow_known _ _ _ _ flow s best Hflow Hbest).
      destruct (executeChannelStrategy_store (call_world c) (call_customer c)
                  (call_document c) best flow
                  (buildEscalationContext s (call_customer c) (call_document c)
                     (getCustomerHistory s (customer_id (call_customer c)))) s)
        as [H|[H|H]]; [by left|by right; left|].
      do 2 right. by do 2 eexists.
    + left. unfold initiateFlow. rewrite Hflow. unfold_monad. by rewrite Hbest.
  - left. by rewrite initiateFlow_unknown.
Qed.

(** No call takes a stored effectiveness out of [0,1]. *)
Lemma step_in_range (s : Coordinator) (c : Call) :
  effectiveness_in_range s -> effectiveness_in_range (step s c).1.1.
Proof.
  intros Hs.
  destruct (step_store s c) as [->|[(_ & escalation & ->)|(channel & context & ->)]].
  - done.
  - done.
  - unfold after_delivery. by apply updateChannelEffectiveness_in_range.
Qed.

Lemma steps_in_range (calls : list Call) (s : Coordinator) :
  effectiveness_in_range s -> effectiveness_in_range (steps s calls).1.
Proof.
  revert s. induction calls as [|c calls IH]; intros s Hs; [done|].
  simpl. pose proof (step_in_range s c Hs) as Hstep.
  destruct (step s c) as [[s1 trace1] result1]. simpl in Hstep.
  specialize (IH s1 Hstep). by destruct (steps s1 calls).
Qed.

Lemma step_keeps_open (s : Coordinator) (c : Call) (customerId : string) :
  open_escalations s customerId <> [] ->
  open_escalations (step s c).1.1 customerId = open_escalations s customerId.
Proof.
  intros Hopen.
  destruct (step_store s c) as [->|[(Hnone & escalation & ->)|(channel & context & ->)]].
  - done.
  - unfold open_escalations, recordEscalation. simpl.
    rewrite lookup_insert_ne; [done|]. intros Heq. rewrite Heq in Hnone. done.
  - done.
Qed.

Lemma steps_keep_open (calls : list Call) (s : Coordinator) (customerId : string) :
  open_escalations s customerId <> [] ->
  open_escalations (steps s calls).1 customerId = open_escalations s customerId.
Proof.
  revert s. induction calls as [|c calls IH]; intros s Hopen; [done|].
  simpl. pose proof (step_keeps_open s c customerId Hopen) as Hstep.
  destruct (step s c) as [[s1 trace1] result1]. simpl in Hstep.
  specialize (IH s1). destruct (steps s1 calls) as [s2 trace2]. simpl in *.
  rewrite IH; [done|]. by rewrite Hstep.
Qed.

Lemma initiateFlow_active (w : World) (customer : Customer) (document : CustomerDocument)
    (flowType : string) (s : Coordinator) :
  open_escalations s (customer_id customer) <> [] ->
  is_Some (flows !! flowType) ->
  run (initiateFlow w customer document flowType) s
  = (s, [], Return (ActiveEscalations (open_escalations s (customer_id customer)))).
Proof.
  intros Hopen [flow Hflow].
  destruct (flows_known _ _ Hflow) as [_ ->].
  destruct (selectOptimalChannel_default s
              (buildEscalationContext s customer document
                 (getCustomerHistory s (customer_id customer)))) as [best Hbest].
  rewrite (initiateFlow_known _ _ _ _ default_flow s best Hflow Hbest).
  unfold run. by apply executeChannelStrategy_active.
Qed.

(** C1. For a customer with at least one open escalation id, an
    orchestration call ([executeChannelStrategy], and [initiateFlow] on a flow
    of the catalog) returns status "escalated" with the list of the open
    escalation ids; nothing is composed, the delivery gateway is not called
    and the store is unchanged. No call clears these ids: after any sequence
    of orchestration calls, for any customers, the customer's open ids are
    the same and every further call is answered the same way. *)
Theorem open_escalation_short_circuits (s : Coordinator) (customer : Customer) :
  open_escalations s (customer_id customer) <> [] ->
  let ids := open_escalations s (customer_id customer) in
  status_of (ActiveEscalations ids) = Some "escalated"%string
  /\ short_circuits s customer ids
  /\ (forall calls,
        open_escalations (steps s calls).1 (customer_id customer) = ids
        /\ short_circuits (steps s calls).1 customer ids).
Proof.
  assert (Hshort : forall s0, open_escalations s0 (customer_id customer) <> [] ->
            short_circuits s0 customer (open_escalations s0 (customer_id customer))).
  { intros s0 Hopen0. split; [|split].
    - intros. unfold run. by apply executeChannelStrategy_active.
    - intros. by apply initiateFlow_active.
    - intros. by apply initiateFlow_unknown. }
  intros Hopen ids. split; [done|]. split; [by apply Hshort|].
  intros calls.
  pose proof (steps_keep_open calls s (customer_id customer) Hopen) as Hkeep.
  fold ids in Hkeep. split; [done|].
  rewrite <- Hkeep. apply Hshort. by rewrite Hkeep.
Qed.

Lemma open_escalation_short_circuits_witness :
  open_escalations escalated "c1" = ["urgent_escalation_1699999999000"%string]
  /\ run (initiateFlow (world delivered) alice overdue "default") escalated
     = (escalated, [], Return (ActiveEscalations ["urgent_escalation_1699999999000"%string])).
Proof.
  split; [reflexivity|].
  assert (Hopen : open_escalations escalated (customer_id alice) <> []) by discriminate.
  destruct (open_escalation_short_circuits escalated alice Hopen) as (_ & (_ & Hflow & _) & _).
  apply (Hflow (world delivered) overdue "default"%string).
  by eexists.
Defined.

(** ** The attempt bound *)

Lemma executeChannelStrategy_sends (w : World) (customer : Customer)
    (document : CustomerDocument) (channel : ChannelConfig) (flow : CommunicationFlow)
    (context : EscalationContext) (s : Coordinator) (message : SmartFollowUp) :
  open_escalations s (customer_id customer) = [] ->
  (forall r, r ∈ escalationRules flow -> condition r (now w) context = false) ->
  compose w customer document (messageContext s customer channel context) = Some message ->
  exists rest result,
    run (executeChannelStrategy w customer document channel flow context) s
    = (after_delivery w customer channel context s,
       Compose (customer_id customer) (channel_type channel)
         :: SendMessage (channel_type channel) message :: rest,
       result)
    /\ (success (draw w) = true -> rest = [] /\ result = Return (Delivery (draw w)))
    /\ List.filter is_send rest = [].
Proof.
  intros Hopen Hnone Hcompose.
  pose proof (executeChannelStrategy_normal w customer document channel flow context s []
                Hopen (applicableRules_none w flow context Hnone)) as H.
  cbv zeta in H. rewrite Hcompose in H.
  destruct H as (rest & result & H & Hok & Hrest).
  exists rest, result. split; [exact H|]. split; [exact Hok|exact Hrest].
Qed.

Lemma after_delivery_history (w : World) (customer : Customer) (channel : ChannelConfig)
    (context : EscalationContext) (s : Coordinator) :
  getCustomerHistory (after_delivery w customer channel context s) (customer_id customer)
  = getCustomerHistory s (customer_id customer) ++ [recorded channel context (draw w)].
Proof.
  unfold getCustomerHistory, after_delivery, updateChannelEffectiveness, trackResponse. simpl.
  by rewrite lookup_insert_eq.
Qed.

(** C10. The [maxAttempts] field of the flow is never read: channel
    selection and the orchestration call give the same result whatever its
    value. In every state where the customer has no open escalation and no
    rule of the flow holds on the context, the call goes on to compose a
    message, whatever the number of prior attempts. When the composition
    throws, the call is rejected there: nothing is handed to the delivery
    gateway and the store is unchanged. That is what the sources do on every
    input, the [documentProcessor] they import having no [analyze] method.
    Only when the composition returns a message is it handed to the gateway
    on the selected channel and the attempt appended to the history. *)
Theorem maxAttempts_never_enforced (w : World) (customer : Customer)
    (document : CustomerDocument) (s : Coordinator) :
  (forall n channel flow context st,
     executeChannelStrategy w customer document channel (with_maxAttempts n flow) context st
     = executeChannelStrategy w customer document channel flow context st)
  /\ (forall n flow context,
        selectOptimalChannel s context (with_maxAttempts n flow)
        = selectOptimalChannel s context flow)
  /\ (forall channel flow context,
        open_escalations s (customer_id customer) = [] ->
        (forall r, r ∈ escalationRules flow -> condition r (now w) context = false) ->
        match compose w customer document (messageContext s customer channel context) with
        | None =>
            run (executeChannelStrategy w customer document channel flow context) s
            = (s, [Compose (customer_id customer) (channel_type channel)],
               Throw CollaboratorError)
        | Some message =>
            exists s' rest result,
              run (executeChannelStrategy w customer document channel flow context) s
              = (s',
                 Compose (customer_id customer) (channel_type channel)
                   :: SendMessage (channel_type channel) message :: rest,
                 result)
              /\ getCustomerHistory s' (customer_id customer)
                 = getCustomerHistory s (customer_id customer)
                   ++ [recorded channel context (draw w)]
        end)
  /\ (forall flowType flow,
        let context :=
          buildEscalationContext s customer document
            (getCustomerHistory s (customer_id customer)) in
        flows !! flowType = Some flow ->
        open_escalations s (customer_id customer) = [] ->
        (forall r, r ∈ escalationRules flow -> condition r (now w) context = false) ->
        exists best,
          selectOptimalChannel s context flow = Return best
          /\ match compose w customer document (messageContext s customer best context) with
             | None =>
                 run (initiateFlow w customer document flowType) s
                 = (s, [Compose (customer_id customer) (channel_type best)],
                    Throw CollaboratorError)
             | Some message =>
                 exists s' rest result,
                   run (initiateFlow w customer document flowType) s
                   = (s',
                      Compose (customer_id customer) (channel_type best)
                        :: SendMessage (channel_type best) message :: rest,
                      result)
                   /\ length (getCustomerHistory s' (customer_id customer))
                      = S (attempts context)
             end).
Proof.
  assert (Hcall : forall channel flow context,
             open_escalations s (customer_id customer) = [] ->
             (forall r, r ∈ escalationRules flow -> condition r (now w) context = false) ->
             match compose w customer document (messageContext s customer channel context) with
             | None =>
                 run (executeChannelStrategy w customer document channel flow context) s
                 = (s, [Compose (customer_id customer) (channel_type channel)],
                    Throw CollaboratorError)
             | Some message =>
                 exists s' rest result,
                   run (executeChannelStrategy w customer document channel flow context) s
                   = (s',
                      Compose (customer_id customer) (channel_type channel)
                        :: SendMessage (channel_type channel) message :: rest,
                      result)
                   /\ getCustomerHistory s' (customer_id customer)
                      = getCustomerHistory s (customer_id customer)
                        ++ [recorded channel context (draw w)]
             end).
  { intros channel flow context Hopen Hnone.
    pose proof (executeChannelStrategy_normal w customer document channel flow context s []
                  Hopen (applicableRules_none w flow context Hnone)) as H.
    cbv zeta in H. unfold run.
    destruct (compose w customer document (messageContext s customer channel context))
      as [message|]; [|exact H].
    destruct H as (rest & result & H & _).
    exists (after_delivery w customer channel context s), rest, result.
    split; [exact H|apply after_delivery_history]. }
  split; [done|]. split; [done|]. split; [exact Hcall|].
  intros flowType flow context Hflow Hopen Hnone.
  destruct (flows_known _ _ Hflow) as [_ ->].
  destruct (selectOptimalChannel_default s context) as [best Hbest].
  exists best. split; [done|].
  rewrite (initiateFlow_known _ _ _ _ default_flow s best Hflow Hbest).
  pose proof (Hcall best default_flow context Hopen Hnone) as H. fold context.
  destruct (compose w customer document (messageContext s customer best context))
    as [message|]; [|exact H].
  destruct H as (s' & rest & result & Hrun & Hhistory).
  exists s', rest, result. split; [exact Hrun|].
  rewrite Hhistory, length_app. simpl.
  unfold context, buildEscalationContext. simpl. lia.
Qed.

(** On a store with seven recorded attempts, two more than the [maxAttempts]
    of the built-in flow, with no open escalation and no rule that holds, the
    call reaches the composition and is rejected there, as the sources have
    it: nothing is sent. *)
Lemma maxAttempts_never_enforced_witness :
  let context := buildEscalationContext seven_attempts alice due_later
                   (getCustomerHistory seven_attempts "c1") in
  maxAttempts default_flow <= Js.of_nat (attempts context)
  /\ open_escalations seven_attempts "c1" = []
  /\ applicableRules (world_of_src delivered) default_flow context = []
  /\ run (initiateFlow (world_of_src delivered) alice due_later "default") seven_attempts
     = (seven_attempts, [Compose "c1" "email"], Throw CollaboratorError).
Proof.
  cbv zeta. split; [by vm_compute|]. split; [reflexivity|]. split; [reflexivity|].
  destruct (maxAttempts_never_enforced (world_of_src delivered) alice due_later
              seven_attempts) as (_ & _ & _ & Hflow).
  destruct (Hflow "default"%string default_flow) as (best & Hbest & Hrun).
  - reflexivity.
  - reflexivity.
  - intros r Hr. unfold default_flow in Hr. simpl in Hr.
    repeat (apply elem_of_cons in Hr as [->|Hr]; [by vm_compute|]).
    by apply elem_of_nil in Hr.
  - vm_compute in Hbest. injection Hbest as <-. exact Hrun.
Defined.

(** In a world where the composition returns a message, the same call sends
    it: one composition, one delivery, an eighth attempt recorded. *)
Example eighth_attempt_is_sent :
  exists s' message,
    run (initiateFlow (world delivered) alice due_later "default") seven_attempts
    = (s', [Compose "c1" "email"; SendMessage "email" message], Return (Delivery delivered))
    /\ length (getCustomerHistory s' "c1") = 8%nat.
Proof. do 2 eexists. split; [by vm_compute|by vm_compute]. Qed.

(** The same call when the delivery fails: the attempt is recorded, and the
    follow-up is composed for whatsapp, the entry after email (which has no
    fallback). *)
Example failed_attempt_schedules_next :
  exists s' message,
    run (initiateFlow (world undelivered) alice due_later "default") seven_attempts
    = (s', [Compose "c1" "email"; SendMessage "email" message; Compose "c1" "whatsapp"],
       Return (Delivery undelivered))
    /\ (exists v, getChannelEffectiveness s' "c1" !! "email"%string = Some v /\ v == 0.8).
Proof. do 2 eexists. split; [by vm_compute|]. eexists. split; by vm_compute. Qed.

(** A failed delivery on a channel whose stored effectiveness is 0 leaves it
    at 0.4. *)
Example failed_delivery_on_exhausted_channel :
  exists s' message,
    run (executeChannelStrategy (world undelivered) alice due_later email default_flow
           (buildEscalationContext exhausted alice due_later
              (getCustomerHistory exhausted "c1"))) exhausted
    = (s', [Compose "c1" "email"; SendMessage "email" message; Compose "c1" "whatsapp"],
       Return (Delivery undelivered))
    /\ (exists v, getChannelEffectiveness s' "c1" !! "email"%string = Some v /\ v == 0.4).
Proof. do 2 eexists. split; [by vm_compute|]. eexists. split; by vm_compute. Qed.

(** ** The built-in flow on a fresh store *)

Lemma rule_alternative_on_empty (now : Z) (context : EscalationContext) :
  ctx_channelEffectiveness context = ∅ -> condition rule_alternative now context = true.
Proof. intros H. simpl. by rewrite H, map_to_list_empty. Qed.

Lemma step_untouched (s : Coordinator) (c : Call) :
  untouched s -> untouched (step s c).1.1 /\ (step s c).1.2 = [].
Proof.
  intros [Hh He]. unfold step.
  destruct (flows !! call_flowType c) as [flow|] eqn:Hflow;
    [|by rewrite initiateFlow_unknown].
  destruct (flows_known _ _ Hflow) as [_ ->].
  set (context := buildEscalationContext s (call_customer c) (call_document c)
                    (getCustomerHistory s (customer_id (call_customer c)))).
  destruct (selectOptimalChannel_default s context) as [best Hbest].
  rewrite (initiateFlow_known _ _ _ _ default_flow s best Hflow Hbest). fold context.
  unfold run.
  destruct (open_escalations s (customer_id (call_customer c))) as [|i ids] eqn:Hopen.
  - destruct (applicableRules_some (call_world c) default_flow context rule_alternative)
      as (rule & rest & Happ).
    + unfold default_flow. simpl. do 4 right. left.
    + apply rule_alternative_on_empty. unfold context, buildEscalationContext. simpl.
      unfold getChannelEffectiveness. by rewrite He, lookup_empty.
    + by rewrite (executeChannelStrategy_rule _ _ _ _ _ _ _ _ rule rest Hopen Happ).
  - by rewrite executeChannelStrategy_active by (by rewrite Hopen).
Qed.

(** From the fresh store no sequence of calls reaches the gateway: the fifth
    rule of the built-in flow holds whenever the customer has no stored
    effectiveness ([Math.max()] of no values is [-Infinity]), so a
    customer's first call escalates and the later ones are short-circuited. *)
Lemma fresh_store_never_sends (calls : list Call) :
  untouched (steps fresh calls).1 /\ (steps fresh calls).2 = [].
Proof.
  assert (H : forall s, untouched s -> untouched (steps s calls).1 /\ (steps s calls).2 = []).
  { induction calls as [|c calls IH]; intros s Hs; [done|].
    simpl. destruct (step_untouched s c Hs) as [Hs1 Ht1].
    destruct (step s c) as [[s1 trace1] result1]. simpl in Hs1, Ht1.
    destruct (IH s1 Hs1) as [Hs2 Ht2].
    destruct (steps s1 calls) as [s2 trace2]. simpl in *. by rewrite Ht1, Ht2. }
  by apply H.
Qed.

(* ================================================================= *)
(** * Further properties of the coordinator *)

(** ** History store *)

Lemma trackResponse_history (customerId : string) (m : ResponseMetrics) (s : Coordinator) :
  getCustomerHistory (trackResponse customerId m s) customerId
  = getCustomerHistory s customerId ++ [m].
Proof. unfold getCustomerHistory, trackResponse. simpl. by rewrite lookup_insert_eq. Qed.

Lemma trackResponse_other (customerId other : string) (m : ResponseMetrics) (s : Coordinator) :
  other <> customerId ->
  getCustomerHistory (trackResponse customerId m s) other = getCustomerHistory s other.
Proof.
  intros Hne. unfold getCustomerHistory, trackResponse. simpl.
  by rewrite lookup_insert_ne.
Qed.

Lemma tracked_history (customerId : string) (records : list ResponseMetrics) (s : Coordinator) :
  getCustomerHistory (tracked customerId records s) customerId
  = getCustomerHistory s customerId ++ records.
Proof.
  revert s. induction records as [|m records IH]; intros s; simpl.
  - by rewrite app_nil_r.
  - unfold tracked in *. simpl. rewrite IH, trackResponse_history. by rewrite <- app_assoc.
Qed.

Lemma tracked_other (customerId other : string) (records : list ResponseMetrics)
    (s : Coordinator) :
  other <> customerId ->
  getCustomerHistory (tracked customerId records s) other = getCustomerHistory s other.
Proof.
  intros Hne. revert s. induction records as [|m records IH]; intros s; [done|].
  unfold tracked in *. simpl. rewrite IH. by apply trackResponse_other.
Qed.

(** X1. Appending attempt records to a customer's history and reading the
    history back gives the earlier records followed by the new ones, in the
    order they were appended; read by channel, it gives the records of that
    channel in the same order. The histories of the other customers are
    unchanged. *)
Theorem history_round_trip (customerId : string) (records : list ResponseMetrics)
    (s : Coordinator) :
  getCustomerHistory (tracked customerId records s) customerId
  = getCustomerHistory s customerId ++ records
  /\ getCustomerHistory (tracked customerId records fresh) customerId = records
  /\ (forall channelType,
        getChannelHistory (tracked customerId records s) customerId channelType
        = getChannelHistory s customerId channelType
          ++ filter (fun m => channel m = channelType) records)
  /\ (forall other, other <> customerId ->
        getCustomerHistory (tracked customerId records s) other = getCustomerHistory s other).
Proof.
  split; [apply tracked_history|]. split; [by rewrite tracked_history|]. split.
  - intros channelType. unfold getChannelHistory.
    change (getInteractionHistory ?x ?y) with (getCustomerHistory x y).
    by rewrite tracked_history, filter_app.
  - intros other Hne. by apply tracked_other.
Qed.

Lemma history_round_trip_witness :
  getCustomerHistory (tracked "c1" five_attempts seven_attempts) "c2" = []
  /\ getCustomerHistory (tracked "c1" five_attempts fresh) "c1" = five_attempts.
Proof.
  destruct (history_round_trip "c1" five_attempts seven_attempts) as (_ & Hfresh & _ & Hother).
  split; [|exact Hfresh].
  rewrite (Hother "c2"%string); [reflexivity|discriminate].
Defined.

(** ** Stored effectiveness *)

(** X2. Every stored effectiveness value lies in [0,1] after any sequence of
    orchestration calls and after any sequence of direct updates, of either
    sign and any size, provided the values of the store they start from do;
    the empty store does. *)
Theorem effectiveness_stays_in_range (s : Coordinator) (calls : list Call)
    (updates : list (string * string * Q)) :
  effectiveness_in_range s ->
  effectiveness_in_range (steps s calls).1
  /\ effectiveness_in_range (updated updates s)
  /\ effectiveness_in_range (updated updates (steps s calls).1).
Proof.
  intros Hs. split; [by apply steps_in_range|].
  split; apply updates_in_range; [done|by apply steps_in_range].
Qed.

Lemma effectiveness_stays_in_range_witness :
  effectiveness_in_range
    (updated [("c1", "email", 7); ("c1", "email", -0.1); ("c2", "sms", -3)]%string fresh).
Proof.
  apply (effectiveness_stays_in_range fresh [] _ fresh_in_range).
Defined.

(** ** Next channel: always an entry of the catalog *)

Lemma find_elem {A} (p : A -> bool) (l : list A) (x : A) :
  Js.find p l = Some x -> x ∈ l /\ p x = true.
Proof.
  induction l as [|y l IH]; simpl; [done|].
  destruct (p y) eqn:Hy.
  - intros [= ->]. split; [left|done].
  - intros H. destruct (IH H). split; [by right|done].
Qed.

Lemma index_elem {A} (l : list A) (i : Z) (x : A) : Js.index l i = Some x -> x ∈ l.
Proof.
  unfold Js.index. destruct (i <? 0)%Z; [done|].
  intros H. by eapply list_elem_of_lookup_2.
Qed.

Lemma determineNextChannel_member (flow : CommunicationFlow) (current : ChannelConfig)
    (context : EscalationContext) :
  channels flow <> [] ->
  exists next, determineNextChannel flow current context = Some next /\ next ∈ channels flow.
Proof.
  intros Hne. unfold determineNextChannel.
  destruct (match fallbackChannel current with
            | Some ""%string => None
            | Some fallback =>
                Js.find (fun c => bool_decide (channel_type c = fallback)) (channels flow)
            | None => None
            end) as [c|] eqn:Hfallback.
  - exists c. split; [done|].
    destruct (fallbackChannel current) as [fallback|]; [|done].
    destruct fallback; [done|]. by apply find_elem in Hfallback as [? _].
  - destruct (Js.index (channels flow) _) as [c|] eqn:Hnext.
    + exists c. split; [done|]. by eapply index_elem.
    + rewrite index_first. destruct (channels flow) as [|c l]; [done|].
      exists c. split; [done|left].
Qed.

(** X3. On a catalog that is not empty [determineNextChannel] always answers
    with an entry of the catalog, whatever the failed channel and its
    fallback are (a fallback that is not in the catalog, a failed channel that
    is not in the catalog); a fallback that is returned has the configured
    type. On an empty catalog there is no next channel. *)
Theorem determineNextChannel_in_catalog (flow : CommunicationFlow) (current : ChannelConfig)
    (context : EscalationContext) :
  (channels flow <> [] ->
   exists next, determineNextChannel flow current context = Some next /\ next ∈ channels flow)
  /\ (channels flow = [] -> determineNextChannel flow current context = None)
  /\ (forall fallback target,
        fallbackChannel current = Some fallback -> fallback <> ""%string ->
        target ∈ channels flow -> channel_type target = fallback ->
        exists next, determineNextChannel flow current context = Some next
                     /\ channel_type next = fallback).
Proof.
  split; [apply determineNextChannel_member|]. split.
  - intros Hnil. unfold determineNextChannel. rewrite Hnil.
    destruct (fallbackChannel current) as [fallback|]; [by destruct fallback|done].
  - intros fallback target Hfb Hne Hin Htype.
    unfold determineNextChannel. rewrite Hfb.
    destruct (Js.find (fun c => bool_decide (channel_type c = fallback)) (channels flow))
      as [c|] eqn:Hfind.
    + exists c. apply find_elem in Hfind as [_ Hc]. apply bool_decide_eq_true in Hc.
      by destruct fallback.
    + exfalso. clear Hfb. induction (channels flow) as [|y l IH]; [by apply elem_of_nil in Hin|].
      simpl in Hfind. destruct (bool_decide (channel_type y = fallback)) eqn:Hy; [done|].
      apply elem_of_cons in Hin as [->|Hin].
      * apply bool_decide_eq_false in Hy. done.
      * by apply IH.
Qed.

Lemma determineNextChannel_in_catalog_witness :
  exists next,
    determineNextChannel default_flow
      {| channel_type := "fax"; channel_priority := 9; waitTime := 1; templates := [];
         fallbackChannel := Some "pager"%string; thresholds := thresholds email |}
      (builtContext fresh alice overdue) = Some next
    /\ next ∈ channels default_flow.
Proof.
  apply (proj1 (determineNextChannel_in_catalog default_flow _ _)). discriminate.
Defined.

(** ** The paths of a call, in full *)

(** No open escalation and no matching rule: what the call does, case by
    case. *)
Lemma executeChannelStrategy_outcome (w : World) (customer : Customer)
    (document : CustomerDocument) (channel : ChannelConfig) (flow : CommunicationFlow)
    (context : EscalationContext) (s : Coordinator) :
  open_escalations s (customer_id customer) = [] ->
  applicableRules w flow context = [] ->
  let composed := Compose (customer_id customer) (channel_type channel) in
  let s' := after_delivery w customer channel context s in
  run (executeChannelStrategy w customer document channel flow context) s
  = match compose w customer document (messageContext s customer channel context) with
    | None => (s, [composed], Throw CollaboratorError)
    | Some message =>
        let sent := SendMessage (channel_type channel) message in
        if success (draw w) then (s', [composed; sent], Return (Delivery (draw w)))
        else
          match determineNextChannel flow channel context with
          | None => (s', [composed; sent], Throw TypeError)
          | Some next =>
              (s', [composed; sent; Compose (customer_id customer) (channel_type next)],
               match compose w customer document (messageContext s' customer next context) with
               | Some _ => Return (Delivery (draw w))
               | None => Throw CollaboratorError
               end)
          end
    end.
Proof.
  intros Hopen Hrule composed s'.
  unfold run, executeChannelStrategy, open_escalations in *.
  unfold_monad. rewrite Hopen, Hrule. simpl.
  unfold generateMessage, sendMessage. unfold_monad.
  destruct (compose w customer document _) as [message|] eqn:Hc; [|done].
  subst s'. unfold after_delivery.
  destruct (success (draw w)) eqn:Hs; simpl.
  - by destruct (enabled (autoAdjustment flow)).
  - unfold scheduleFollowUp.
    destruct (determineNextChannel flow channel context) as [next|]; unfold_monad; [|done].
    unfold generateMessage. unfold_monad.
    destruct (compose w customer document (messageContext _ customer next context)); [|done].
    by destruct (enabled (autoAdjustment flow)).
Qed.

(** What a call on the built-in catalog comes down to. *)
Lemma step_default (s : Coordinator) (c : Call) :
  flows !! call_flowType c = Some default_flow ->
  exists best,
    selectOptimalChannel s (builtContext s (call_customer c) (call_document c)) default_flow
    = Return best
    /\ best ∈ channels default_flow
    /\ step s c
       = run (executeChannelStrategy (call_world c) (call_customer c) (call_document c) best
                default_flow (builtContext s (call_customer c) (call_document c))) s.
Proof.
  intros Hflow.
  destruct (selectOptimalChannel_ranked s
              (builtContext s (call_customer c) (call_document c)) default_flow)
    as (best & Hbest & before & after & Hsplit & _); [discriminate|].
  exists best. split; [done|]. split.
  - rewrite Hsplit. apply elem_of_app. right. left.
  - unfold step. by rewrite (initiateFlow_known _ _ _ _ default_flow s best Hflow Hbest).
Qed.

Lemma step_flow (s : Coordinator) (c : Call) :
  flows !! call_flowType c = None \/ flows !! call_flowType c = Some default_flow.
Proof.
  destruct (flows !! call_flowType c) as [flow|] eqn:Hflow; [|by left].
  right. by destruct (flows_known _ _ Hflow) as [_ ->].
Qed.

Lemma step_outcome (s : Coordinator) (c : Call) : outcome s c (step s c).
Proof.
  destruct (step_flow s c) as [Hflow|Hflow].
  { unfold step. rewrite initiateFlow_unknown by done. by constructor. }
  destruct (step_default s c Hflow) as (best & Hbest & Hin & ->).
  set (context := builtContext s (call_customer c) (call_document c)) in *.
  destruct (open_escalations s (customer_id (call_customer c))) as [|i ids] eqn:Hopen.
  - destruct (applicableRules (call_world c) default_flow context) as [|rule rest] eqn:Happ.
    + rewrite (executeChannelStrategy_outcome _ _ _ _ _ _ _ Hopen Happ).
      destruct (compose (call_world c) (call_customer c) (call_document c) _) as [message|].
      * cbv zeta. destruct (success (draw (call_world c))) eqn:Hs.
        -- by apply Delivered.
        -- destruct (determineNextChannel_member default_flow best context)
             as (next & -> & Hnext); [discriminate|].
           apply Undelivered; try done.
           destruct (compose (call_world c) (call_customer c) (call_document c) _); auto.
      * by apply NotComposed.
    + unfold run. rewrite (executeChannelStrategy_rule _ _ _ _ _ _ _ _ rule rest Hopen Happ).
      apply Escalated; try done. by eapply applicableRules_first_match.
  - unfold run. rewrite executeChannelStrategy_active by (by rewrite Hopen).
    apply ShortCircuited; [done|]. by rewrite Hopen.
Qed.

(** ** One customer at a time *)

Lemma after_delivery_other (w : World) (customer : Customer) (channel : ChannelConfig)
    (context : EscalationContext) (s : Coordinator) (other : string) :
  other <> customer_id customer ->
  getCustomerHistory (after_delivery w customer channel context s) other
  = getCustomerHistory s other
  /\ getChannelEffectiveness (after_delivery w customer channel context s) other
     = getChannelEffectiveness s other
  /\ open_escalations (after_delivery w customer channel context s) other
     = open_escalations s other.
Proof.
  intros Hne.
  unfold getCustomerHistory, getChannelEffectiveness, open_escalations, after_delivery,
    updateChannelEffectiveness, trackResponse. simpl.
  by rewrite !lookup_insert_ne.
Qed.

Lemma recordEscalation_other (customerId escalation other : string) (s : Coordinator) :
  other <> customerId ->
  open_escalations (recordEscalation customerId escalation s) other = open_escalations s other.
Proof.
  intros Hne. unfold open_escalations, recordEscalation. simpl. by rewrite lookup_insert_ne.
Qed.

(** X4. A call for one customer changes nothing of what is stored for the
    others: the history, the channel effectiveness and the open escalations of
    every other customer id are the same after the call, whatever its
    outcome. *)
Theorem call_leaves_other_customers (s : Coordinator) (c : Call) (other : string) :
  other <> customer_id (call_customer c) ->
  getCustomerHistory (step s c).1.1 other = getCustomerHistory s other
  /\ getChannelEffectiveness (step s c).1.1 other = getChannelEffectiveness s other
  /\ open_escalations (step s c).1.1 other = open_escalations s other.
Proof.
  intros Hne.
  destruct (step_outcome s c); simpl; try done; try (by apply after_delivery_other).
  split; [done|]. split; [done|]. by apply recordEscalation_other.
Qed.

Lemma call_leaves_other_customers_witness :
  getCustomerHistory
    (step seven_attempts
       {| call_world := world undelivered; call_customer := alice;
          call_document := due_later; call_flowType := "default" |}).1.1 "c2"
  = getCustomerHistory seven_attempts "c2".
Proof.
  apply (call_leaves_other_customers seven_attempts
           {| call_world := world undelivered; call_customer := alice;
              call_document := due_later; call_flowType := "default" |} "c2").
  discriminate.
Defined.

(** ** Escalation ids *)

Lemma step_at_most_one (s : Coordinator) (c : Call) :
  at_most_one_escalation s -> at_most_one_escalation (step s c).1.1.
Proof.
  intros Hs customerId. destruct (step_outcome s c); simpl; try apply Hs.
  destruct (decide (customerId = customer_id (call_customer c))) as [->|Hne].
  - by rewrite recordEscalation_first.
  - rewrite recordEscalation_other by done. apply Hs.
Qed.

Lemma steps_at_most_one (calls : list Call) (s : Coordinator) :
  at_most_one_escalation s -> at_most_one_escalation (steps s calls).1.
Proof.
  revert s. induction calls as [|c calls IH]; intros s Hs; [done|].
  simpl. pose proof (step_at_most_one s c Hs) as Hstep.
  destruct (step s c) as [[s1 trace1] result1]. simpl in Hstep.
  specialize (IH s1 Hstep). by destruct (steps s1 calls).
Qed.

(** X5. A customer never holds more than one escalation id: a call records
    an id only for a customer that has none, so a store in which every
    customer has at most one open escalation stays so under any sequence of
    calls, and every store reached from the empty one is such a store. *)
Theorem at_most_one_escalation_per_customer (calls : list Call) (s : Coordinator) :
  (at_most_one_escalation s -> at_most_one_escalation (steps s calls).1)
  /\ at_most_one_escalation (steps fresh calls).1.
Proof.
  split; [apply steps_at_most_one|].
  apply steps_at_most_one. intros customerId. unfold open_escalations. simpl.
  rewrite lookup_empty. simpl. lia.
Qed.

Lemma at_most_one_escalation_per_customer_witness :
  at_most_one_escalation
    (steps escalated
       [ {| call_world := world delivered; call_customer := alice;
            call_document := overdue; call_flowType := "default" |} ]).1.
Proof.
  apply (proj1 (at_most_one_escalation_per_customer _ escalated)).
  intros customerId. unfold open_escalations, escalated. simpl.
  destruct (decide (customerId = "c1"%string)) as [->|Hne].
  - rewrite lookup_singleton_eq. simpl. lia.
  - rewrite lookup_singleton_ne by done. simpl. lia.
Defined.

(** ** Rules that cannot hold *)

Lemma rule_manager_never (now : Z) (s : Coordinator) (customer : Customer)
    (document : CustomerDocument) :
  condition rule_manager now (builtContext s customer document) = false.
Proof. simpl. apply andb_false_r. Qed.

Lemma rule_human_never (now : Z) (context : EscalationContext) :
  condition rule_human now context = false.
Proof. done. Qed.

Lemma first_match_default (now : Z) (s : Coordinator) (customer : Customer)
    (document : CustomerDocument) (rule : EscalationRule) :
  Reference.first_match now (builtContext s customer document)
    (escalationRules default_flow) rule ->
  rule = rule_urgent \/ rule = rule_switch \/ rule = rule_alternative.
Proof.
  intros (before & after & Hsplit & Hcond & _).
  assert (Hin : rule ∈ escalationRules default_flow).
  { rewrite Hsplit. apply elem_of_app. right. left. }
  unfold default_flow in Hin. simpl in Hin.
  repeat (apply elem_of_cons in Hin as [->|Hin]); auto.
  - by rewrite rule_manager_never in Hcond.
  - by rewrite rule_human_never in Hcond.
  - by apply elem_of_nil in Hin.
Qed.

(** X6. Two of the five built-in rules can never fire. On every context the
    coordinator builds, the "escalate_to_manager" rule is false (it asks for
    an urgency above 0.8 and the urgency is always 0.5) and the
    "human_intervention" rule is false (it reads a sentiment the context does
    not have). So no call of [initiateFlow] answers "escalated_to_manager" or
    "human_intervention_required": the status of an answer is "escalated",
    "urgent_escalation", "channel_switch_required" or "default_escalation", or
    the answer is a delivery result. *)
Theorem manager_and_human_rules_never_fire (s : Coordinator) (c : Call) :
  condition rule_manager (now (call_world c))
    (builtContext s (call_customer c) (call_document c)) = false
  /\ condition rule_human (now (call_world c))
       (builtContext s (call_customer c) (call_document c)) = false
  /\ (forall result,
        (step s c).2 = Return result ->
        status_of result <> Some "escalated_to_manager"%string
        /\ status_of result <> Some "human_intervention_required"%string
        /\ status_of result
           ∈ [Some "escalated"; Some "urgent_escalation"; Some "channel_switch_required";
              Some "default_escalation"; None]%string).
Proof.
  split; [apply rule_manager_never|]. split; [apply rule_human_never|].
  intros result Hresult.
  assert (Hstatus : status_of result
            ∈ [Some "escalated"; Some "urgent_escalation"; Some "channel_switch_required";
               Some "default_escalation"; None]%string).
  { destruct (step_outcome s c) as [| | rule ? ? Hmatch | | |best next message res ? ? ? ? ? ? Hres];
      simpl in Hresult; try discriminate; try injection Hresult as <-; simpl.
    - left.
    - apply first_match_default in Hmatch as [-> | [-> | ->]]; simpl.
      + right. left.
      + do 2 right. left.
      + do 3 right. left.
    - do 4 right. left.
    - destruct Hres as [Hres|Hres]; rewrite Hres in Hresult; [|discriminate].
      injection Hresult as <-. simpl. do 4 right. left. }
  split; [|split; [|done]]; intros Heq; rewrite Heq in Hstatus;
    repeat (apply elem_of_cons in Hstatus as [Hstatus|Hstatus]; [discriminate|]);
    by apply elem_of_nil in Hstatus.
Qed.

Lemma manager_and_human_rules_never_fire_witness :
  status_of (Escalation "default_escalation" (builtContext fresh alice due_later))
  <> Some "escalated_to_manager"%string.
Proof.
  destruct (manager_and_human_rules_never_fire fresh
              {| call_world := world delivered; call_customer := alice;
                 call_document := due_later; call_flowType := "default" |})
    as (_ & _ & Hstatus).
  apply (Hstatus (Escalation "default_escalation" (builtContext fresh alice due_later))).
  reflexivity.
Defined.

(** ** The first call for a customer *)

Lemma applicableRules_untouched (w : World) (s : Coordinator) (customer : Customer)
    (document : CustomerDocument) :
  untouched s ->
  applicableRules w default_flow (builtContext s customer document)
  = if condition rule_urgent (now w) (builtContext s customer document)
    then [rule_urgent; rule_alternative]
    else [rule_alternative].
Proof.
  intros [Hh He].
  unfold applicableRules, builtContext, buildEscalationContext, getCustomerHistory,
    getChannelEffectiveness.
  rewrite Hh, He, !lookup_empty. simpl. rewrite map_to_list_empty. simpl.
  by destruct (due_date document) as [| |due]; [| |destruct (due - now w <? _)%Z].
Qed.

(** X7. The built-in flow never delivers to a new customer. On a store where
    no attempt was ever recorded, the first call for a customer escalates:
    with "urgent_escalation" when the document's due date is less than 48
    hours away (or past), with "default_escalation" otherwise, because the
    fifth rule holds whenever the customer has no stored effectiveness. From
    the empty store, no sequence of calls composes or sends anything, and no
    attempt is ever recorded. *)
Theorem first_call_escalates (s : Coordinator) (c : Call) :
  (untouched s ->
   flows !! call_flowType c = Some default_flow ->
   open_escalations s (customer_id (call_customer c)) = [] ->
   exists rule,
     rule = (if condition rule_urgent (now (call_world c))
                  (builtContext s (call_customer c) (call_document c))
             then rule_urgent else rule_alternative)
     /\ step s c
        = (recordEscalation (customer_id (call_customer c))
             (escalationId (call_world c) rule) s,
           [],
           Return (Escalation (Reference.dispatched (action rule))
                     (builtContext s (call_customer c) (call_document c)))))
  /\ (forall calls, untouched (steps fresh calls).1 /\ (steps fresh calls).2 = []).
Proof.
  split; [|apply fresh_store_never_sends].
  intros Hs Hflow Hopen.
  destruct (step_default s c Hflow) as (best & _ & _ & ->).
  pose proof (applicableRules_untouched (call_world c) s (call_customer c)
                (call_document c) Hs) as Happ.
  eexists. split; [reflexivity|]. unfold run.
  destruct (condition rule_urgent _ _);
    by erewrite executeChannelStrategy_rule.
Qed.

Lemma first_call_escalates_witness :
  (step fresh {| call_world := world delivered; call_customer := alice;
                 call_document := overdue; call_flowType := "default" |}).2
  = Return (Escalation "urgent_escalation" (builtContext fresh alice overdue)).
Proof.
  destruct (proj1 (first_call_escalates fresh
                     {| call_world := world delivered; call_customer := alice;
                        call_document := overdue; call_flowType := "default" |}))
    as (rule & -> & ->); done.
Defined.

(** ** Engagement never moves *)

Lemma engagement_of_neutral (customer : Customer) (history : list ResponseMetrics) :
  (forall m, m ∈ history -> engagementScore m == 0.5) ->
  calculateEngagementScore customer history == 0.5.
Proof.
  intros Hall. unfold calculateEngagementScore.
  destruct history as [|m0 history]; [reflexivity|].
  set (recent := Js.slice_last 5 (m0 :: history)) in *.
  assert (Hlen : 0 < Js.of_nat (length recent)).
  { apply of_nat_pos. apply slice_last_nonempty; [lia|done]. }
  unfold Js.sum. rewrite (sum_constant _ 0.5).
  - rewrite length_fmap. field. intros H. rewrite H in Hlen. by apply Qlt_irrefl in Hlen.
  - intros x Hx. apply list_elem_of_fmap in Hx as (m & -> & Hm). apply Hall.
    unfold recent, Js.slice_last in Hm. by eapply subseteq_drop.
Qed.

Lemma builtContext_neutral (s : Coordinator) (customer : Customer)
    (document : CustomerDocument) :
  engagement_neutral s -> ctx_engagementScore (builtContext s customer document) == 0.5.
Proof.
  intros Hs. unfold builtContext, buildEscalationContext. simpl.
  apply engagement_of_neutral. intros m Hm. unfold getCustomerHistory in Hm.
  destruct (responseHistory s !! customer_id customer) as [history|] eqn:E; simpl in Hm.
  - by apply (Hs _ _ _ E).
  - by apply elem_of_nil in Hm.
Qed.

Lemma step_neutral (s : Coordinator) (c : Call) :
  engagement_neutral s -> engagement_neutral (step s c).1.1.
Proof.
  intros Hs.
  assert (Hafter : forall best,
            engagement_neutral
              (after_delivery (call_world c) (call_customer c) best
                 (builtContext s (call_customer c) (call_document c)) s)).
  { intros best customerId history m Hhistory Hm.
    unfold after_delivery, updateChannelEffectiveness, trackResponse in Hhistory.
    simpl in Hhistory.
    destruct (decide (customer_id (call_customer c) = customerId)) as [<-|Hne].
    - rewrite lookup_insert_eq in Hhistory. injection Hhistory as <-.
      apply elem_of_app in Hm as [Hm|Hm].
      + destruct (responseHistory s !! customer_id (call_customer c)) as [old|] eqn:E;
          simpl in Hm; [by apply (Hs _ _ _ E)|by apply elem_of_nil in Hm].
      + apply list_elem_of_singleton in Hm as ->.
        exact (builtContext_neutral s (call_customer c) (call_document c) Hs).
    - rewrite lookup_insert_ne in Hhistory by done. by apply (Hs _ _ _ Hhistory). }
  destruct (step_outcome s c); simpl; try done; apply Hafter.
Qed.

Lemma steps_neutral (calls : list Call) (s : Coordinator) :
  engagement_neutral s -> engagement_neutral (steps s calls).1.
Proof.
  revert s. induction calls as [|c calls IH]; intros s Hs; [done|].
  simpl. pose proof (step_neutral s c Hs) as Hstep.
  destruct (step s c) as [[s1 trace1] result1]. simpl in Hstep.
  specialize (IH s1 Hstep). by destruct (steps s1 calls).
Qed.

Lemma rule_switch_neutral (now : Z) (context : EscalationContext) :
  ctx_engagementScore context == 0.5 -> condition rule_switch now context = false.
Proof.
  intros He. simpl. apply andb_false_intro1.
  destruct (Js.lt (ctx_engagementScore context) 0.3) eqn:E; [|done].
  apply lt_spec in E. rewrite He in E. by vm_compute in E.
Qed.

Lemma calculateWaitTime_quarter (channel : ChannelConfig) (customer : Customer)
    (context : EscalationContext) :
  urgencyScore context == 0.5 -> ctx_engagementScore context == 0.5 ->
  calculateWaitTime channel customer context == waitTime channel * 0.25.
Proof.
  intros Hu He. unfold calculateWaitTime. rewrite !Math_max_Qmax, Hu, He.
  assert (H1 : Qmax 0 (1 - 0.5) == 0.5) by by vm_compute.
  assert (H2 : Qmax 0.5 0.5 == 0.5) by by vm_compute.
  rewrite H1, H2. apply Q.max_r. lra.
Qed.

(** X8. The engagement score of the coordinator never moves from its
    cold-start value. Each attempt is recorded with the engagement of the
    context it was made in, and that engagement is the mean of the recorded
    ones: in a store whose records all carry 0.5 (the empty store is one),
    after any sequence of calls the records still all carry 0.5 and every
    context built has engagement 0.5. In such a store the "switch_channel"
    rule, which asks for an engagement below 0.3, is false, and the wait
    before a follow-up is a quarter of the channel's base wait time. *)
Theorem engagement_never_moves (s : Coordinator) (calls : list Call) (customer : Customer)
    (document : CustomerDocument) :
  engagement_neutral s ->
  let s' := (steps s calls).1 in
  let context := builtContext s' customer document in
  engagement_neutral s'
  /\ ctx_engagementScore context == 0.5
  /\ (forall now, condition rule_switch now context = false)
  /\ (forall channel, calculateWaitTime channel customer context == waitTime channel * 0.25).
Proof.
  intros Hs s' context.
  assert (Hs' : engagement_neutral s') by by apply steps_neutral.
  assert (He : ctx_engagementScore context == 0.5) by by apply builtContext_neutral.
  split; [done|]. split; [done|]. split.
  - intros now. by apply rule_switch_neutral.
  - intros channel. rewrite calculateWaitTime_quarter; [reflexivity|..]; done.
Qed.

Lemma seven_attempts_neutral : engagement_neutral seven_attempts.
Proof.
  intros customerId history m Hhistory Hm.
  unfold seven_attempts in Hhistory. simpl in Hhistory.
  apply lookup_singleton_Some in Hhistory as [_ <-].
  unfold five_attempts in Hm. simpl in Hm.
  repeat (apply elem_of_cons in Hm as [->|Hm]; [reflexivity|]).
  by apply elem_of_nil in Hm.
Qed.

Lemma engagement_never_moves_witness :
  let s' := (steps seven_attempts
               [ {| call_world := world undelivered; call_customer := alice;
                    call_document := due_later; call_flowType := "default" |} ]).1 in
  length (getCustomerHistory s' "c1") = 8%nat
  /\ ctx_engagementScore (builtContext s' alice due_later) == 0.5.
Proof.
  cbv zeta. split; [by vm_compute|].
  apply (engagement_never_moves seven_attempts _ alice due_later seven_attempts_neutral).
Defined.

(** ** What a call sends and records *)

Lemma after_delivery_length (w : World) (customer : Customer) (channel : ChannelConfig)
    (context : EscalationContext) (s : Coordinator) :
  length (getCustomerHistory (after_delivery w customer channel context s) (customer_id customer))
  = S (length (getCustomerHistory s (customer_id customer))).
Proof. rewrite after_delivery_history, length_app. simpl. lia. Qed.

(** X9. A call reaches the delivery gateway at most once, and the history of
    its customer grows by exactly the number of messages it sent: by one
    record when a message was sent, also when the call then fails on the
    follow-up, and by none otherwise. A message is sent only right after it
    was composed for the same customer and channel, and an answer that is a
    delivery result means one message was sent. *)
Theorem one_send_one_record (s : Coordinator) (c : Call) :
  let customerId := customer_id (call_customer c) in
  let trace := (step s c).1.2 in
  (sends trace <= 1)%nat
  /\ length (getCustomerHistory (step s c).1.1 customerId)
     = (length (getCustomerHistory s customerId) + sends trace)%nat
  /\ (sends trace = 1%nat ->
      exists channelType message rest,
        trace = Compose customerId channelType :: SendMessage channelType message :: rest
        /\ sends rest = 0%nat)
  /\ (forall response, (step s c).2 = Return (Delivery response) ->
        sends trace = 1%nat /\ response = draw (call_world c)).
Proof.
  cbv zeta.
  destruct (step_outcome s c) as [| | | | |best next message res ? ? ? ? ? ? Hres]; simpl;
    rewrite ?after_delivery_length; unfold sends; simpl.
  - repeat split; try lia; try discriminate.
  - repeat split; try lia; try discriminate.
  - repeat split; try lia; try discriminate. unfold getCustomerHistory. simpl. lia.
  - repeat split; try lia; try discriminate.
  - split; [lia|]. split; [lia|]. split.
    + intros _. by do 3 eexists.
    + intros response [= <-]. done.
  - split; [lia|]. split; [lia|]. split.
    + intros _. by do 3 eexists.
    + intros response Hresponse.
      destruct Hres as [Hres|Hres]; rewrite Hres in Hresponse; [|discriminate].
      by injection Hresponse as <-.
Qed.

Lemma one_send_one_record_witness :
  exists channelType message rest,
    (step seven_attempts
       {| call_world := world undelivered; call_customer := alice;
          call_document := due_later; call_flowType := "default" |}).1.2
    = Compose "c1" channelType :: SendMessage channelType message :: rest
    /\ sends rest = 0%nat.
Proof.
  apply (one_send_one_record seven_attempts
           {| call_world := world undelivered; call_customer := alice;
              call_document := due_later; call_flowType := "default" |}).
  by vm_compute.
Defined.

(** ** Errors *)

(** X10. On the built-in catalog a call is rejected in two ways only. An
    unknown flow type raises the flow-not-found error before anything is read
    or written. The composition collaborator throwing is passed on: either
    on the first message, and then nothing was sent and the store is
    unchanged, or on the follow-up after a failed delivery, and then the
    message was sent and the attempt stays recorded. No call fails on a
    missing channel. *)
Theorem errors_of_a_call (s : Coordinator) (c : Call) (e : Error) :
  (step s c).2 = Throw e ->
  (e = FlowNotFound (call_flowType c)
   /\ flows !! call_flowType c = None
   /\ (step s c).1 = (s, []))
  \/ (e = CollaboratorError
      /\ (step s c).1.1 = s
      /\ sends (step s c).1.2 = 0%nat)
  \/ (e = CollaboratorError
      /\ success (draw (call_world c)) = false
      /\ sends (step s c).1.2 = 1%nat
      /\ length (getCustomerHistory (step s c).1.1 (customer_id (call_customer c)))
         = S (length (getCustomerHistory s (customer_id (call_customer c))))).
Proof.
  destruct (step_outcome s c) as [| | | | |best next message res ? ? ? ? ? ? Hres]; simpl;
    intros He; try discriminate.
  - injection He as <-. by left.
  - injection He as <-. right. left. done.
  - destruct Hres as [Hres|Hres]; rewrite Hres in He; [discriminate|].
    injection He as <-. do 2 right. rewrite after_delivery_length. done.
Qed.

Lemma errors_of_a_call_witness :
  (step seven_attempts
     {| call_world := {| now := now0; compose := fun _ _ _ => None; draw := delivered |};
        call_customer := alice; call_document := due_later;
        call_flowType := "default" |}).1.1 = seven_attempts.
Proof.
  destruct (errors_of_a_call seven_attempts
              {| call_world := {| now := now0; compose := fun _ _ _ => None; draw := delivered |};
                 call_customer := alice; call_document := due_later;
                 call_flowType := "default" |} CollaboratorError)
    as [(He & _)|[(_ & Hs & _)|(_ & Hs & _)]].
  - by vm_compute.
  - discriminate He.
  - exact Hs.
  - discriminate Hs.
Defined.

(** ** Ranges of the scores *)

Lemma of_nat_le (a b : nat) : (a <= b)%nat -> Js.of_nat a <= Js.of_nat b.
Proof. intros H. unfold Js.of_nat. rewrite <- Zle_Qle. lia. Qed.

Lemma ratio_range (a b : nat) :
  (a <= b)%nat -> (0 < b)%nat -> 0 <= Js.of_nat a / Js.of_nat b <= 1.
Proof.
  intros Hab Hb. pose proof (of_nat_pos b Hb) as Hpos.
  pose proof (of_nat_le 0 a ltac:(lia)) as Ha. pose proof (of_nat_le a b Hab) as Hle.
  change (Js.of_nat 0) with 0 in Ha.
  split.
  - apply Qle_shift_div_l; [done|]. lra.
  - apply Qle_shift_div_r; [done|]. lra.
Qed.

Lemma successes_length (history : list ResponseMetrics) :
  (length (successes history) <= length history)%nat.
Proof. unfold successes. apply length_filter. Qed.

Lemma calculateChannelScore_range (s : Coordinator) (channel : ChannelConfig)
    (context : EscalationContext) :
  0 <= calculateChannelScore s channel context <= 1.
Proof.
  unfold calculateChannelScore.
  set (history := getChannelHistory s _ _).
  assert (Hrate : 0 <= match history with
                       | [] => 0
                       | _ => Js.of_nat (length (successes history))
                              / Js.of_nat (length history) * 0.3
                       end <= 0.3).
  { destruct history as [|m rest]; [split; lra|].
    destruct (ratio_range (length (successes (m :: rest))) (length (m :: rest)))
      as [H0 H1]; [apply successes_length|simpl; lia|].
    split; lra. }
  destruct Hrate as [Hr0 Hr1].
  destruct (Js.ge (urgencyScore context) _);
    destruct (lastResponse context) as [r|];
    try destruct (Js.ge (sentiment r) _);
    destruct (Js.ge (ctx_engagementScore context) _);
    split; lra.
Qed.

(** X11. The base score of a channel lies between 0 and 1 for every store,
    channel and context. Ranked with the stored effectiveness on top, a
    channel of a customer whose stored values lie in [0,1] scores between 0
    and 2. *)
Theorem channel_scores_in_range (s : Coordinator) (customer : Customer)
    (document : CustomerDocument) (channel : ChannelConfig) (context : EscalationContext) :
  0 <= calculateChannelScore s channel context <= 1
  /\ (effectiveness_in_range s ->
      0 <= (scoreChannel s (builtContext s customer document) channel).2 <= 2).
Proof.
  split; [apply calculateChannelScore_range|].
  intros Hs. unfold scoreChannel. simpl.
  pose proof (calculateChannelScore_range s channel (builtContext s customer document))
    as [H0 H1].
  assert (Hbonus : 0 <= Js.or_else
                          (getChannelEffectiveness s (customer_id customer)
                             !! channel_type channel) 0 <= 1).
  { unfold Js.or_else, getChannelEffectiveness.
    destruct (channelEffectiveness s !! customer_id customer) as [m|] eqn:Em; simpl.
    - destruct (m !! channel_type channel) as [v|] eqn:Ev; [|split; lra].
      destruct (Qeq_bool v 0); [split; lra|]. by apply (Hs _ _ _ _ Em Ev).
    - rewrite lookup_empty. split; lra. }
  destruct Hbonus. split; lra.
Qed.

Lemma channel_scores_in_range_witness :
  0 <= (scoreChannel fresh (builtContext fresh alice overdue) whatsapp).2 <= 2.
Proof.
  apply (channel_scores_in_range fresh alice overdue whatsapp
           (builtContext fresh alice overdue)).
  exact fresh_in_range.
Defined.

(** X12. The wait before a follow-up is never shorter than a quarter of the
    channel's base wait time, whatever the urgency and the engagement, and
    never longer than the base wait time when the urgency is not negative and
    the engagement is at most 1 (the base wait time not being negative). *)
Theorem calculateWaitTime_bounds (channel : ChannelConfig) (customer : Customer)
    (context : EscalationContext) :
  0 <= waitTime channel ->
  waitTime channel * 0.25 <= calculateWaitTime channel customer context
  /\ (0 <= urgencyScore context -> ctx_engagementScore context <= 1 ->
      calculateWaitTime channel customer context <= waitTime channel).
Proof.
  intros Hbase. unfold calculateWaitTime. rewrite !Math_max_Qmax.
  split; [apply Q.le_max_r|].
  intros Hu He.
  set (u := Qmax 0 (1 - urgencyScore context)).
  set (e := Qmax 0.5 (ctx_engagementScore context)).
  assert (Hu' : 0 <= u <= 1).
  { split; [apply Q.le_max_l|]. apply Q.max_lub; lra. }
  assert (He' : 0 <= e <= 1).
  { split.
    - eapply Qle_trans; [|apply Q.le_max_l]. lra.
    - apply Q.max_lub; lra. }
  apply Q.max_lub; [|lra].
  destruct Hu' as [Hu0 Hu1], He' as [He0 He1].
  assert (Hbu : 0 <= waitTime channel * u) by (apply Qmult_le_0_compat; done).
  assert (Hbu1 : waitTime channel * u <= waitTime channel) by nra.
  assert (Hbue : waitTime channel * u * e <= waitTime channel * u) by nra.
  lra.
Qed.

Lemma calculateWaitTime_bounds_witness :
  waitTime email * 0.25 <= calculateWaitTime email alice (builtContext fresh alice overdue)
  /\ calculateWaitTime email alice (builtContext fresh alice overdue) <= waitTime email.
Proof.
  assert (Hbase : 0 <= waitTime email) by by vm_compute.
  destruct (calculateWaitTime_bounds email alice (builtContext fresh alice overdue) Hbase)
    as [Hlow Hhigh].
  split; [exact Hlow|]. apply Hhigh; by vm_compute.
Defined.

(* ================================================================= *)
(** * Further properties of the messaging engine *)

(** ** Urgency *)

Lemma lt_false (x y : Q) : Js.lt x y = false <-> y <= x.
Proof.
  unfold Js.lt. rewrite negb_false_iff. apply Qle_bool_iff.
Qed.

Lemma proximity_values (now due : Z) :
  20 <= Reference.proximity now due <= 100.
Proof.
  unfold Reference.proximity. cbv zeta.
  repeat (match goal with |- context [if ?b then _ else _] => destruct b end);
    split; by vm_compute.
Qed.

Lemma proximity_antitone (now due1 due2 : Z) :
  (due1 <= due2)%Z -> Reference.proximity now due2 <= Reference.proximity now due1.
Proof.
  intros Hle. unfold Reference.proximity. cbv zeta.
  set (x1 := inject_Z (due1 - now) / inject_Z 86400000).
  set (x2 := inject_Z (due2 - now) / inject_Z 86400000).
  assert (Hx : x1 <= x2).
  { unfold x1, x2. apply Qmult_le_compat_r; [|by vm_compute].
    rewrite <- Zle_Qle. lia. }
  destruct (Js.lt x1 0) eqn:A1; destruct (Js.lt x1 2) eqn:A2;
    destruct (Js.lt x1 5) eqn:A3; destruct (Js.lt x1 10) eqn:A4;
    destruct (Js.lt x2 0) eqn:B1; destruct (Js.lt x2 2) eqn:B2;
    destruct (Js.lt x2 5) eqn:B3; destruct (Js.lt x2 10) eqn:B4;
    try (by vm_compute);
    repeat match goal with
           | H : Js.lt _ _ = true |- _ => apply lt_spec in H
           | H : Js.lt _ _ = false |- _ => apply lt_false in H
           end; exfalso; lra.
Qed.

Lemma bonuses_nonneg (type : string) (reminders : option Q) :
  0 <= default 0 reminders ->
  0 <= Reference.typeBonus type + Reference.reminderBonus reminders.
Proof.
  intros Hn.
  assert (0 <= Reference.typeBonus type).
  { unfold Reference.typeBonus. repeat case_decide; done. }
  assert (0 <= Reference.reminderBonus reminders).
  { unfold Reference.reminderBonus. apply Q.min_glb; [done|lra]. }
  lra.
Qed.

(** X13. The urgency score of the messaging engine: with a reminder count
    that is not negative it lies between 20 and 100; it is 100 for every
    document whose due date is past; and of two documents that differ in
    their due date only, the one due sooner never scores lower. A due date
    that does not parse counts as far away (bucket 20). *)
Theorem messaging_urgency_range (now : Z) (document : CustomerDocument) :
  0 <= default 0 (reminder_count document) ->
  20 <= SmartMessaging.calculateUrgencyScore now document <= 100
  /\ (forall due, due_date document = DateAt due -> (due < now)%Z ->
        SmartMessaging.calculateUrgencyScore now document == 100)
  /\ (forall due sooner,
        due_date document = DateAt due -> (sooner <= due)%Z ->
        SmartMessaging.calculateUrgencyScore now document
        <= SmartMessaging.calculateUrgencyScore now
             {| document_id := document_id document;
                document_name := document_name document;
                document_type := document_type document;
                due_date := DateAt sooner;
                reminder_count := reminder_count document |})
  /\ (due_date document = InvalidDate ->
      SmartMessaging.calculateUrgencyScore now document
      == Qmin 100 (20 + Reference.typeBonus (document_type document)
                   + Reference.reminderBonus (reminder_count document))).
Proof.
  intros Hn.
  pose proof (bonuses_nonneg (document_type document) (reminder_count document) Hn) as Hb.
  assert (Hinvalid : forall d, due_date d = EmptyDate \/ due_date d = InvalidDate ->
            SmartMessaging.calculateUrgencyScore now d
            == Qmin 100 (20 + Reference.typeBonus (document_type d)
                         + Reference.reminderBonus (reminder_count d))).
  { intros d Hd. unfold SmartMessaging.calculateUrgencyScore, SmartMessaging.daysUntilDue.
    rewrite Math_min_Qmin. apply Q.min_compat; [reflexivity|].
    assert (Ht : (if decide (document_type d = "Legal"%string) then 20 else 0)
                 + (if decide (document_type d = "Financial"%string) then 15 else 0)
                 == Reference.typeBonus (document_type d)).
    { unfold Reference.typeBonus.
      destruct (decide (document_type d = "Legal"%string)) as [->|];
        [destruct (decide (_ = "Financial"%string)); [discriminate|reflexivity]|].
      destruct (decide (_ = "Financial"%string)); reflexivity. }
    assert (Hr : match reminder_count d with
                 | Some n => if Qeq_bool n 0 then 0 else Js.Math_min 20 (n * 5)
                 | None => 0
                 end == Reference.reminderBonus (reminder_count d)).
    { unfold Reference.reminderBonus. destruct (reminder_count d) as [n|]; simpl.
      - destruct (Qeq_bool n 0) eqn:E.
        + apply Qeq_bool_iff in E. rewrite E. reflexivity.
        + rewrite Math_min_Qmin. apply Q.min_compat; [reflexivity|ring].
      - reflexivity. }
    rewrite <- Ht, <- Hr. destruct Hd as [-> | ->]; ring. }
  split; [|split; [|split]].
  - destruct (due_date document) as [| |due] eqn:Hdue.
    + rewrite Hinvalid by auto. split; [apply Q.min_glb|apply Q.le_min_l]; lra.
    + rewrite Hinvalid by auto. split; [apply Q.min_glb|apply Q.le_min_l]; lra.
    + rewrite (messaging_urgency_is_reference now due document Hdue).
      unfold Reference.urgency. pose proof (proximity_values now due) as [Hp _].
      split; [apply Q.min_glb|apply Q.le_min_l]; lra.
  - intros due Hdue Hlt. by apply (messaging_urgency_overdue now due).
  - intros due sooner Hdue Hle.
    rewrite (messaging_urgency_is_reference now due document Hdue).
    match goal with
    | |- _ <= SmartMessaging.calculateUrgencyScore now ?d =>
        rewrite (messaging_urgency_is_reference now sooner d eq_refl)
    end. simpl.
    unfold Reference.urgency. pose proof (proximity_antitone now sooner due Hle).
    apply Q.min_le_compat_l. lra.
  - intros Hdue. apply Hinvalid. by right.
Qed.

Lemma messaging_urgency_range_witness :
  SmartMessaging.calculateUrgencyScore now0 overdue == 100
  /\ SmartMessaging.calculateUrgencyScore now0 due_later
     <= SmartMessaging.calculateUrgencyScore now0 (contract (DateAt (now0 + day))).
Proof.
  assert (Hn : 0 <= default 0 (reminder_count overdue)) by by vm_compute.
  destruct (messaging_urgency_range now0 overdue Hn) as (_ & Hover & _).
  destruct (messaging_urgency_range now0 due_later Hn) as (_ & _ & Hmono & _).
  split.
  - apply (Hover (now0 - 3 * day)%Z); [reflexivity|by vm_compute].
  - apply (Hmono (now0 + 30 * day)%Z (now0 + day)%Z); [reflexivity|by vm_compute].
Defined.

(** ** Template selection *)

Lemma gt_spec (x y : Q) : Js.gt x y = true <-> y < x.
Proof. apply lt_spec. Qed.

Lemma gt_false (x y : Q) : Js.gt x y = false <-> x <= y.
Proof. apply lt_false. Qed.

Lemma fold_best {A} (processed rest : list (A * Q)) (best : A * Q) :
  Reference.first_highest snd processed best ->
  Reference.first_highest snd (processed ++ rest)
    (fold_left (fun prev current => if Js.gt current.2 prev.2 then current else prev)
       rest best).
Proof.
  revert processed best. induction rest as [|c rest IH]; intros processed best Hbest; simpl.
  - by rewrite app_nil_r.
  - replace (processed ++ c :: rest) with ((processed ++ [c]) ++ rest)
      by by rewrite <- app_assoc.
    apply IH. destruct Hbest as (before & after & -> & Hbefore & Hafter).
    destruct (Js.gt c.2 best.2) eqn:E.
    + apply gt_spec in E. exists (before ++ best :: after), []. split; [done|]. split.
      * intros x Hx. apply elem_of_app in Hx as [Hx|Hx].
        -- eapply Qlt_trans; [by apply Hbefore|done].
        -- apply elem_of_cons in Hx as [->|Hx]; [done|].
           eapply Qle_lt_trans; [by apply Hafter|done].
      * intros x Hx. by apply elem_of_nil in Hx.
    + apply gt_false in E. exists before, (after ++ [c]).
      split; [by rewrite <- app_assoc|]. split; [done|].
      intros x Hx. apply elem_of_app in Hx as [Hx|Hx]; [by apply Hafter|].
      by apply list_elem_of_singleton in Hx as ->.
Qed.

Lemma reduce_best_first_highest {A} (scores : list (A * Q)) :
  scores <> [] ->
  exists best, Engine.reduce_best scores = Return best
               /\ Reference.first_highest snd scores best.
Proof.
  destruct scores as [|first rest]; [done|]. intros _. eexists. split; [reflexivity|].
  apply (fold_best [first] rest first).
  exists [], []. split; [done|]. split; intros x Hx; by apply elem_of_nil in Hx.
Qed.

Lemma templateScore_range (now : Z) (document : CustomerDocument) (context : Engine.Context)
    (template : Engine.MessageTemplate) :
  template ∈ Engine.templates ->
  0 <= Engine.templateScore now document context template <= 100.
Proof.
  intros Hin. unfold Engine.templateScore. cbv zeta.
  set (usage := List.filter _ _).
  assert (Husage : 0 <= match usage with
                        | [] => 0
                        | _ => Js.of_nat (length (Engine.replies usage))
                               / Js.of_nat (length usage) * 25
                        end <= 25).
  { destruct usage as [|i rest]; [split; lra|].
    destruct (ratio_range (length (Engine.replies (i :: rest))) (length (i :: rest)))
      as [H0 H1]; [apply List.filter_length_le|simpl; lia|].
    split; lra. }
  destruct Husage as [Hu0 Hu1].
  assert (Hmetrics : 0 <= match Engine.performance_metrics template with
                          | Some m => Engine.response_rate m / 100 * 15
                                      + Engine.positive_sentiment_rate m / 100 * 10
                          | None => 0
                          end <= 25).
  { unfold Engine.templates in Hin.
    repeat (apply elem_of_cons in Hin as [->|Hin]; [split; by vm_compute|]).
    by apply elem_of_nil in Hin. }
  destruct Hmetrics as [Hm0 Hm1].
  destruct (Js.gt _ 80 && _); [|destruct (Js.gt _ 50 && _); [|destruct (Js.le _ 50 && _)]];
    destruct (bool_decide _); split; lra.
Qed.

Lemma selectBestTemplateFrom_ranked (catalog : list Engine.MessageTemplate) (now : Z)
    (document : CustomerDocument) (context : Engine.Context) :
  catalog <> [] ->
  exists best,
    Engine.selectBestTemplateFrom catalog now document context = Return best
    /\ Reference.first_highest (Engine.templateScore now document context) catalog best.
Proof.
  intros Hne. unfold Engine.selectBestTemplateFrom.
  destruct (reduce_best_first_highest
              ((fun t => (t, Engine.templateScore now document context t)) <$> catalog))
    as (best & -> & before' & after' & Hsplit & Hbefore & Hafter).
  { intros H. by apply fmap_nil_inv in H. }
  exists best.1. split; [done|].
  apply fmap_app_inv in Hsplit as (before & rest & -> & Hrest & ->).
  symmetry in Hrest. apply fmap_cons_inv in Hrest as (t & after & -> & -> & ->).
  exists before, after. simpl. split; [done|]. split.
  - intros x Hx.
    apply (Hbefore (x, Engine.templateScore now document context x)).
    by apply (list_elem_of_fmap_2 (fun t => (t, Engine.templateScore now document context t))).
  - intros x Hx.
    apply (Hafter (x, Engine.templateScore now document context x)).
    by apply (list_elem_of_fmap_2 (fun t => (t, Engine.templateScore now document context t))).
Qed.

(** X14. The engine answers with the highest-scoring template, the first
    listed among equals, and fails only on an empty template list. Of its own
    three templates it always returns one, scored between 0 and 100; the
    channel of that template is email or whatsapp whatever channel the caller
    prefers, since the preferred channel only adds to the score of the
    templates that have it. *)
Theorem selectBestTemplate_first_highest (now : Z) (document : CustomerDocument)
    (context : Engine.Context) :
  (forall catalog, catalog <> [] ->
     exists best,
       Engine.selectBestTemplateFrom catalog now document context = Return best
       /\ Reference.first_highest (Engine.templateScore now document context) catalog best)
  /\ Engine.selectBestTemplateFrom [] now document context = Throw TypeError
  /\ exists best,
       Engine.selectBestTemplate now document context = Return best
       /\ Reference.first_highest (Engine.templateScore now document context)
            Engine.templates best
       /\ 0 <= Engine.templateScore now document context best <= 100
       /\ (Engine.template_channel best = "email"%string
           \/ Engine.template_channel best = "whatsapp"%string).
Proof.
  split; [intros; by apply selectBestTemplateFrom_ranked|]. split; [done|].
  destruct (selectBestTemplateFrom_ranked Engine.templates now document context)
    as (best & Hbest & Hhigh); [discriminate|].
  exists best. split; [done|]. split; [done|].
  assert (Hin : best ∈ Engine.templates).
  { destruct Hhigh as (before & after & -> & _). apply elem_of_app. right. left. }
  split; [by apply templateScore_range|].
  unfold Engine.templates in Hin.
  repeat (apply elem_of_cons in Hin as [->|Hin]; [auto|]).
  by apply elem_of_nil in Hin.
Qed.

Lemma selectBestTemplate_first_highest_witness :
  exists best,
    Engine.selectBestTemplateFrom (drop 1 Engine.templates) now0 overdue
      {| Engine.previousInteractions := [];
         Engine.customerPreferences :=
           {| Engine.preferredChannel := "sms"; Engine.preferredLanguage := "en";
              Engine.responseRate := 0.5; Engine.typicalResponseTime := 24;
              Engine.doNotDisturbTimes := None |};
         Engine.aiInsights := None |} = Return best
    /\ Reference.first_highest
         (Engine.templateScore now0 overdue
            {| Engine.previousInteractions := [];
               Engine.customerPreferences :=
                 {| Engine.preferredChannel := "sms"; Engine.preferredLanguage := "en";
                    Engine.responseRate := 0.5; Engine.typicalResponseTime := 24;
                    Engine.doNotDisturbTimes := None |};
               Engine.aiInsights := None |})
         (drop 1 Engine.templates) best.
Proof.
  apply (proj1 (selectBestTemplate_first_highest now0 overdue _)). discriminate.
Defined.

(** ** Engagement level and channel effectiveness of the engine *)

Lemma sum_bounds (xs : list Q) (lo hi a : Q) :
  (forall x, x ∈ xs -> lo <= x <= hi) ->
  a + Js.of_nat (length xs) * lo <= fold_left Qplus xs a
  /\ fold_left Qplus xs a <= a + Js.of_nat (length xs) * hi.
Proof.
  revert a. induction xs as [|x xs IH]; intros a Hall; simpl.
  - change (Js.of_nat 0) with 0. split; lra.
  - destruct (IH (a + x)) as [H0 H1]; [intros y Hy; apply Hall; by right|].
    destruct (Hall x) as [Hx0 Hx1]; [left|].
    pose proof (of_nat_S (length xs)) as HS.
    change (Js.of_nat (length (x :: xs))) with (Js.of_nat (S (length xs))).
    split.
    + eapply Qle_trans; [|exact H0]. rewrite HS. lra.
    + eapply Qle_trans; [exact H1|]. rewrite HS. lra.
Qed.

Lemma mean_bounds (xs : list Q) (lo hi : Q) :
  xs <> [] -> (forall x, x ∈ xs -> lo <= x <= hi) ->
  lo <= Js.sum xs / Js.of_nat (length xs) <= hi.
Proof.
  intros Hne Hall. destruct (sum_bounds xs lo hi 0 Hall) as [H0 H1].
  assert (Hn : 0 < Js.of_nat (length xs)).
  { apply of_nat_pos. destruct xs; [done|simpl; lia]. }
  unfold Js.sum. split.
  - apply Qle_shift_div_l; [done|]. lra.
  - apply Qle_shift_div_r; [done|]. lra.
Qed.

(** X15. The engagement level of the engine is 0.6 times the reply rate
    plus 0.4 times the mean sentiment, both over the last five interactions
    (over all of them when there are fewer): the reply rate is the number of
    them that were replied to over their number, the customer sentiment the
    total of their sentiments over their number. With no interaction at all
    neither is a number. With sentiments in [-1,1] the sentiment lies in
    [-1,1] and the level between -0.4 and 1, so it can be negative. *)
Theorem engagement_level_range (context : Engine.Context) :
  (Engine.previousInteractions context = [] ->
   Engine.calculateEngagementLevel context = None
   /\ Engine.calculateCustomerSentiment context = None)
  /\ (forall recent : list Engine.Interaction,
        Engine.previousInteractions context <> [] ->
        Reference.last_five (Engine.previousInteractions context) recent ->
        exists level mean,
          Engine.calculateEngagementLevel context = Some level
          /\ Engine.calculateCustomerSentiment context = Some mean
          /\ mean == Reference.mean (Engine.sentiment <$> recent)
          /\ level
             == Js.of_nat (length (List.filter Engine.wasReplied recent))
                / Js.of_nat (length recent) * 0.6
                + Reference.mean (Engine.sentiment <$> recent) * 0.4
          /\ ((forall i, i ∈ recent -> -1 <= Engine.sentiment i <= 1) ->
              -1 <= mean <= 1 /\ -0.4 <= level <= 1)).
Proof.
  split.
  - intros Hnil. unfold Engine.calculateEngagementLevel, Engine.calculateCustomerSentiment.
    by rewrite Hnil.
  - intros recent Hne Hrecent.
    unfold Engine.calculateEngagementLevel, Engine.calculateCustomerSentiment.
    pose proof (slice_last_nonempty 5 _ ltac:(lia) Hne) as Hlen.
    rewrite (slice_last_five _ _ Hrecent) in *.
    assert (Hmean : Js.sum (Engine.sentiment <$> recent) / Js.of_nat (length recent)
                    == Reference.mean (Engine.sentiment <$> recent)).
    { unfold Reference.mean, Js.sum, Js.of_nat. rewrite sum_total, length_fmap.
      by rewrite Qplus_0_l. }
    unfold Engine.over. destruct (length recent) as [|n] eqn:En; [lia|]. rewrite <- En in *.
    do 2 eexists. split; [reflexivity|]. split; [reflexivity|].
    split; [exact Hmean|]. split; [by rewrite Hmean|].
    intros Hall.
    destruct (ratio_range (length (Engine.replies recent)) (length recent))
      as [Hr0 Hr1]; [apply List.filter_length_le|done|].
    destruct (mean_bounds (Engine.sentiment <$> recent) (-1) 1) as [Hm0 Hm1].
    { destruct recent; [simpl in Hlen; lia|done]. }
    { intros x Hx. apply list_elem_of_fmap in Hx as (i & -> & Hi). by apply Hall. }
    rewrite length_fmap in Hm0, Hm1.
    repeat split; lra.
Qed.

(** Two interactions, at sentiment 1 and replied to, and at sentiment -0.5
    and not: the reply rate is 0.5, the sentiment 0.25, the level 0.4. *)
Lemma engagement_level_range_witness :
  exists level,
    Engine.calculateEngagementLevel
      (engine_context [interaction 10 1 true; interaction 15 (-0.5) false] 0.5 None None)
    = Some level
    /\ level == 0.4.
Proof.
  destruct (proj2 (engagement_level_range
                     (engine_context [interaction 10 1 true; interaction 15 (-0.5) false]
                        0.5 None None))
              [interaction 10 1 true; interaction 15 (-0.5) false])
    as (level & mean & Hlevel & _ & _ & Hformula & _).
  - discriminate.
  - exists []. split; [reflexivity|]. right. split; [reflexivity|simpl; lia].
  - exists level. split; [exact Hlevel|].
    eapply Qeq_trans; [exact Hformula|]. by vm_compute.
Defined.

Lemma sum_positive (xs : list Q) (a : Q) :
  (forall x, x ∈ xs -> 0 < x) -> 0 <= a -> xs <> [] -> 0 < fold_left Qplus xs a.
Proof.
  revert a. induction xs as [|x xs IH]; intros a Hall Ha Hne; [done|]. simpl.
  assert (Hx : 0 < x) by (apply Hall; left).
  destruct xs as [|y xs].
  - simpl. lra.
  - apply IH; [intros z Hz; apply Hall; by right|lra|done].
Qed.

Lemma calculateEffectiveness_range (interactions : list Engine.Interaction) :
  (forall i t, i ∈ interactions -> Engine.responseTime i = Some t -> 0 <= t) ->
  0 <= Engine.calculateEffectiveness interactions <= 100.
Proof.
  intros Htimes. unfold Engine.calculateEffectiveness.
  destruct interactions as [|i0 rest] eqn:E; [split; lra|]. rewrite <- E in *.
  assert (Hne : interactions <> []) by by rewrite E.
  clear E. cbv zeta.
  assert (Hn : 0 < Js.of_nat (length interactions)).
  { apply of_nat_pos. destruct interactions; [done|simpl; lia]. }
  destruct (ratio_range (length (Engine.replies interactions)) (length interactions))
    as [Hr0 Hr1]; [apply List.filter_length_le|destruct interactions; [done|simpl; lia]|].
  set (times := (fun i => Js.or_else (Engine.responseTime i) 24) <$> interactions).
  assert (Hsum : 0 < Js.sum times).
  { apply sum_positive; [|lra|].
    - intros x Hx. apply list_elem_of_fmap in Hx as (i & -> & Hi).
      unfold Js.or_else. destruct (Engine.responseTime i) as [t|] eqn:Et; [|lra].
      destruct (Qeq_bool t 0) eqn:E0; [lra|].
      pose proof (Htimes i t Hi Et) as Ht.
      apply Qle_lt_or_eq in Ht as [Ht|Ht]; [done|].
      symmetry in Ht. apply Qeq_bool_iff in Ht. congruence.
    - unfold times. intros H. by apply fmap_nil_inv in H. }
  set (average := Js.sum times / Js.of_nat (length interactions)).
  assert (Haverage : 0 < average).
  { unfold average. apply Qlt_shift_div_l; [done|]. lra. }
  assert (Hspeed : 0 <= (if Qeq_bool average 0 then 1
                         else Js.Math_min 1 (24 / average)) <= 1).
  { destruct (Qeq_bool average 0); [split; lra|].
    rewrite Math_min_Qmin. split; [|apply Q.le_min_l].
    apply Q.min_glb; [lra|]. apply Qle_shift_div_l; [done|]. lra. }
  destruct Hspeed. split; nra.
Qed.

Lemma on_channel_subset (c : string) (interactions : list Engine.Interaction) i :
  i ∈ Engine.on_channel c interactions -> i ∈ interactions.
Proof.
  unfold Engine.on_channel. intros H. apply list_elem_of_In in H.
  apply List.filter_In in H as [H _]. by apply list_elem_of_In.
Qed.

(** X16. With response times that are not negative, the effectiveness the
    engine computes for the email and for the whatsapp channel lies between 0
    and 100; a channel with no interaction gets the default 50. *)
Theorem channel_effectiveness_range (context : Engine.Context) :
  (forall i t, i ∈ Engine.previousInteractions context ->
               Engine.responseTime i = Some t -> 0 <= t) ->
  0 <= (Engine.analyzeChannelEffectiveness context).1 <= 100
  /\ 0 <= (Engine.analyzeChannelEffectiveness context).2 <= 100
  /\ (Engine.on_channel "email" (Engine.previousInteractions context) = [] ->
      (Engine.analyzeChannelEffectiveness context).1 = 50)
  /\ (Engine.on_channel "whatsapp" (Engine.previousInteractions context) = [] ->
      (Engine.analyzeChannelEffectiveness context).2 = 50).
Proof.
  intros Htimes. unfold Engine.analyzeChannelEffectiveness. simpl.
  split; [|split; [|split]].
  - apply calculateEffectiveness_range. intros i t Hi. apply Htimes.
    by apply on_channel_subset in Hi.
  - apply calculateEffectiveness_range. intros i t Hi. apply Htimes.
    by apply on_channel_subset in Hi.
  - by intros ->.
  - by intros ->.
Qed.

Lemma channel_effectiveness_range_witness :
  0 <= (Engine.analyzeChannelEffectiveness
          {| Engine.previousInteractions :=
               [ {| Engine.hour := 10; Engine.channel := "email"; Engine.sentiment := 1;
                    Engine.wasReplied := true; Engine.responseTime := Some 48;
                    Engine.messageTemplate := None |} ];
             Engine.customerPreferences :=
               {| Engine.preferredChannel := "email"; Engine.preferredLanguage := "en";
                  Engine.responseRate := 0.5; Engine.typicalResponseTime := 24;
                  Engine.doNotDisturbTimes := None |};
             Engine.aiInsights := None |}).1 <= 100.
Proof.
  apply channel_effectiveness_range.
  intros i t Hi. apply list_elem_of_singleton in Hi as ->. simpl.
  intros [= <-]. by vm_compute.
Defined.

(** ** The hour the engine sends at *)

Lemma bump_invariant (allowed : Z -> Prop) (h : Z) (rates : list (Z * nat)) :
  allowed h ->
  (forall k r, (k, r) ∈ rates -> (1 <= r)%nat /\ allowed k) ->
  forall k r, (k, r) ∈ Engine.bump h rates -> (1 <= r)%nat /\ allowed k.
Proof.
  intros Hh. induction rates as [|[k0 r0] rest IH]; intros Hall k r Hin; simpl in Hin.
  - apply list_elem_of_singleton in Hin as [= -> ->]. split; [lia|done].
  - destruct (Z.eqb_spec k0 h) as [->|Hne].
    + apply elem_of_cons in Hin as [[= -> ->]|Hin].
      * split; [lia|done].
      * apply Hall. by right.
    + apply elem_of_cons in Hin as [[= -> ->]|Hin].
      * apply Hall. left.
      * apply IH; [|done]. intros k' r' H'. apply Hall. by right.
Qed.

Lemma bump_nonempty (h : Z) (rates : list (Z * nat)) : Engine.bump h rates <> [].
Proof. destruct rates as [|[k r] rest]; simpl; [done|]. by destruct (k =? h)%Z. Qed.

Lemma rates_invariant (allowed : Z -> Prop) (interactions : list Engine.Interaction)
    (rates : list (Z * nat)) :
  (forall i, i ∈ interactions -> allowed (Engine.hour i)) ->
  (forall k r, (k, r) ∈ rates -> (1 <= r)%nat /\ allowed k) ->
  forall k r,
    (k, r) ∈ fold_left (fun rates i => Engine.bump (Engine.hour i) rates) interactions rates ->
    (1 <= r)%nat /\ allowed k.
Proof.
  revert rates. induction interactions as [|i rest IH]; intros rates Hhours Hrates; [done|].
  simpl. apply IH.
  - intros j Hj. apply Hhours. by right.
  - apply bump_invariant; [apply Hhours; left|done].
Qed.

Lemma rates_nonempty (interactions : list Engine.Interaction) (rates : list (Z * nat)) :
  interactions <> [] \/ rates <> [] ->
  fold_left (fun rates i => Engine.bump (Engine.hour i) rates) interactions rates <> [].
Proof.
  revert rates. induction interactions as [|i rest IH]; intros rates Hne; simpl.
  - by destruct Hne.
  - apply IH. right. apply bump_nonempty.
Qed.

Lemma fold_busiest (rates : list (Z * nat)) (init : Z * nat) :
  let best := fold_left (fun best entry => if (best.2 <? entry.2)%nat then entry else best)
                rates init in
  (best = init \/ best ∈ rates)
  /\ (init.2 <= best.2)%nat
  /\ forall entry, entry ∈ rates -> (entry.2 <= best.2)%nat.
Proof.
  revert init. induction rates as [|e rest IH]; intros init; simpl.
  - split; [by left|]. split; [lia|]. intros entry H. by apply elem_of_nil in H.
  - destruct (IH (if (init.2 <? e.2)%nat then e else init)) as (Hin & Hge & Hall).
    destruct (Nat.ltb_spec init.2 e.2) as [Hlt|Hle].
    + split; [right; destruct Hin as [->|Hin]; [left|by right]|].
      split; [lia|]. intros entry [->|H]%elem_of_cons; [done|by apply Hall].
    + split; [destruct Hin as [->|Hin]; [by left|right; by right]|].
      split; [done|]. intros entry [->|H]%elem_of_cons; [lia|by apply Hall].
Qed.

Lemma busiestHour_of_replies (context : Engine.Context) :
  Engine.replies (Engine.previousInteractions context) <> [] ->
  exists i,
    i ∈ Js.slice_last 5 (Engine.replies (Engine.previousInteractions context))
    /\ Engine.hour i = (Engine.busiestHour (Engine.hourlyResponseRates context)).1.
Proof.
  intros Hne. unfold Engine.hourlyResponseRates. cbv zeta.
  set (recent := Js.slice_last 5 (Engine.replies (Engine.previousInteractions context))).
  assert (Hrecent : recent <> []).
  { pose proof (slice_last_nonempty 5 _ ltac:(lia) Hne) as Hlen. fold recent in Hlen.
    destruct recent; [simpl in Hlen; lia|done]. }
  set (rates := fold_left _ recent []).
  assert (Hinv : forall k r, (k, r) ∈ rates ->
                   (1 <= r)%nat /\ exists i, i ∈ recent /\ Engine.hour i = k).
  { apply (rates_invariant (fun k => exists i, i ∈ recent /\ Engine.hour i = k)).
    - intros i Hi. by exists i.
    - intros k r H. by apply elem_of_nil in H. }
  assert (Hrates : rates <> []) by (apply rates_nonempty; by left).
  destruct (fold_busiest rates (9%Z, O)) as (Hin & _ & Hall).
  fold (Engine.busiestHour rates) in Hin, Hall.
  destruct rates as [|[k0 r0] rest] eqn:E; [done|]. rewrite <- E in *.
  assert (H0 : (k0, r0) ∈ rates) by (rewrite E; left).
  pose proof (Hall _ H0) as Hle. destruct (Hinv _ _ H0) as [Hr0 _]. simpl in Hle.
  destruct Hin as [Hinit|Hin]; [rewrite Hinit in Hle; simpl in Hle; lia|].
  destruct (Engine.busiestHour rates) as [k r]. by destruct (Hinv _ _ Hin) as [_ Hi].
Qed.

Lemma bestHour_number (context : Engine.Context) :
  (forall from to,
     Engine.doNotDisturbTimes (Engine.customerPreferences context)
     = Some {| Engine.dndStart := Some from; Engine.dndEnd := Some to |} ->
     ~ (from <= Engine.bestHour context <= to)%Z
     /\ ((to < from)%Z ->
         Engine.bestHour context
         = (Engine.busiestHour (Engine.hourlyResponseRates context)).1)
     /\ ((from <= (Engine.busiestHour (Engine.hourlyResponseRates context)).1 <= to)%Z ->
         Engine.bestHour context = (to + 1)%Z)
     /\ (~ (from <= (Engine.busiestHour (Engine.hourlyResponseRates context)).1 <= to)%Z ->
         Engine.bestHour context
         = (Engine.busiestHour (Engine.hourlyResponseRates context)).1))
  /\ (Engine.doNotDisturbTimes (Engine.customerPreferences context) = None ->
      (Engine.replies (Engine.previousInteractions context) = [] ->
       Engine.bestHour context = 9%Z)
      /\ (Engine.replies (Engine.previousInteractions context) <> [] ->
          exists i,
            i ∈ Js.slice_last 5 (Engine.replies (Engine.previousInteractions context))
            /\ Engine.hour i = Engine.bestHour context)).
Proof.
  split.
  - intros from to Hdnd. unfold Engine.bestHour. rewrite Hdnd. cbv zeta.
    set (h := (Engine.busiestHour (Engine.hourlyResponseRates context)).1).
    destruct (Z.leb_spec from h), (Z.leb_spec h to); simpl; repeat split; lia.
  - intros Hdnd. unfold Engine.bestHour. rewrite Hdnd. cbv zeta. split.
    + intros Hnil. unfold Engine.hourlyResponseRates. by rewrite Hnil.
    + apply busiestHour_of_replies.
Qed.

Lemma getHours_setHours (zone t h : Z) :
  Engine.getHours zone (Engine.setHours zone t h) = (h mod 24)%Z.
Proof.
  unfold Engine.getHours, Engine.setHours, Engine.dayMs.
  set (H := Engine.hourMs). assert (HH : H = 3600000%Z) by reflexivity.
  replace (t - (t + zone) mod (24 * H) + h * H + zone)%Z
    with (h * H + (t + zone) / (24 * H) * (24 * H))%Z.
  2:{ pose proof (Z.div_mod (t + zone) (24 * H) ltac:(lia)). lia. }
  rewrite Z_mod_plus_full.
  rewrite Z.mul_mod_distr_r by lia.
  apply Z.div_mul. lia.
Qed.

Lemma getHours_next_day (zone t : Z) :
  Engine.getHours zone (t + Engine.dayMs) = Engine.getHours zone t.
Proof.
  unfold Engine.getHours.
  replace (t + Engine.dayMs + zone)%Z with (t + zone + 1 * Engine.dayMs)%Z by lia.
  by rewrite Z_mod_plus_full.
Qed.

Lemma predictOptimalSendTime_hour (zone now : Z) (context : Engine.Context) :
  Engine.getHours zone (Engine.predictOptimalSendTime zone now context)
  = (Engine.bestHour context mod 24)%Z.
Proof.
  unfold Engine.predictOptimalSendTime. cbv zeta.
  destruct (_ <? now)%Z; [rewrite getHours_next_day|]; apply getHours_setHours.
Qed.

Lemma predictOptimalSendTime_not_past (zone now : Z) (context : Engine.Context) :
  (0 <= Engine.bestHour context)%Z ->
  (now <= Engine.predictOptimalSendTime zone now context)%Z.
Proof.
  intros Hhour. unfold Engine.predictOptimalSendTime. cbv zeta.
  destruct (Z.ltb_spec (Engine.setHours zone now (Engine.bestHour context)) now)
    as [Hpast|Hfuture]; [|done].
  unfold Engine.setHours.
  pose proof (Z.mod_pos_bound (now + zone) Engine.dayMs ltac:(done)) as Hmod.
  assert (0 <= Engine.bestHour context * Engine.hourMs)%Z by (unfold Engine.hourMs; lia).
  lia.
Qed.

Lemma busiestHour_in_day (context : Engine.Context) :
  (forall i, i ∈ Engine.previousInteractions context -> (0 <= Engine.hour i <= 23)%Z) ->
  (0 <= (Engine.busiestHour (Engine.hourlyResponseRates context)).1 <= 23)%Z.
Proof.
  intros Hhours.
  destruct (Engine.replies (Engine.previousInteractions context)) as [|i0 rest] eqn:E.
  - unfold Engine.hourlyResponseRates. rewrite E. simpl. lia.
  - destruct (busiestHour_of_replies context) as (i & Hi & <-); [by rewrite E|].
    apply Hhours. unfold Js.slice_last in Hi.
    apply (subseteq_drop _ _) in Hi.
    unfold Engine.replies in Hi. by apply elem_of_filter_bool in Hi as [Hi _].
Qed.

(** X17. The time [predictOptimalSendTime] returns, in a time zone without
    clock changes, with the hours of the interactions in 0..23. Its hour of
    day is the number handed to [setHours] modulo 24, and it is not in the
    past when that number is not negative. For a quiet window whose start and
    end parse to hours from..to with 0 <= from and to <= 23, the hour of day
    lies outside the window, unless the window is the whole day 0..23: then
    the hour after the end is 24, which is 00:00 of the next day, inside the
    window. The number handed to [setHours] is the busiest hour, replaced by
    the end of the window plus 1 when it lies in the window; a window that
    wraps over midnight (its start after its end) moves nothing. Without a
    window it is 9 when no interaction was replied to, and else the hour of
    one of the last five replied interactions. *)
Theorem bestHour_respects_quiet_window (zone now : Z) (context : Engine.Context) :
  Engine.getHours zone (Engine.predictOptimalSendTime zone now context)
  = (Engine.bestHour context mod 24)%Z
  /\ ((0 <= Engine.bestHour context)%Z ->
      (now <= Engine.predictOptimalSendTime zone now context)%Z)
  /\ (forall from to,
        Engine.doNotDisturbTimes (Engine.customerPreferences context)
        = Some {| Engine.dndStart := Some from; Engine.dndEnd := Some to |} ->
        (forall i, i ∈ Engine.previousInteractions context ->
                   (0 <= Engine.hour i <= 23)%Z) ->
        (0 <= from)%Z -> (to <= 23)%Z ->
        (~ (from = 0 /\ to = 23)%Z ->
         ~ (from <= Engine.getHours zone (Engine.predictOptimalSendTime zone now context)
            <= to)%Z)
        /\ (from = 0%Z -> to = 23%Z ->
            Engine.getHours zone (Engine.predictOptimalSendTime zone now context) = 0%Z
            /\ Engine.bestHour context = 24%Z))
  /\ (forall from to,
        Engine.doNotDisturbTimes (Engine.customerPreferences context)
        = Some {| Engine.dndStart := Some from; Engine.dndEnd := Some to |} ->
        ~ (from <= Engine.bestHour context <= to)%Z
        /\ ((to < from)%Z ->
            Engine.bestHour context
            = (Engine.busiestHour (Engine.hourlyResponseRates context)).1))
  /\ (Engine.doNotDisturbTimes (Engine.customerPreferences context) = None ->
      (Engine.replies (Engine.previousInteractions context) = [] ->
       Engine.bestHour context = 9%Z)
      /\ (Engine.replies (Engine.previousInteractions context) <> [] ->
          exists i,
            i ∈ Js.slice_last 5 (Engine.replies (Engine.previousInteractions context))
            /\ Engine.hour i = Engine.bestHour context)).
Proof.
  destruct (bestHour_number context) as [Hwindow Hnone].
  split; [apply predictOptimalSendTime_hour|].
  split; [apply predictOptimalSendTime_not_past|].
  split; [|split; [|exact Hnone]].
  - intros from to Hdnd Hhours Hfrom Hto.
    rewrite predictOptimalSendTime_hour.
    destruct (Hwindow from to Hdnd) as (_ & _ & Hinside & Houtside).
    pose proof (busiestHour_in_day context Hhours) as Hbusiest.
    set (busiest := (Engine.busiestHour (Engine.hourlyResponseRates context)).1) in *.
    destruct (decide (from <= busiest <= to)%Z) as [Hin|Hout].
    + rewrite (Hinside Hin). split.
      * intros Hwhole. destruct (decide (to = 23%Z)) as [->|Hless].
        -- change ((23 + 1) mod 24)%Z with 0%Z. lia.
        -- rewrite Z.mod_small by lia. lia.
      * intros -> ->. by split.
    + rewrite (Houtside Hout). rewrite Z.mod_small by lia. split; [done|].
      intros -> ->. lia.
  - intros from to Hdnd. destruct (Hwindow from to Hdnd) as (H1 & H2 & _). by split.
Qed.

(** A reply at 22 and the quiet window 22..23: the number handed to
    [setHours] is 24 and the time returned is at 00:00, outside the
    window. *)
Lemma bestHour_respects_quiet_window_witness :
  ~ (22 <= Engine.getHours 0
             (Engine.predictOptimalSendTime 0 now0
                (engine_context [interaction 22 1 true] 0.5
                   (Some {| Engine.dndStart := Some 22%Z; Engine.dndEnd := Some 23%Z |})
                   None))
     <= 23)%Z.
Proof.
  apply (proj1 (proj2 (proj2 (bestHour_respects_quiet_window 0 now0
                  (engine_context [interaction 22 1 true] 0.5
                     (Some {| Engine.dndStart := Some 22%Z; Engine.dndEnd := Some 23%Z |})
                     None))))
               22%Z 23%Z).
  - reflexivity.
  - intros i Hi. apply list_elem_of_singleton in Hi as ->. simpl. lia.
  - lia.
  - lia.
  - lia.
Defined.

(** X18. Both confidences of the engine are 70 plus 10 for each of their
    three signals that is on: for the AI confidence more than five
    interactions, a response rate above 0.7 and a predicted engagement above
    0.8; for the time confidence more than ten interactions, a response rate
    above 0.8 and a best time to send that is given. So they lie between 70
    and 100 and the cap at 100 never cuts anything; with at most five
    interactions, a response rate of at most 0.7 and no insights both are
    exactly 70. *)
Theorem confidences_range (context : Engine.Context) :
  let history := length (Engine.previousInteractions context) in
  let rate := Engine.responseRate (Engine.customerPreferences context) in
  Engine.calculateAIConfidence context
  == 70 + 10 * Js.of_nat
                 (Engine.signals
                    [ (5 <? history)%nat;
                      Js.gt rate 0.7;
                      match Engine.aiInsights context with
                      | Some insights => Js.gt (Engine.engagementPrediction insights) 0.8
                      | None => false
                      end ])
  /\ Engine.calculateTimeConfidence context
     == 70 + 10 * Js.of_nat
                    (Engine.signals
                       [ (10 <? history)%nat;
                         Js.gt rate 0.8;
                         match Engine.aiInsights context with
                         | Some insights =>
                             negb (bool_decide (Engine.bestTimeToSend insights = ""%string))
                         | None => false
                         end ])
  /\ 70 <= Engine.calculateAIConfidence context <= 100
  /\ 70 <= Engine.calculateTimeConfidence context <= 100
  /\ ((history <= 5)%nat -> rate <= 0.7 -> Engine.aiInsights context = None ->
      Engine.calculateAIConfidence context == 70
      /\ Engine.calculateTimeConfidence context == 70).
Proof.
  cbv zeta. unfold Engine.calculateAIConfidence, Engine.calculateTimeConfidence. cbv zeta.
  split; [|split; [|split; [|split]]].
  - destruct (5 <? _)%nat, (Js.gt _ 0.7), (Engine.aiInsights context) as [insights|];
      try destruct (Js.gt (Engine.engagementPrediction insights) 0.8);
      by vm_compute.
  - destruct (10 <? _)%nat, (Js.gt _ 0.8), (Engine.aiInsights context) as [insights|];
      simpl; try (destruct (Engine.bestTimeToSend insights); simpl);
      by vm_compute.
  - destruct (5 <? _)%nat, (Js.gt _ 0.7), (Engine.aiInsights context) as [insights|];
      try destruct (Js.gt (Engine.engagementPrediction insights) 0.8);
      split; by vm_compute.
  - destruct (10 <? _)%nat, (Js.gt _ 0.8), (Engine.aiInsights context) as [insights|];
      simpl; try destruct (Engine.bestTimeToSend insights);
      split; by vm_compute.
  - intros Hlen Hrate ->. simpl.
    destruct (Nat.ltb_spec 5 (length (Engine.previousInteractions context))); [lia|].
    destruct (Nat.ltb_spec 10 (length (Engine.previousInteractions context))); [lia|].
    rewrite !(proj2 (gt_false _ _)) by lra. split; by vm_compute.
Qed.

(** No interaction, a response rate of 0.9 and insights with a best time
    and a predicted engagement of 0.9: two signals of three are on for each
    confidence, which is 90. *)
Lemma confidences_range_witness :
  Engine.calculateAIConfidence
    (engine_context [] 0.9 None
       (Some {| Engine.bestTimeToSend := "09:00"; Engine.engagementPrediction := 0.9 |}))
  == 90
  /\ Engine.calculateTimeConfidence
       (engine_context [] 0.9 None
          (Some {| Engine.bestTimeToSend := "09:00"; Engine.engagementPrediction := 0.9 |}))
     == 90.
Proof.
  destruct (confidences_range
              (engine_context [] 0.9 None
                 (Some {| Engine.bestTimeToSend := "09:00";
                          Engine.engagementPrediction := 0.9 |})))
    as (Hai & Htime & _).
  split.
  - eapply Qeq_trans; [exact Hai|]. by vm_compute.
  - eapply Qeq_trans; [exact Htime|]. by vm_compute.
Defined.

(** ** The wording the engine adds *)

Lemma prepend_in_range (phrases : list string) (random : Q) (message : string) :
  0 <= random < 1 -> phrases <> [] ->
  exists phrase,
    phrase ∈ phrases /\ Wording.prepend phrases random message = (phrase +:+ message)%string.
Proof.
  intros [H0 H1] Hne. unfold Wording.prepend.
  set (n := length phrases).
  assert (Hn : 0 < Js.of_nat n).
  { apply of_nat_pos. unfold n. destruct phrases; [done|simpl; lia]. }
  set (i := Qfloor (random * Js.of_nat n)).
  assert (Hi0 : (0 <= i)%Z).
  { rewrite <- (Qfloor_Z 0). apply Qfloor_resp_le. change (inject_Z 0) with 0. nra. }
  assert (Hi1 : (i < Z.of_nat n)%Z).
  { rewrite Zlt_Qlt. eapply Qle_lt_trans; [apply Qfloor_le|].
    fold (Js.of_nat n). nra. }
  unfold Js.index. destruct (Z.ltb_spec i 0); [lia|].
  destruct (phrases !! Z.to_nat i) as [phrase|] eqn:E.
  - exists phrase. split; [by eapply list_elem_of_lookup_2|done].
  - apply lookup_ge_None in E. fold n in E. lia.
Qed.

(** X19. Optimising a message only ever puts text in front of it: the
    result is an urgency part, then an empathy part, then the message as it
    was. With draws of [Math.random] in [0,1) each part is empty or one of
    the three phrases of its kind. With no previous interaction sentiment and
    engagement are not numbers, both comparisons fail, and the message comes
    back unchanged. *)
Theorem optimizeMessageWithAI_only_prepends (empathyDraw urgencyDraw : Q)
    (message : string) (context : Engine.Context) :
  (Engine.previousInteractions context = [] ->
   Wording.optimizeMessageWithAI empathyDraw urgencyDraw message context = message)
  /\ (0 <= empathyDraw < 1 -> 0 <= urgencyDraw < 1 ->
      exists urgency empathy,
        Wording.optimizeMessageWithAI empathyDraw urgencyDraw message context
        = (urgency +:+ (empathy +:+ message))%string
        /\ (empathy = ""%string \/ empathy ∈ Wording.empathyPhrases)
        /\ (urgency = ""%string \/ urgency ∈ Wording.urgencyPhrases)
        /\ (empathy <> ""%string <->
            Js.undefined_lt (Engine.calculateCustomerSentiment context) 0.3 = true)
        /\ (urgency <> ""%string <->
            Js.undefined_lt (Engine.calculateEngagementLevel context) 0.5 = true)).
Proof.
  split.
  - intros Hnil. unfold Wording.optimizeMessageWithAI,
      Engine.calculateEngagementLevel, Engine.calculateCustomerSentiment.
    rewrite Hnil. simpl. by case_bool_decide.
  - intros Hempathy Hurgency. unfold Wording.optimizeMessageWithAI. cbv zeta.
    unfold Wording.translateMessage.
    assert (Hphrase : forall phrase, phrase ∈ Wording.empathyPhrases ++ Wording.urgencyPhrases ->
                                     phrase <> ""%string).
    { intros phrase H. repeat (apply elem_of_cons in H as [->|H]; [done|]).
      by apply elem_of_nil in H. }
    set (first := if Js.undefined_lt (Engine.calculateCustomerSentiment context) 0.3
                  then Wording.addEmpathy empathyDraw message else message).
    assert (Hfirst : exists empathy,
               first = (empathy +:+ message)%string
               /\ (empathy = ""%string \/ empathy ∈ Wording.empathyPhrases)
               /\ (empathy <> ""%string <->
                   Js.undefined_lt (Engine.calculateCustomerSentiment context) 0.3 = true)).
    { unfold first.
      destruct (Js.undefined_lt (Engine.calculateCustomerSentiment context) 0.3).
      - destruct (prepend_in_range Wording.empathyPhrases empathyDraw message Hempathy)
          as (phrase & Hin & Heq); [done|].
        exists phrase. split; [exact Heq|]. split; [by right|].
        split; [done|]. intros _. apply Hphrase. apply elem_of_app. by left.
      - exists ""%string. split; [done|]. split; [by left|]. by split. }
    destruct Hfirst as (empathy & -> & Hin & Hiff).
    assert (Hsecond : exists urgency,
               (if Js.undefined_lt (Engine.calculateEngagementLevel context) 0.5
                then Wording.increaseUrgency urgencyDraw (empathy +:+ message)
                else (empathy +:+ message))
               = (urgency +:+ (empathy +:+ message))%string
               /\ (urgency = ""%string \/ urgency ∈ Wording.urgencyPhrases)
               /\ (urgency <> ""%string <->
                   Js.undefined_lt (Engine.calculateEngagementLevel context) 0.5 = true)).
    { destruct (Js.undefined_lt (Engine.calculateEngagementLevel context) 0.5).
      - destruct (prepend_in_range Wording.urgencyPhrases urgencyDraw
                    (empathy +:+ message) Hurgency) as (phrase & Hin' & Heq); [done|].
        exists phrase. split; [exact Heq|]. split; [by right|].
        split; [done|]. intros _. apply Hphrase. apply elem_of_app. by right.
      - exists ""%string. split; [done|]. split; [by left|]. by split. }
    destruct Hsecond as (urgency & Heq & Hin' & Hiff').
    exists urgency, empathy. split; [|done].
    case_bool_decide; exact Heq.
Qed.

Lemma optimizeMessageWithAI_only_prepends_witness :
  Wording.optimizeMessageWithAI 0.5 0.5 "Please send the contract."
    {| Engine.previousInteractions := [];
       Engine.customerPreferences :=
         {| Engine.preferredChannel := "email"; Engine.preferredLanguage := "fr";
            Engine.responseRate := 0.5; Engine.typicalResponseTime := 24;
            Engine.doNotDisturbTimes := None |};
       Engine.aiInsights := None |} = "Please send the contract."%string.
Proof.
  apply (proj1 (optimizeMessageWithAI_only_prepends _ _ _ _)). reflexivity.
Defined.

(** ** The workflow automation: which rule runs *)

Lemma rule_order (x y : Workflow.WorkflowRule) :
  Js.le (Workflow.priority x - Workflow.priority y) 0 = true
  <-> Workflow.priority x <= Workflow.priority y.
Proof. rewrite le_spec. split; intros; lra. Qed.

Lemma matchingRules_first (s : Workflow.Automation) (doc : DocumentDetails)
    (customer : Customer) (rule : Workflow.WorkflowRule) (rest : list Workflow.WorkflowRule) :
  Workflow.matchingRules s doc customer = rule :: rest ->
  Workflow.first_matching doc customer (Workflow.rules s) rule.
Proof.
  intros Hmatch. unfold Workflow.matchingRules in Hmatch.
  assert (Hhead : head (Js.sort (fun a b => Workflow.priority a - Workflow.priority b)
                          (List.filter
                             (fun rule => Workflow.isActive rule
                                          && Workflow.condition rule doc customer)
                             (Workflow.rules s))) = Some rule)
    by by rewrite Hmatch.
  apply (sort_head_first_least _ Workflow.priority rule_order) in Hhead
    as (before' & after' & Hsplit & Hbefore & Hafter).
  apply filter_split in Hsplit as (before & after & Hrules & Hrule & <- & <-).
  apply andb_true_iff in Hrule as [Hactive Hcond].
  exists before, after. split; [done|]. split; [done|]. split; [done|]. split.
  - intros x Hx Hact Hc. apply Hbefore. apply elem_of_filter_bool.
    split; [done|]. by rewrite Hact, Hc.
  - intros x Hx Hact Hc. apply Hafter. apply elem_of_filter_bool.
    split; [done|]. by rewrite Hact, Hc.
Qed.

Lemma matchingRules_nil (s : Workflow.Automation) (doc : DocumentDetails)
    (customer : Customer) :
  Workflow.matchingRules s doc customer = [] <->
  forall r, r ∈ Workflow.rules s -> Workflow.isActive r = true ->
            Workflow.condition r doc customer = false.
Proof.
  unfold Workflow.matchingRules. split.
  - intros Hnil r Hin Hactive.
    assert (Hfilter : List.filter
                        (fun rule => Workflow.isActive rule
                                     && Workflow.condition rule doc customer)
                        (Workflow.rules s) = []).
    { apply (sort_head_nil (fun a b => Workflow.priority a - Workflow.priority b)).
      by rewrite Hnil. }
    destruct (Workflow.condition r doc customer) eqn:Hcond; [|done].
    assert (Hr : r ∈ List.filter
                   (fun rule => Workflow.isActive rule
                                && Workflow.condition rule doc customer)
                   (Workflow.rules s)).
    { apply elem_of_filter_bool. split; [done|]. by rewrite Hactive, Hcond. }
    rewrite Hfilter in Hr. by apply elem_of_nil in Hr.
  - intros Hnone.
    assert (Hfilter : List.filter
                        (fun rule => Workflow.isActive rule
                                     && Workflow.condition rule doc customer)
                        (Workflow.rules s) = []).
    { induction (Workflow.rules s) as [|r l IH]; [done|]. simpl.
      destruct (Workflow.isActive r) eqn:Hactive; simpl.
      - rewrite (Hnone r) by (done || left). apply IH.
        intros x Hx. apply Hnone. by right.
      - apply IH. intros x Hx. apply Hnone. by right. }
    by rewrite Hfilter.
Qed.



Lemma first_matching_elem (doc : DocumentDetails) (customer : Customer)
    (rules : list Workflow.WorkflowRule) (r : Workflow.WorkflowRule) :
  Workflow.first_matching doc customer rules r ->
  r ∈ rules /\ Workflow.isActive r = true /\ Workflow.condition r doc customer = true.
Proof.
  intros (b & a & -> & Hact & Hc & _). split; [|done].
  apply elem_of_app. right. left.
Qed.


Lemma map_set_elem {A} (key : string) (value : A) (m : list (string * A)) :
  (key, value) ∈ Workflow.map_set key value m.
Proof.
  induction m as [|[k v] rest IH]; simpl; [left|].
  case_bool_decide as Hk; [subst k; left|by right].
Qed.




Lemma builtin_matching (s : Workflow.Automation) (doc : DocumentDetails)
    (customer : Customer) :
  Workflow.rules s = Workflow.builtin_rules ->
  Workflow.matchingRules s doc customer
  = List.filter (fun rule => Workflow.condition rule doc customer) Workflow.builtin_rules.
Proof.
  intros Hrules. unfold Workflow.matchingRules. rewrite Hrules.
  unfold Workflow.builtin_rules. cbn [List.filter Workflow.isActive Workflow.condition andb].
  destruct (Js.gt (ai_urgency_score doc) 80), (details_status doc); reflexivity.
Qed.

(** X21. With the two built-in rules: a document whose urgency score is
    above 80 gets the reminder rule, overdue or not, so an urgent overdue
    document is not escalated; its follow-up fails when the messaging engine
    throws, the notification is sent all the same, and the execution is
    failed exactly in that case. A document at 80 or below that is overdue
    gets the escalation rule, whose two actions cannot fail. Any other
    document runs no rule and leaves no execution behind. *)
Theorem builtin_rules_outcome (env : Workflow.Environment) (doc : DocumentDetails)
    (customer : Customer) (s : Workflow.Automation) :
  Workflow.rules s = Workflow.builtin_rules ->
  let execution := (Workflow.processDocument env doc customer s).1 in
  let s' := (Workflow.processDocument env doc customer s).2 in
  (80 < ai_urgency_score doc ->
   Workflow.ruleId execution = "urgent-document-reminder"%string
   /\ Workflow.execution_actions execution
      = [ {| Workflow.executed_type := Workflow.followup;
             Workflow.action_status :=
               match Workflow.generateSmartMessage env customer doc with
               | Return followUp =>
                   Workflow.ActionCompleted (Workflow.FollowUpCreated followUp)
               | Throw e => Workflow.ActionFailed (Workflow.Thrown e)
               end |};
          {| Workflow.executed_type := Workflow.notification;
             Workflow.action_status := Workflow.ActionCompleted Workflow.Void |} ]
   /\ (Workflow.execution_status execution = Workflow.ExecutionFailed <->
       exists e, Workflow.generateSmartMessage env customer doc = Throw e))
  /\ (ai_urgency_score doc <= 80 -> details_status doc = StatusOverdue ->
      Workflow.ruleId execution = "overdue-document-escalation"%string
      /\ Workflow.execution_actions execution
         = [ {| Workflow.executed_type := Workflow.escalation;
                Workflow.action_status := Workflow.ActionCompleted Workflow.Void |};
             {| Workflow.executed_type := Workflow.tag;
                Workflow.action_status :=
                  Workflow.ActionCompleted
                    (Workflow.TagList (Some ["escalated"; "needs_attention"]%string)) |} ]
      /\ Workflow.execution_status execution = Workflow.ExecutionCompleted)
  /\ (ai_urgency_score doc <= 80 -> details_status doc <> StatusOverdue ->
      Workflow.ruleId execution = ""%string
      /\ Workflow.execution_actions execution = []
      /\ s' = s).
Proof.
  intros Hrules. cbv zeta. unfold Workflow.processDocument.
  rewrite (builtin_matching s doc customer Hrules).
  unfold Workflow.builtin_rules. cbn [List.filter Workflow.condition].
  split; [|split].
  - intros Hurgent. apply gt_spec in Hurgent. rewrite Hurgent.
    cbn [Workflow.actions Workflow.rule_id fmap list_fmap Workflow.action_type
         Workflow.ruleId Workflow.execution_actions Workflow.execution_status fst].
    unfold Workflow.executeAction. cbn [Workflow.action_type].
    split; [done|]. split; [done|].
    destruct (Workflow.generateSmartMessage env customer doc) as [followUp|e]; simpl.
    + split; [done|]. by intros [e He].
    + split; [by exists e|done].
  - intros Hcalm Hstatus. apply gt_false in Hcalm. rewrite Hcalm, Hstatus. by simpl.
  - intros Hcalm Hstatus. apply gt_false in Hcalm. rewrite Hcalm.
    by destruct (details_status doc).
Qed.

Lemma builtin_rules_outcome_witness :
  Workflow.ruleId
    (Workflow.processDocument (environment (Throw TypeError))
       (details overdue "2023-11-11T22:13:20.000Z" StatusOverdue 90) alice
       Workflow.fresh).1 = "urgent-document-reminder"%string.
Proof.
  apply (proj1 (builtin_rules_outcome (environment (Throw TypeError))
                  (details overdue "2023-11-11T22:13:20.000Z" StatusOverdue 90) alice
                  Workflow.fresh eq_refl)).
  by vm_compute.
Defined.

(** ** The workflow automation: managing the rules *)

Lemma processDocument_ruleId (env : Workflow.Environment) (doc : DocumentDetails)
    (customer : Customer) (s : Workflow.Automation) :
  Workflow.ruleId (Workflow.processDocument env doc customer s).1 = ""%string
  \/ exists rule,
       Workflow.first_matching doc customer (Workflow.rules s) rule
       /\ Workflow.ruleId (Workflow.processDocument env doc customer s).1
          = Workflow.rule_id rule.
Proof.
  unfold Workflow.processDocument.
  destruct (Workflow.matchingRules s doc customer) as [|rule rest] eqn:E; [by left|].
  right. exists rule. split; [by eapply matchingRules_first|done].
Qed.

(** X22. A rule that was removed, or switched off by an update, never runs
    again: no later execution names its id. (An execution that ran no rule
    has the empty id, hence the condition on the id.) *)
Theorem removed_rule_never_runs (env : Workflow.Environment) (doc : DocumentDetails)
    (customer : Customer) (s : Workflow.Automation) (ruleId : string) :
  ruleId <> ""%string ->
  Workflow.ruleId (Workflow.processDocument env doc customer
                     (Workflow.removeRule ruleId s)).1 <> ruleId
  /\ Workflow.ruleId
       (Workflow.processDocument env doc customer
          (Workflow.updateRule ruleId
             {| Workflow.new_id := None; Workflow.new_condition := None;
                Workflow.new_actions := None; Workflow.new_priority := None;
                Workflow.new_isActive := Some false |} s)).1 <> ruleId.
Proof.
  intros Hid. split.
  - destruct (processDocument_ruleId env doc customer (Workflow.removeRule ruleId s))
      as [->|(rule & Hfirst & ->)]; [done|].
    apply first_matching_elem in Hfirst as (Hin & _).
    simpl in Hin. apply elem_of_filter_bool in Hin as [_ Hne].
    apply negb_true_iff in Hne. by apply bool_decide_eq_false in Hne.
  - set (off := {| Workflow.new_id := None; Workflow.new_condition := None;
                   Workflow.new_actions := None; Workflow.new_priority := None;
                   Workflow.new_isActive := Some false |}).
    destruct (processDocument_ruleId env doc customer (Workflow.updateRule ruleId off s))
      as [->|(rule & Hfirst & ->)]; [done|].
    apply first_matching_elem in Hfirst as (Hin & Hactive & _).
    simpl in Hin. apply list_elem_of_fmap in Hin as (r & -> & _).
    case_bool_decide as Hr; [done|]. exact Hr.
Qed.

Lemma removed_rule_never_runs_witness :
  Workflow.ruleId
    (Workflow.processDocument (environment (Throw TypeError)) urgent_details alice
       (Workflow.removeRule "urgent-document-reminder" Workflow.fresh)).1
  <> "urgent-document-reminder"%string.
Proof.
  apply (proj1 (removed_rule_never_runs (environment (Throw TypeError)) urgent_details
                  alice Workflow.fresh "urgent-document-reminder" ltac:(done))).
Defined.




(** ** Sorting: the whole sorted array *)

Lemma sort_insert_perm {A} (cmp : A -> A -> Q) (x : A) (l : list A) :
  Js.sort_insert cmp x l ≡ₚ x :: l.
Proof.
  induction l as [|y l IH]; simpl; [done|].
  destruct (Js.le (cmp x y) 0); [done|]. rewrite IH. apply Permutation_swap.
Qed.

Lemma sort_perm {A} (cmp : A -> A -> Q) (l : list A) : Js.sort cmp l ≡ₚ l.
Proof.
  induction l as [|x l IH]; simpl; [done|].
  unfold Js.sort in IH. by rewrite sort_insert_perm, IH.
Qed.

Section SortedArray.
Context {A : Type} (cmp : A -> A -> Q) (R : relation A).
Hypothesis cmp_R : forall x y, Js.le (cmp x y) 0 = true <-> R x y.
Hypothesis R_trans : forall x y z, R x y -> R y z -> R x z.
Hypothesis R_total : forall x y, R x y \/ R y x.

Lemma sort_insert_sorted (x : A) (l : list A) :
  StronglySorted R l -> StronglySorted R (Js.sort_insert cmp x l).
Proof using cmp_R R_trans R_total.
  induction l as [|y l IH]; intros Hsorted; simpl.
  - by repeat constructor.
  - apply StronglySorted_inv in Hsorted as [Hl Hy].
    destruct (Js.le (cmp x y) 0) eqn:Hxy.
    + apply cmp_R in Hxy. apply SSorted_cons; [by apply SSorted_cons|].
      constructor; [done|]. eapply Forall_impl; [exact Hy|].
      intros z Hz. by eapply R_trans.
    + assert (Hyx : R y x).
      { destruct (R_total x y) as [H|H]; [|done]. apply cmp_R in H. congruence. }
      apply SSorted_cons; [by apply IH|].
      rewrite sort_insert_perm. by constructor.
Qed.

Lemma sort_sorted (l : list A) : StronglySorted R (Js.sort cmp l).
Proof using cmp_R R_trans R_total.
  induction l as [|x l IH]; simpl; [constructor|]. by apply sort_insert_sorted.
Qed.
End SortedArray.

(** ** The workflow automation: the executions of a document *)

Lemma processDocument_stored (env : Workflow.Environment) (doc : DocumentDetails)
    (customer : Customer) (s : Workflow.Automation) (r : Workflow.WorkflowRule) :
  r ∈ Workflow.rules s -> Workflow.isActive r = true ->
  Workflow.condition r doc customer = true ->
  (Workflow.randomUUID env, (Workflow.processDocument env doc customer s).1)
  ∈ Workflow.executions (Workflow.processDocument env doc customer s).2
  /\ Workflow.documentId (Workflow.processDocument env doc customer s).1
     = document_id (details_document doc).
Proof.
  intros Hin Hactive Hcond. unfold Workflow.processDocument.
  destruct (Workflow.matchingRules s doc customer) as [|rule rest] eqn:E.
  - rewrite (proj1 (matchingRules_nil s doc customer) E r Hin Hactive) in Hcond. done.
  - simpl. split; [apply map_set_elem|done].
Qed.

(** X24. [getExecutions] returns the stored executions of the document
    asked for, all of them and no other, the latest start first. An
    execution that ran a rule is among those of its document right after
    [processDocument]; one that ran none is not stored, so that the list is
    what it was. *)
Theorem getExecutions_sorted (s : Workflow.Automation) (documentId : string) :
  StronglySorted (fun a b => (Workflow.startedAt b <= Workflow.startedAt a)%Z)
    (Workflow.getExecutions documentId s)
  /\ Workflow.getExecutions documentId s
     ≡ₚ List.filter (fun e => bool_decide (Workflow.documentId e = documentId))
          (snd <$> Workflow.executions s)
  /\ (forall e, e ∈ Workflow.getExecutions documentId s <->
                e ∈ (snd <$> Workflow.executions s) /\ Workflow.documentId e = documentId)
  /\ (forall env doc customer r,
        r ∈ Workflow.rules s -> Workflow.isActive r = true ->
        Workflow.condition r doc customer = true ->
        (Workflow.processDocument env doc customer s).1
        ∈ Workflow.getExecutions (document_id (details_document doc))
            (Workflow.processDocument env doc customer s).2)
  /\ (forall env doc customer,
        (forall r, r ∈ Workflow.rules s -> Workflow.isActive r = true ->
                   Workflow.condition r doc customer = false) ->
        Workflow.getExecutions documentId (Workflow.processDocument env doc customer s).2
        = Workflow.getExecutions documentId s).
Proof.
  assert (Hmember : forall s e d,
             e ∈ Workflow.getExecutions d s <->
             e ∈ (snd <$> Workflow.executions s) /\ Workflow.documentId e = d).
  { intros s0 e d. unfold Workflow.getExecutions. rewrite sort_perm.
    rewrite elem_of_filter_bool. by rewrite bool_decide_eq_true. }
  split; [|split; [|split; [|split]]].
  - unfold Workflow.getExecutions. apply sort_sorted.
    + intros x y. rewrite le_spec, Zle_Qle. split; intros; lra.
    + intros x y z. lia.
    + intros x y. lia.
  - unfold Workflow.getExecutions. apply sort_perm.
  - intros e. apply Hmember.
  - intros env doc customer r Hin Hactive Hcond.
    destruct (processDocument_stored env doc customer s r Hin Hactive Hcond)
      as [Hstored Hdoc].
    apply Hmember. split; [|done].
    apply list_elem_of_fmap. by exists (Workflow.randomUUID env, (Workflow.processDocument env doc customer s).1).
  - intros env doc customer Hnone. apply matchingRules_nil in Hnone.
    unfold Workflow.processDocument. by rewrite Hnone.
Qed.

Lemma getExecutions_sorted_witness :
  (Workflow.processDocument (environment (Throw TypeError)) urgent_details alice
     Workflow.fresh).1
  ∈ Workflow.getExecutions "d1"
      (Workflow.processDocument (environment (Throw TypeError)) urgent_details alice
         Workflow.fresh).2.
Proof.
  eapply (proj1 (proj2 (proj2 (proj2 (getExecutions_sorted Workflow.fresh "d1"))))
            (environment (Throw TypeError)) urgent_details alice);
    [left|reflexivity|by vm_compute].
Defined.

(** ** The document classifier *)

Lemma matchCount_le (m : Classifier.Matcher) (text : string)
    (category : Classifier.DocumentCategory) :
  (Classifier.matchCount m text category
   <= length (Classifier.keywords category) + length (Classifier.patterns category))%nat.
Proof.
  unfold Classifier.matchCount.
  pose proof (List.filter_length_le (Classifier.includes m text)
                (Classifier.keywords category)).
  pose proof (List.filter_length_le (fun pattern => Classifier.test m pattern text)
                (Classifier.patterns category)).
  lia.
Qed.

(** X25. The score of a category is the share of its keywords and patterns
    found in the text: the number of keywords found plus the number of
    patterns that match, over the number of keywords and patterns. When the
    document has an AI confidence other than 0, the score is the mean of that
    share and the confidence as a share of 100. For a category with no
    keyword and no pattern it is not a number. With an AI confidence between
    0 and 100 the score lies between 0 and 1, and it is at most 0.5 when
    nothing of the category is found. *)
Theorem calculateCategoryScore_range (m : Classifier.Matcher) (doc : DocumentDetails)
    (category : Classifier.DocumentCategory) :
  let text := Classifier.extractTextContent doc in
  let found :=
    (length (List.filter (Classifier.includes m text) (Classifier.keywords category))
     + length (List.filter (fun pattern => Classifier.test m pattern text)
                 (Classifier.patterns category)))%nat in
  let listed :=
    (length (Classifier.keywords category) + length (Classifier.patterns category))%nat in
  (Classifier.keywords category = [] -> Classifier.patterns category = [] ->
   Classifier.calculateCategoryScore m doc category = None)
  /\ ((0 < listed)%nat ->
      exists score,
        Classifier.calculateCategoryScore m doc category = Some score
        /\ (category_confidence doc = None ->
            score == Js.of_nat found / Js.of_nat listed)
        /\ (forall c, category_confidence doc = Some c -> c == 0 ->
                      score == Js.of_nat found / Js.of_nat listed)
        /\ (forall c, category_confidence doc = Some c -> ~ c == 0 ->
                      score == (Js.of_nat found / Js.of_nat listed + c / 100) / 2)
        /\ ((forall c, category_confidence doc = Some c -> 0 <= c <= 100) ->
            0 <= score <= 1 /\ (found = O -> score <= 0.5))).
Proof.
  cbv zeta. unfold Classifier.calculateCategoryScore. cbv zeta. split.
  - intros -> ->. simpl.
    by destruct (category_confidence doc) as [c|]; [destruct (Qeq_bool c 0)|].
  - intros Htotal.
    fold (Classifier.matchCount m (Classifier.extractTextContent doc) category).
    set (matches := Classifier.matchCount m (Classifier.extractTextContent doc) category).
    set (total := (length (Classifier.keywords category)
                   + length (Classifier.patterns category))%nat) in *.
    destruct (ratio_range matches total) as [Hb0 Hb1];
      [apply matchCount_le|done|].
    assert (Hzero : matches = O -> Js.of_nat matches / Js.of_nat total == 0).
    { intros ->. change (Js.of_nat 0) with 0. unfold Qdiv. apply Qmult_0_l. }
    unfold Engine.over. destruct total as [|n] eqn:En; [lia|]. rewrite <- En in *.
    destruct (category_confidence doc) as [c|] eqn:Ec.
    + destruct (Qeq_bool c 0) eqn:Ezero; simpl.
      * eexists. split; [reflexivity|]. split; [done|]. split; [done|]. split.
        -- intros c' [= <-] Hnz. apply Qeq_bool_iff in Ezero. contradiction.
        -- intros _. split; [done|]. intros Hnone. rewrite (Hzero Hnone). lra.
      * eexists. split; [reflexivity|]. split; [done|]. split; [|split].
        -- intros c' [= <-] Hz. apply Qeq_bool_iff in Hz. congruence.
        -- intros c' [= <-] _. reflexivity.
        -- intros Hconfidence. destruct (Hconfidence c eq_refl) as [Hc0 Hc1].
           assert (H0 : 0 <= c / 100) by (apply Qle_shift_div_l; lra).
           assert (H1 : c / 100 <= 1) by (apply Qle_shift_div_r; lra).
           split; [split|].
           ++ apply Qle_shift_div_l; lra.
           ++ apply Qle_shift_div_r; lra.
           ++ intros Hnone. rewrite (Hzero Hnone). apply Qle_shift_div_r; lra.
    + eexists. split; [reflexivity|]. split; [done|]. split; [done|]. split; [done|].
      intros _. split; [done|]. intros Hnone. rewrite (Hzero Hnone). lra.
Qed.

(** Two of the four keywords and patterns found, and an AI confidence of 80:
    the score is the mean of 0.5 and 0.8. *)
Lemma calculateCategoryScore_range_witness :
  exists score,
    Classifier.calculateCategoryScore keywords_found analysed_details small_category
    = Some score
    /\ score == 0.65.
Proof.
  destruct (proj2 (calculateCategoryScore_range keywords_found analysed_details
                     small_category))
    as (score & Hscore & _ & _ & Hformula & _).
  - simpl. lia.
  - exists score. split; [exact Hscore|].
    eapply Qeq_trans; [apply (Hformula 80 eq_refl); by vm_compute|]. by vm_compute.
Defined.

Lemma omap_length_le {A B} (f : A -> option B) (l : list A) :
  (length (omap f l) <= length l)%nat.
Proof.
  induction l as [|x l IH]; simpl; [lia|].
  change (list_omap A B f l) with (omap f l). destruct (f x); simpl; lia.
Qed.

Lemma classified_elem (catalog : list Classifier.DocumentCategory) (m : Classifier.Matcher)
    (doc : DocumentDetails) (r : Classifier.DocumentCategory) :
  r ∈ Classifier.classifyFrom catalog m doc <->
  exists c score,
    c ∈ catalog /\ Classifier.calculateCategoryScore m doc c = Some score
    /\ 0.7 < score /\ r = Classifier.with_confidence (c, score).
Proof.
  unfold Classifier.classifyFrom. cbv zeta. rewrite list_elem_of_fmap. split.
  - intros ([c score] & -> & Hin). rewrite sort_perm in Hin.
    apply list_elem_of_omap in Hin as ([c' s'] & Hin & Habove).
    apply list_elem_of_fmap in Hin as (c0 & [= -> ->] & Hc0).
    unfold Classifier.above_threshold in Habove. simpl in Habove.
    destruct (Classifier.calculateCategoryScore m doc c0) as [q|] eqn:Eq; [|done].
    destruct (Js.gt q 0.7) eqn:Hgt; [|done]. injection Habove as <- <-.
    apply gt_spec in Hgt. by exists c0, q.
  - intros (c & score & Hin & Hscore & Hgt & ->). exists (c, score). split; [done|].
    rewrite sort_perm. apply list_elem_of_omap.
    exists (c, Classifier.calculateCategoryScore m doc c). split.
    + apply list_elem_of_fmap. by exists c.
    + unfold Classifier.above_threshold. simpl. rewrite Hscore.
      apply gt_spec in Hgt. by rewrite Hgt.
Qed.

(** X26. [classifyDocument] returns the categories whose score is above
    0.7, each with that score as its confidence, all of them and no other,
    the highest confidence first. A category whose score is exactly 0.7, or
    not a number, is left out. *)
Theorem classifyDocument_sorted_above_threshold
    (catalog : list Classifier.DocumentCategory) (m : Classifier.Matcher)
    (doc : DocumentDetails) :
  StronglySorted (fun a b => Classifier.confidence b <= Classifier.confidence a)
    (Classifier.classifyFrom catalog m doc)
  /\ (forall r, r ∈ Classifier.classifyFrom catalog m doc <->
        exists c score,
          c ∈ catalog /\ Classifier.calculateCategoryScore m doc c = Some score
          /\ 0.7 < score /\ r = Classifier.with_confidence (c, score))
  /\ (length (Classifier.classifyFrom catalog m doc) <= length catalog)%nat
  /\ Classifier.classifyDocument m doc = Classifier.classifyFrom Classifier.categories m doc
  /\ (length (Classifier.classifyDocument m doc) <= 3)%nat.
Proof.
  assert (Hlength : forall catalog,
             (length (Classifier.classifyFrom catalog m doc) <= length catalog)%nat).
  { intros l. unfold Classifier.classifyFrom. cbv zeta.
    rewrite length_fmap, sort_perm.
    etrans; [apply omap_length_le|]. by rewrite length_fmap. }
  split; [|split; [|split; [|split]]].
  - unfold Classifier.classifyFrom. cbv zeta.
    apply (StronglySorted_fmap _ (fun a b : Classifier.DocumentCategory * Q => b.2 <= a.2)).
    + by intros [c1 s1] [c2 s2].
    + apply sort_sorted.
      * intros x y. rewrite le_spec. split; intros; lra.
      * intros x y z. lra.
      * intros x y. lra.
  - intros r. apply classified_elem.
  - apply Hlength.
  - done.
  - apply (Hlength Classifier.categories).
Qed.

(** ** The tags of a document *)

Lemma elem_of_set_add (x y : string) (l : list string) :
  x ∈ set_add y l <-> x ∈ l \/ x = y.
Proof.
  unfold set_add. case_decide as Hy.
  - split; [by left|]. intros [H| ->]; done.
  - rewrite elem_of_app, list_elem_of_singleton. done.
Qed.

Lemma NoDup_set_add (y : string) (l : list string) : NoDup l -> NoDup (set_add y l).
Proof.
  intros Hl. unfold set_add. case_decide as Hy; [done|].
  apply NoDup_app. split; [done|]. split; [|apply NoDup_singleton].
  intros x Hx Hx'. apply list_elem_of_singleton in Hx' as ->. done.
Qed.

Lemma category_tags (categories : list Classifier.DocumentCategory) (tags : list string) :
  let tags' :=
    fold_left (fun tags category => set_add (Classifier.category_id category) tags)
      categories tags in
  (NoDup tags -> NoDup tags')
  /\ forall tag, tag ∈ tags' <->
       tag ∈ tags \/ exists c, c ∈ categories /\ Classifier.category_id c = tag.
Proof.
  cbv zeta. revert tags. induction categories as [|c l IH]; intros tags; simpl.
  - split; [done|]. intros tag. split; [by left|].
    intros [H|(c & Hc & _)]; [done|]. by apply elem_of_nil in Hc.
  - destruct (IH (set_add (Classifier.category_id c) tags)) as [Hnodup Helem].
    split; [intros H; by apply Hnodup, NoDup_set_add|].
    intros tag. rewrite Helem, elem_of_set_add. split.
    + intros [[H|H]|(c' & Hc' & Hid)]; [by left| |].
      * right. exists c. split; [left|done].
      * right. exists c'. split; [by right|done].
    + intros [H|(c' & Hc' & Hid)]; [by left; left|].
      apply elem_of_cons in Hc' as [->|Hc']; [left; by right|].
      right. by exists c'.
Qed.

Lemma dateTags_elem (now date : Z) (tags : list string) (tag : string) :
  tag ∈ Classifier.dateTags now tags date <->
  tag ∈ tags
  \/ (tag = "expired"%string /\ (date < now)%Z)
  \/ (tag = "expires_soon"%string /\ (now <= date < now + 604800000)%Z).
Proof.
  unfold Classifier.dateTags.
  destruct (Z.ltb_spec date now) as [Hlt|Hge].
  - rewrite elem_of_set_add. split; [intros [H| ->]; [by left|right; left; done]|].
    intros [H|[[-> _]|[_ H]]]; [by left|by right|lia].
  - destruct (Z.ltb_spec (date - now) (7 * 24 * 60 * 60 * 1000)) as [Hsoon|Hlate].
    + rewrite elem_of_set_add. split.
      * intros [H| ->]; [by left|]. right; right. split; [done|lia].
      * intros [H|[[_ H]|[-> _]]]; [by left|lia|by right].
    + split; [by left|]. intros [H|[[_ H]|[_ H]]]; [done|lia|lia].
Qed.

Lemma NoDup_dateTags (now date : Z) (tags : list string) :
  NoDup tags -> NoDup (Classifier.dateTags now tags date).
Proof.
  intros H. unfold Classifier.dateTags.
  destruct (date <? now)%Z; [by apply NoDup_set_add|].
  destruct (date - now <? _)%Z; [by apply NoDup_set_add|done].
Qed.

Lemma confidence_sum_above (categories : list Classifier.DocumentCategory) (a : Q) :
  (forall c, c ∈ categories -> 0.7 < Classifier.confidence c) -> categories <> [] ->
  a + Js.of_nat (length categories) * 0.7
  < fold_left (fun sum category => sum + Classifier.confidence category) categories a.
Proof.
  revert a. induction categories as [|c l IH]; intros a Hall Hne; [done|].
  assert (Hc : 0.7 < Classifier.confidence c) by (apply Hall; left).
  change (Js.of_nat (length (c :: l))) with (Js.of_nat (S (length l))).
  pose proof (of_nat_S (length l)) as HS. simpl.
  destruct l as [|c' l'].
  - simpl. change (Js.of_nat 1) with 1. lra.
  - eapply Qlt_trans; [|apply IH; [intros x Hx; apply Hall; by right|done]].
    rewrite HS. lra.
Qed.

(** X27. The tags [generateTags] gives a document, for any list of
    categories: the ids of the categories it is classified in, [urgent] and
    [high_priority] exactly when its urgency score is above 80, [overdue] and
    [needs_attention] exactly when its status is overdue, and, from the two
    fixed dates of the metadata, [expired] once the earlier of them has
    passed and [expires_soon] during the seven days up to either; no tag
    twice. No tag is ever suggested: none of the fixed key phrases is a
    common tag. The confidence is 0 without a category and above 0.7 with
    one. *)
Theorem generateTags_tags (catalog : list Classifier.DocumentCategory)
    (m : Classifier.Matcher) (now : Z) (doc : DocumentDetails) :
  let result := Classifier.generateTagsFrom catalog m now doc in
  NoDup (Classifier.tags result)
  /\ (forall tag, tag ∈ Classifier.tags result <->
        (exists c, c ∈ Classifier.classifyFrom catalog m doc
                   /\ Classifier.category_id c = tag)
        \/ ((tag = "urgent"%string \/ tag = "high_priority"%string)
            /\ 80 < ai_urgency_score doc)
        \/ ((tag = "overdue"%string \/ tag = "needs_attention"%string)
            /\ details_status doc = StatusOverdue)
        \/ (tag = "expired"%string /\ (1710460800000 < now)%Z)
        \/ (tag = "expires_soon"%string
            /\ ((1709856000000 < now <= 1710460800000)%Z
                \/ (1734998400000 < now <= 1735603200000)%Z)))
  /\ Classifier.suggestedTags result = []
  /\ (Classifier.classifyFrom catalog m doc = [] -> Classifier.tag_confidence result = 0)
  /\ (Classifier.classifyFrom catalog m doc <> [] ->
      0.7 < Classifier.tag_confidence result)
  /\ Classifier.generateTags m now doc
     = Classifier.generateTagsFrom Classifier.categories m now doc.
Proof.
  cbv zeta. unfold Classifier.generateTagsFrom. cbv zeta.
  cbn [Classifier.tags Classifier.suggestedTags Classifier.tag_confidence].
  set (classified := Classifier.classifyFrom catalog m doc).
  destruct (category_tags classified []) as [Hnodup0 Helem0]. cbv zeta in *.
  set (tags0 := fold_left _ classified []) in *.
  set (tags1 := if Js.gt (ai_urgency_score doc) 80
                then set_add "high_priority" (set_add "urgent" tags0) else tags0).
  set (tags2 := match details_status doc with
                | StatusOverdue => set_add "needs_attention" (set_add "overdue" tags1)
                | _ => tags1
                end).
  assert (Hnodup1 : NoDup tags1).
  { unfold tags1. destruct (Js.gt _ _); [do 2 apply NoDup_set_add|];
      apply Hnodup0, NoDup_nil_2. }
  assert (Hnodup2 : NoDup tags2).
  { unfold tags2. by destruct (details_status doc); [| |do 2 apply NoDup_set_add]. }
  assert (Helem1 : forall tag, tag ∈ tags1 <->
             tag ∈ tags0
             \/ ((tag = "urgent"%string \/ tag = "high_priority"%string)
                 /\ 80 < ai_urgency_score doc)).
  { intros tag. unfold tags1. destruct (Js.gt (ai_urgency_score doc) 80) eqn:Hgt.
    - apply gt_spec in Hgt. rewrite !elem_of_set_add. tauto.
    - apply gt_false in Hgt. split; [by left|]. intros [H|[_ H]]; [done|lra]. }
  assert (Helem2 : forall tag, tag ∈ tags2 <->
             tag ∈ tags1
             \/ ((tag = "overdue"%string \/ tag = "needs_attention"%string)
                 /\ details_status doc = StatusOverdue)).
  { intros tag. unfold tags2. destruct (details_status doc);
      [split; [by left|intros [H|[_ H]]; done]..|].
    rewrite !elem_of_set_add. tauto. }
  split; [|split; [|split; [|split; [|split]]]].
  - simpl. by do 2 apply NoDup_dateTags.
  - intros tag. simpl. rewrite !dateTags_elem, Helem2, Helem1, Helem0.
    split.
    + intros [[[[[H|H]|H]|H]|H]|H].
      * by apply elem_of_nil in H.
      * by left.
      * right; by left.
      * right; right; by left.
      * destruct H as [[-> H]|[-> H]].
        -- right; right; right; left. split; [done|lia].
        -- right; right; right; right. split; [done|lia].
      * destruct H as [[-> H]|[-> H]].
        -- right; right; right; left. split; [done|lia].
        -- right; right; right; right. split; [done|lia].
    + intros [H|[H|[H|[[-> H]|[-> H]]]]].
      * left; left; left; left; by right.
      * left; left; left; by right.
      * left; left; by right.
      * right; left. split; [done|lia].
      * destruct H as [H|H].
        -- right; right. split; [done|lia].
        -- left; right; right. split; [done|lia].
  - by vm_compute.
  - intros Hnil. fold classified in Hnil. by rewrite Hnil.
  - intros Hne. fold classified in Hne.
    assert (Hlen : (0 < length classified)%nat) by (destruct classified; [done|simpl; lia]).
    destruct (Nat.ltb_spec 0 (length classified)) as [_|H]; [|lia].
    apply Qlt_shift_div_l; [by apply of_nat_pos|].
    pose proof (confidence_sum_above classified 0) as Hsum.
    eapply Qle_lt_trans; [|apply Hsum; [|done]].
    + lra.
    + intros c Hc. apply classified_elem in Hc as (c0 & score & _ & _ & Hgt & ->). done.
  - done.
Qed.

Lemma generateTags_tags_witness :
  0.7 < Classifier.tag_confidence
          (Classifier.generateTagsFrom Classifier.categories all_found now0 urgent_details).
Proof.
  apply (proj1 (proj2 (proj2 (proj2 (proj2
           (generateTags_tags Classifier.categories all_found now0 urgent_details)))))).
  by vm_compute.
Defined.
